(** * M2SDR RF utility: the PRBS delay calibration of [m2sdr_init]

    A shallow embedding of [software/user/m2sdr_rf.c].  The calls the
    utility makes to the kernel driver, to libm2sdr and to the AD9361
    driver are recorded as events of a trace; the values those calls
    return come from an oracle over the trace so far.  Integers are [Z];
    the two places where the width of a C type matters ([uint32_t
    samplerate], [int64_t tx_gain]) are written out. *)

From Stdlib Require Import ZArith Lia Bool.
From stdpp Require Import base list strings gmap.

Local Open Scope Z_scope.

(** ** The grid of valid delays *)

(** [int rx_valid_delays[16][16]] and [int tx_valid_delays[16][16]]:
    rows are clock delays, columns are data delays. *)
Definition Grid : Type := list (list Z).

(** [= {{0}}] *)
Definition grid_init : Grid := replicate 16 (replicate 16 0).

(** [valid_delays[clk][dat]], read.  The source only reads indices below
    16, so the default is never observed on a 16x16 grid. *)
Definition cell (g : Grid) (clk dat : nat) : Z :=
  default 0 (g !! clk ≫= (.!! dat)).

(** [valid_delays[clk][dat] = v] *)
Definition grid_set (g : Grid) (clk dat : nat) (v : Z) : Grid :=
  <[clk := <[dat := v]> (default [] (g !! clk))]> g.

(** ** Selection of the optimal delays (lines 255-273 and 320-338) *)

(** The three locals the search updates: [max_valid_delays],
    [optimal_rx_clk_delay] and [optimal_rx_dat_delay] (the TX block reuses
    the first and declares its own copies of the other two). *)
Record Optimum : Type := mkOptimum {
  max_valid_delays : Z;
  optimal_clk_delay : Z;
  optimal_dat_delay : Z
}.

(** [max_valid_delays = 0], [optimal_rx_clk_delay = -1],
    [optimal_rx_dat_delay = -1] *)
Definition optimum_init : Optimum := mkOptimum 0 (-1) (-1).

(** [for (int i = dat; i < 16 && valid_delays[clk][i] == 1; i++)
       valid_count++;]
    The loop leaves at [i = 16] at the latest, so [fuel = 16] iterations
    are never used up (see [count_valid_fuel]). *)
Fixpoint count_valid (g : Grid) (clk i : nat) (fuel : nat) (valid_count : Z) : Z :=
  match fuel with
  | O => valid_count
  | S fuel' =>
      if (i <? 16)%nat && (cell g clk i =? 1)
      then count_valid g clk (S i) fuel' (valid_count + 1)
      else valid_count
  end.

(** Body of the two nested [for] loops, lines 261-271. *)
Definition select_cell (g : Grid) (clk dat : nat) (st : Optimum) : Optimum :=
  if cell g clk dat =? 1 then
    let valid_count := count_valid g clk dat 16 0 in
    if valid_count >? max_valid_delays st then
      mkOptimum valid_count (Z.of_nat clk) (Z.of_nat dat + valid_count ÷ 2)
    else st
  else st.

(** [for (i = lo; i < hi; i++) body], on a state threaded through. *)
Definition for_range {S : Type} (lo hi : nat) (body : nat → S → S) (s : S) : S :=
  foldl (λ s i, body i s) s (seq lo (hi - lo)).

Definition find_optimal_loop (g : Grid) : Optimum :=
  for_range 0 16 (λ clk,
    for_range 0 16 (λ dat, select_cell g clk dat)) optimum_init.

(** The pair the source goes on with. *)
Definition find_optimal (g : Grid) : Z * Z :=
  let st := find_optimal_loop g in
  (optimal_clk_delay st, optimal_dat_delay st).

(** [optimal_clk_delay != -1 && optimal_dat_delay != -1] *)
Definition found (opt : Z * Z) : bool :=
  negb (opt.1 =? -1) && negb (opt.2 =? -1).

(** ** Integer types *)

(** Value of a 64-bit two's complement integer holding [z] after
    wrap-around ([int64_t]). *)
Definition int64_wrap (z : Z) : Z := (z + 2 ^ 63) `mod` 2 ^ 64 - 2 ^ 63.

(** Value of an [unsigned long] (64 bits on the targets of the utility). *)
Definition ulong_wrap (z : Z) : Z := z `mod` 2 ^ 64.

(** Value of an [unsigned int], which is also the [useconds_t] that
    [usleep] takes. *)
Definition uint_wrap (z : Z) : Z := z `mod` 2 ^ 32.

(** Value of an [unsigned char]. *)
Definition uchar_wrap (z : Z) : Z := z `mod` 2 ^ 8.

(** ** Constants of the headers

    [m2sdr_init] uses macros and tables of headers that are not part of
    the file: the CSR map of the gateware ([csr.h]), the register map of
    the AD9361 driver ([ad9361.h]) and [m2sdr_config.h].  They are taken
    as parameters. *)
Class Headers : Type := {
  SI5351_I2C_ADDR : Z;
  (** [sizeof(si5351_config)/sizeof(si5351_config[0])] *)
  si5351_config_len : Z;
  CSR_AD9361_BITMODE_ADDR : Z;
  CSR_AD9361_PHY_CONTROL_ADDR : Z;
  CSR_AD9361_PRBS_TX_ADDR : Z;
  CSR_AD9361_PRBS_TX_ENABLE_OFFSET : Z;
  CSR_AD9361_PRBS_RX_ADDR : Z;
  REG_RX_CLOCK_DATA_DELAY : Z;
  REG_TX_CLOCK_DATA_DELAY : Z;
  DATA_CLK_DELAY : Z → Z;
  RX_DATA_DELAY : Z → Z;
  BIST_INJ_TX : Z;
  BIST_INJ_RX : Z;
  (** [#ifdef _1T1R_MODE] *)
  _1T1R_MODE : bool
}.

(** ** Calls, traces and the outside world *)

(** One constructor per external function the file calls; the transceiver
    handle [ad9361_phy], the device path and format newlines are left
    out.  [Printf] and [Stderr] carry the format and the integer
    arguments ([%f] arguments before their division by [1e6]). *)
Inductive Event : Type :=
| Open
| Close (fd : Z)
| Printf (fmt : string) (args : list Z)
| Stderr (fmt : string) (args : list Z)
| Usleep (usecs : Z)
| Si5351Config (fd addr len : Z)
| SpiInit (fd v : Z)
| Ad9361Init (gpio_resetb gpio_sync gpio_cal_sw1 gpio_cal_sw2 : Z)
| SetTxSamplingFreq (hz : Z)
| SetRxSamplingFreq (hz : Z)
| SetRxRfBandwidth (hz : Z)
| SetTxRfBandwidth (hz : Z)
| SetTxLoFreq (hz : Z)
| SetRxLoFreq (hz : Z)
| SetTxFirConfig
| SetRxFirConfig
| SetTxAtten (mdb tx1 tx2 immed : Z)
| SetRxRfGain (ch gain : Z)
| BistLoopback (mode : Z)
| BistTone (inj freq level mask : Z)
| BistPrbs (inj : Z)
| Writel (fd addr val : Z)
| Readl (fd addr : Z)
| SpiWrite (fd reg val : Z)
| SpiRead (fd reg : Z).

(** What the program does not decide: the value returned by a call that
    returns one ([open], [litepcie_readl], [m2sdr_ad9361_spi_read]), as a
    function of all calls made so far, that call included. *)
Class Env : Type := {
  input : list Event → Z
}.

(** The calls made so far, oldest first; the global [sig_atomic_t
    keep_running]; and the instants at which the outside sends [SIGINT]
    to the process, counted in calls made. *)
Record World : Type := mkWorld {
  events : list Event;
  keep_running : Z;
  sigint : nat → bool
}.

(** [sig_atomic_t keep_running = 1;], no call made yet. *)
Definition world_init (sig : nat → bool) : World := mkWorld [] 1 sig.


(** A function either returns or ends the process with [exit(status)],
    or the process is ended by a signal. *)
Inductive outcome (A : Type) : Type :=
| Returned (a : A)
| Exited (status : Z)
| Killed (signal : Z).
Arguments Returned {A} a.
Arguments Exited {A} status.
Arguments Killed {A} signal.

Definition M (A : Type) : Type := World → outcome A * World.

Global Instance M_ret : MRet M := λ A a w, (Returned a, w).

Global Instance M_bind : MBind M := λ A B f m w,
  match m w with
  | (Returned a, w') => f a w'
  | (Exited status, w') => (Exited status, w')
  | (Killed signal, w') => (Killed signal, w')
  end.

(** [exit(status)] *)
Definition exit {A : Type} (status : Z) : M A := λ w, (Exited status, w).

(** The end of the process by the signal [signal]. *)
Definition kill {A : Type} (signal : Z) : M A := λ w, (Killed signal, w).

Section Effects.
Context {hdr : Headers} {env : Env}.

(** A call whose result is not used.  What the functions of the file
    do is what they do as long as no signal ends the process; see
    [process] for the signals. *)
Definition call (e : Event) : M unit := λ w,
  (Returned tt, mkWorld (events w ++ [e]) (keep_running w) (sigint w)).

(** A call whose result is used. *)
Definition call_in (e : Event) : M Z := λ w,
  let h := events w ++ [e] in
  (Returned (input h), mkWorld h (keep_running w) (sigint w)).

Definition printf (fmt : string) (args : list Z) : M unit := call (Printf fmt args).
Definition fprintf_stderr (fmt : string) (args : list Z) : M unit := call (Stderr fmt args).
Definition litepcie_writel (fd addr val : Z) : M unit := call (Writel fd addr val).
Definition litepcie_readl (fd addr : Z) : M Z := call_in (Readl fd addr).
Definition m2sdr_ad9361_spi_write (fd reg val : Z) : M unit := call (SpiWrite fd reg val).
Definition m2sdr_ad9361_spi_read (fd reg : Z) : M Z := call_in (SpiRead fd reg).

(** [void mdelay(unsigned long msecs) { usleep(msecs * 1000); }]
    The product is computed on [unsigned long] and converted to the
    [useconds_t] of [usleep]. *)
Definition mdelay (msecs : Z) : M unit :=
  call (Usleep (uint_wrap (ulong_wrap (msecs * 1000)))).

(** [for (i = lo; i < hi; i++) body], with the locals the body updates
    threaded through. *)
Fixpoint for_each {S : Type} (body : nat → S → M S) (l : list nat) (s : S) : M S :=
  match l with
  | [] => mret s
  | i :: l' => s' ← body i s; for_each body l' s'
  end.

Definition for_rangeM {S : Type} (lo hi : nat) (body : nat → S → M S) (s : S) : M S :=
  for_each body (seq lo (hi - lo)) s.

(** *** [spi_write_then_read] (lines 50-77)

    [txbuf] and [rxbuf] are the byte arrays behind the pointers; the
    function returns its [int] result and the contents of [rxbuf]. *)
Definition spi_write_then_read
    (txbuf : list Z) (n_tx : Z) (rxbuf : list Z) (n_rx : Z) : M (Z * list Z) :=
  fd ← call_in Open;
  (if fd <? 0 then
     fprintf_stderr "Could not init driver" [];; exit 1
   else mret tt);;
  rxbuf ←
    (if (n_tx =? 2) && (n_rx =? 1) then
       v ← m2sdr_ad9361_spi_read fd
             (Z.lor (Z.shiftl (txbuf !!! 0%nat) 8) (txbuf !!! 1%nat));
       mret (<[0%nat := uchar_wrap v]> rxbuf)
     else if (n_tx =? 3) && (n_rx =? 0) then
       m2sdr_ad9361_spi_write fd
         (Z.lor (Z.shiftl (txbuf !!! 0%nat) 8) (txbuf !!! 1%nat))
         (txbuf !!! 2%nat);;
       mret rxbuf
     else
       fprintf_stderr "Unsupported SPI transfer n_tx=%d n_rx=%d" [n_tx; n_rx];;
       exit 1);
  call (Close fd);;
  mret (0, rxbuf).

(** *** The PRBS test of [m2sdr_init] (lines 217-351)

    The RX and the TX half are the same code up to the delay register
    and the wording of the messages; both read the PRBS checker at
    [CSR_AD9361_PRBS_RX_ADDR] and both build the register value with
    [DATA_CLK_DELAY] and [RX_DATA_DELAY]. *)
Inductive Direction : Type := RX | TX.

Definition delay_reg (d : Direction) : Z :=
  match d with
  | RX => REG_RX_CLOCK_DATA_DELAY
  | TX => REG_TX_CLOCK_DATA_DELAY
  end.

(** [DATA_CLK_DELAY(clk) | RX_DATA_DELAY(dat)] *)
Definition delay_value (clk dat : Z) : Z :=
  Z.lor (DATA_CLK_DELAY clk) (RX_DATA_DELAY dat).

(** Lines 238-251 and 303-316: one probe of the grid. *)
Definition probe (d : Direction) (fd : Z) (clk dat : nat) (g : Grid) : M Grid :=
  m2sdr_ad9361_spi_write fd (delay_reg d)
    (delay_value (Z.of_nat clk) (Z.of_nat dat));;
  mdelay 10;;
  v ← litepcie_readl fd CSR_AD9361_PRBS_RX_ADDR;
  let prbs_sync := Z.land v 1 in
  printf " %2d" [prbs_sync];;
  mret (grid_set g clk dat prbs_sync).

(** Lines 235-253 and 300-318: the scan of the 256 delay pairs. *)
Definition delays_scan (d : Direction) (fd : Z) : M Grid :=
  for_rangeM 0 16 (λ clk g,
    printf " %2d     |" [Z.of_nat clk];;
    g ← for_rangeM 0 16 (probe d fd clk) g;
    printf "" [];;
    mret g) grid_init.

Definition msg_scan (d : Direction) : string :=
  match d with
  | RX => "RX Clk/Dat delays scan..."
  | TX => "TX Clk/Dat delays scan..."
  end.

Definition msg_optimal (d : Direction) : string :=
  match d with
  | RX => "Optimal RX Clk Delay: %d, Optimal RX Dat Delay: %d"
  | TX => "Optimal TX Clk Delay: %d, Optimal TX Dat Delay: %d"
  end.

Definition msg_no_valid (d : Direction) : string :=
  match d with
  | RX => "No valid RX Clk/Dat delay settings found."
  | TX => "No valid TX Clk/Dat delay settings found."
  end.

(** Lines 275-285 and 340-350: display, then configure, the optimal
    delays. *)
Definition configure_optimal (d : Direction) (fd : Z) (opt : Z * Z) : M unit :=
  (if found opt then printf (msg_optimal d) [opt.1; opt.2]
   else printf (msg_no_valid d) []);;
  (if found opt then
     m2sdr_ad9361_spi_write fd (delay_reg d) (delay_value opt.1 opt.2)
   else mret tt).

(** Lines 228-285 and 293-350: scan, search, display and configure, for
    one direction.  Returns the grid it measured. *)
Definition calibrate (d : Direction) (fd : Z) : M Grid :=
  printf "" [];;
  printf (msg_scan d) [];;
  printf "-------------------------" [];;
  printf "Clk/Dat |  0  1  2  3  4  5  6  7  8  9 10 11 12 13 14 15" [];;
  g ← delays_scan d fd;
  configure_optimal d fd (find_optimal g);;
  mret g.

(** Lines 222-226: FPGA TX-PRBS off, AD9361 RX-PRBS on. *)
Definition prbs_rx_setup (fd : Z) : M unit :=
  printf "BIST_PRBS TEST..." [];;
  litepcie_writel fd CSR_AD9361_PRBS_TX_ADDR
    (0 * Z.shiftl 1 CSR_AD9361_PRBS_TX_ENABLE_OFFSET);;
  call (BistPrbs BIST_INJ_RX).

(** Lines 287-291: AD9361 RX->TX loopback on, FPGA TX-PRBS on. *)
Definition prbs_tx_setup (fd : Z) : M unit :=
  call (BistLoopback 1);;
  litepcie_writel fd CSR_AD9361_PRBS_TX_ADDR
    (1 * Z.shiftl 1 CSR_AD9361_PRBS_TX_ENABLE_OFFSET).

(** Body of [if (bist_prbs)], lines 218-350. *)
Definition bist_prbs_test (fd : Z) : M unit :=
  prbs_rx_setup fd;;
  calibrate RX fd;;
  prbs_tx_setup fd;;
  calibrate TX fd;;
  mret tt.

(** Body of [if (enable_oversample)], lines 372-404. *)
Definition oversample_writes : list (Z * Z) :=
  [ (0x003, 0x54);
    (0x02, 0xc0); (0xc2, 0x9f); (0xc3, 0x9f); (0xc4, 0x9f); (0xc5, 0x9f);
    (0xc6, 0x9f); (0xc7, 0x00); (0xc8, 0x00); (0xc9, 0x00);
    (0x1e0, 0xBF); (0x1e4, 0xFF); (0x1f2, 0xFF);
    (0x1e7, 0x00); (0x1e8, 0x00); (0x1e9, 0x00); (0x1ea, 0x00);
    (0x1eb, 0x00); (0x1ec, 0x00); (0x1ed, 0x00); (0x1ee, 0x00);
    (0x1ef, 0x00); (0x1e0, 0xBF);
    (0x3f6, 0x03) ].

Fixpoint spi_write_all (fd : Z) (l : list (Z * Z)) : M unit :=
  match l with
  | [] => mret tt
  | (reg, val) :: l' => m2sdr_ad9361_spi_write fd reg val;; spi_write_all fd l'
  end.

(** The argument [-tx_gain*1000] of [ad9361_set_tx_atten], computed on
    [int64_t]. *)
Definition tx_atten_arg (tx_gain : Z) : Z :=
  int64_wrap (int64_wrap (- tx_gain) * 1000).

(** *** [m2sdr_init] (lines 113-408) *)
Definition m2sdr_init
    (samplerate bandwidth refclk_freq tx_freq rx_freq tx_gain rx_gain loopback : Z)
    (bist_tx_tone bist_rx_tone bist_prbs : bool)
    (bist_tone_freq : Z)
    (enable_8bit_mode enable_oversample : bool) : M unit :=
  fd ← call_in Open;
  (if fd <? 0 then
     fprintf_stderr "Could not init driver" [];; exit 1
   else mret tt);;
  printf "Initializing SI5351 Clocking to 38.4MHz..." [];;
  call (Si5351Config fd SI5351_I2C_ADDR si5351_config_len);;
  printf "Initializing AD9361 SPI..." [];;
  call (SpiInit fd 1);;
  printf "Initializing AD9361 RFIC..." [];;
  call (Ad9361Init 0 (-1) (-1) (-1));;
  printf "Setting TX/RX Samplerate to %f MSPS." [samplerate];;
  let samplerate := if enable_oversample then samplerate / 2 else samplerate in
  call (SetTxSamplingFreq samplerate);;
  call (SetRxSamplingFreq samplerate);;
  printf "Setting TX/RX Bandwidth to %f MHz." [bandwidth];;
  call (SetRxRfBandwidth bandwidth);;
  call (SetTxRfBandwidth bandwidth);;
  printf "Setting TX LO Freq to %f MHz." [tx_freq];;
  printf "Setting RX LO Freq to %f MHz." [rx_freq];;
  call (SetTxLoFreq tx_freq);;
  call (SetRxLoFreq rx_freq);;
  call SetTxFirConfig;;
  call SetRxFirConfig;;
  printf "Setting TX Gain to %ld dB." [tx_gain];;
  call (SetTxAtten (tx_atten_arg tx_gain) 1 1 1);;
  printf "Setting RX Gain to %ld dB." [rx_gain];;
  call (SetRxRfGain 0 rx_gain);;
  call (SetRxRfGain 1 rx_gain);;
  printf "Setting Loopback to %d" [loopback];;
  call (BistLoopback loopback);;
  (if enable_8bit_mode then
     printf "Enabling 8-bit mode." [];;
     litepcie_writel fd CSR_AD9361_BITMODE_ADDR 1
   else
     printf "Enabling 16-bit mode." [];;
     litepcie_writel fd CSR_AD9361_BITMODE_ADDR 0);;
  (if _1T1R_MODE then litepcie_writel fd CSR_AD9361_PHY_CONTROL_ADDR 1
   else litepcie_writel fd CSR_AD9361_PHY_CONTROL_ADDR 0);;
  (if bist_tx_tone then
     printf "BIST_TX_TONE_TEST..." [];;
     call (BistTone BIST_INJ_TX bist_tone_freq 0 0x0)
   else mret tt);;
  (if bist_rx_tone then
     printf "BIST_RX_TONE_TEST..." [];;
     call (BistTone BIST_INJ_RX bist_tone_freq 0 0x0)
   else mret tt);;
  (if bist_prbs then bist_prbs_test fd else mret tt);;
  (if enable_oversample then spi_write_all fd oversample_writes else mret tt);;
  call (Close fd).

End Effects.


(** ** Vocabulary of the statements *)

(** A cell of the grid counts as [true] when it holds 1, the value the
    search compares with. *)
Definition valid (g : Grid) (clk dat : nat) : Prop := cell g clk dat = 1.

Global Instance valid_dec g clk dat : Decision (valid g clk dat).
Proof. unfold valid. apply _. Defined.

(** A valid run: a maximal contiguous sequence of valid cells along the
    data-delay axis of the row [clk], from column [start], [len] long. *)
Definition valid_run (g : Grid) (clk start len : nat) : Prop :=
  (clk < 16)%nat ∧ (1 ≤ len)%nat ∧ (start + len ≤ 16)%nat ∧
  Forall (λ j, valid g clk j) (seq start len) ∧
  (start ≠ 0%nat → ¬ valid g clk (start - 1)) ∧
  ((start + len)%nat ≠ 16%nat → ¬ valid g clk (start + len)).

Global Instance valid_run_dec g clk start len : Decision (valid_run g clk start len).
Proof. unfold valid_run. apply _. Defined.

(** All valid runs of a grid, as triples (row, start, length). *)
Definition valid_runs (g : Grid) : list (nat * nat * nat) :=
  filter (λ r, valid_run g r.1.1 r.1.2 r.2)
    (clk ← seq 0 16; start ← seq 0 16; len ← seq 1 16; [(clk, start, len)]).

(** Row-major scan order on cells: [(r1, c1)] is met no later than
    [(r2, c2)]. *)
Definition scan_le (r1 c1 r2 c2 : nat) : Prop :=
  (r1 < r2)%nat ∨ (r1 = r2 ∧ (c1 ≤ c2)%nat).

Global Instance scan_le_dec r1 c1 r2 c2 : Decision (scan_le r1 c1 r2 c2).
Proof. unfold scan_le. apply _. Defined.

(** The grid that holds 1 on the cells of the given runs (row, start,
    length) and 0 elsewhere. *)
Definition grid_of_runs (runs : list (nat * nat * nat)) : Grid :=
  foldl (λ g r, foldl (λ g j, grid_set g r.1.1 j 1) g (seq r.1.2 r.2)) grid_init runs.

(** Clock delay 5 valid at data delays 3 to 9. *)
Definition grid_row5 : Grid := grid_of_runs [(5, 3, 7)]%nat.

(** Two runs of length 5: row 3 from column 2, row 9 from column 0. *)
Definition grid_tie : Grid := grid_of_runs [(9, 0, 5); (3, 2, 5)]%nat.

(** The [k]-th cell the two nested loops visit. *)
Definition cell_at (k : nat) : nat * nat := (k `div` 16, k `mod` 16)%nat.

(** What the search computes at a cell: the count of valid cells from it
    to the right, and nothing at a cell that is not valid. *)
Definition score (g : Grid) (x : nat * nat) : Z :=
  if cell g x.1 x.2 =? 1 then count_valid g x.1 x.2 16 0 else 0.

(** The locals after the search has taken the cell [x] as its best. *)
Definition candidate (g : Grid) (x : nat * nat) : Optimum :=
  mkOptimum (score g x) (Z.of_nat x.1) (Z.of_nat x.2 + score g x ÷ 2).

(** One step of the search, on the cells in the order of [cell_at]. *)
Definition sel (g : Grid) (st : Optimum) (x : nat * nat) : Optimum :=
  select_cell g x.1 x.2 st.

(** The calls of a trace that write an AD9361 register over SPI, folded
    into the register contents they leave. *)
Definition spi_regs (h : list Event) : gmap Z Z :=
  foldl (λ m e, match e with SpiWrite _ reg val => <[reg := val]> m | _ => m end) ∅ h.

(** ** Sample instances for the examples *)

(** A sample assignment of the header constants.  The AD9361 register
    numbers, delay macros and BIST modes are those of the Analog Devices
    driver; the other values are arbitrary. *)
Definition sample_headers : Headers := {|
  SI5351_I2C_ADDR := 0x60;
  si5351_config_len := 100;
  CSR_AD9361_BITMODE_ADDR := 0x5000;
  CSR_AD9361_PHY_CONTROL_ADDR := 0x5004;
  CSR_AD9361_PRBS_TX_ADDR := 0x5008;
  CSR_AD9361_PRBS_TX_ENABLE_OFFSET := 0;
  CSR_AD9361_PRBS_RX_ADDR := 0x500c;
  REG_RX_CLOCK_DATA_DELAY := 0x006;
  REG_TX_CLOCK_DATA_DELAY := 0x007;
  DATA_CLK_DELAY := λ x, Z.shiftl (Z.land x 0xF) 4;
  RX_DATA_DELAY := λ x, Z.shiftl (Z.land x 0xF) 0;
  BIST_INJ_TX := 1;
  BIST_INJ_RX := 2;
  _1T1R_MODE := false
|}.

(** The last register write of a trace, as (register, value). *)
Definition last_spi_write (h : list Event) : option (Z * Z) :=
  foldl (λ acc e, match e with SpiWrite _ reg val => Some (reg, val) | _ => acc end) None h.

(** A board: [open] returns descriptor 3; the PRBS checker is in sync when
    the delays last written to register 6 are clock 5 and data 3 to 9, or
    those last written to register 7 are clock 2 and data 4 to 8. *)
Definition sample_board : Env := {|
  input := λ h,
    match last h with
    | Some Open => 3
    | Some (Readl _ _) =>
        match last_spi_write h with
        | Some (6, v) => if (v `div` 16 =? 5) && (3 <=? v `mod` 16) && (v `mod` 16 <=? 9) then 1 else 0
        | Some (7, v) => if (v `div` 16 =? 2) && (4 <=? v `mod` 16) && (v `mod` 16 <=? 8) then 1 else 0
        | _ => 0
        end
    | _ => 0
    end
|}.

(** A board whose PRBS checker is never in sync. *)
Definition silent_board : Env := {|
  input := λ h, match last h with Some Open => 3 | _ => 0 end
|}.

(** A board on which the device cannot be opened. *)
Definition absent_board : Env := {| input := λ h, -1 |}.

(** No signal ever. *)
Definition no_sigint : nat → bool := λ _, false.


(** [m], started in [w], returns; its result [a] and the calls [evs] it
    made satisfy [Q]. *)
Definition runs {A : Type} (m : M A) (w : World) (Q : A → list Event → Prop) : Prop :=
  ∃ a w' evs, m w = (Returned a, w') ∧ events w' = events w ++ evs ∧ Q a evs.

(** [m], started in [w], ends the process with [status] after the calls
    [evs]. *)
Definition exits {A : Type} (m : M A) (w : World) (status : Z) (evs : list Event) : Prop :=
  ∃ w', m w = (Exited status, w') ∧ events w' = events w ++ evs.

(** [m], started in [w], is ended by [signal] after the calls [evs]. *)
Definition killed {A : Type} (m : M A) (w : World) (signal : Z) (evs : list Event) : Prop :=
  ∃ w', m w = (Killed signal, w') ∧ events w' = events w ++ evs.

(** ** The interrupt signal

    The file installs no handler, so [SIGINT] (signal 2) keeps its
    default action and ends the process. *)



Definition is_printf (e : Event) : bool :=
  match e with Printf _ _ => true | _ => false end.

Definition is_sampling_freq (e : Event) : bool :=
  match e with SetTxSamplingFreq _ | SetRxSamplingFreq _ => true | _ => false end.

Definition is_tx_atten (e : Event) : bool :=
  match e with SetTxAtten _ _ _ _ => true | _ => false end.

(** The calls of [m2sdr_init] outside its configuration of the AD9361
    (lines 137-214): files, messages, sleeps, CSR and SPI accesses, and
    the two BIST calls of the PRBS test. *)
Definition is_board_io (e : Event) : bool :=
  match e with
  | Open | Close _ | Printf _ _ | Usleep _ | Writel _ _ _ | Readl _ _
  | SpiWrite _ _ _ | BistPrbs _ | BistLoopback _ => true
  | _ => false
  end.

(** A trace without what it prints on the standard output. *)
Definition calls (evs : list Event) : list Event :=
  filter (λ e, is_printf e = false) evs.

Section Traces.
Context {hdr : Headers}.

(** The calls of one scan: for each clock delay and each data delay, in
    order, write the pair, sleep 10 ms, read the PRBS checker. *)
Definition probes (d : Direction) (fd : Z) : list Event :=
  clk ← seq 0 16; dat ← seq 0 16;
  [ SpiWrite fd (delay_reg d) (delay_value (Z.of_nat clk) (Z.of_nat dat));
    Usleep 10000;
    Readl fd CSR_AD9361_PRBS_RX_ADDR ].

(** What [configure_optimal] does. *)
Definition configure_trace (d : Direction) (fd : Z) (opt : Z * Z) : list Event :=
  if found opt then
    [ Printf (msg_optimal d) [opt.1; opt.2];
      SpiWrite fd (delay_reg d) (delay_value opt.1 opt.2) ]
  else [ Printf (msg_no_valid d) [] ].

(** What [calibrate] prints before its scan. *)
Definition calibrate_header (d : Direction) : list Event :=
  [ Printf "" []; Printf (msg_scan d) []; Printf "-------------------------" [];
    Printf "Clk/Dat |  0  1  2  3  4  5  6  7  8  9 10 11 12 13 14 15" [] ].

(** A trace of [calibrate]: the header, a scan, then the display and the
    configuration of the delays found on the grid [g]. *)
Definition calibrate_trace (d : Direction) (fd : Z) (g : Grid) (evs : list Event) : Prop :=
  ∃ scan, evs = calibrate_header d ++ scan ++ configure_trace d fd (find_optimal g) ∧
          calls scan = probes d fd.

Definition prbs_rx_setup_trace (fd : Z) : list Event :=
  [ Printf "BIST_PRBS TEST..." [];
    Writel fd CSR_AD9361_PRBS_TX_ADDR (0 * Z.shiftl 1 CSR_AD9361_PRBS_TX_ENABLE_OFFSET);
    BistPrbs BIST_INJ_RX ].

Definition prbs_tx_setup_trace (fd : Z) : list Event :=
  [ BistLoopback 1;
    Writel fd CSR_AD9361_PRBS_TX_ADDR (1 * Z.shiftl 1 CSR_AD9361_PRBS_TX_ENABLE_OFFSET) ].

(** A trace of [bist_prbs_test] that measured the grids [g_rx], [g_tx]. *)
Definition bist_prbs_trace (fd : Z) (g_rx g_tx : Grid) (evs : list Event) : Prop :=
  ∃ rx tx, evs = prbs_rx_setup_trace fd ++ rx ++ prbs_tx_setup_trace fd ++ tx ∧
           calibrate_trace RX fd g_rx rx ∧ calibrate_trace TX fd g_tx tx.

(** The register write that configures the delays found, if any. *)
Definition commit_calls (d : Direction) (fd : Z) (opt : Z * Z) : list Event :=
  if found opt then [ SpiWrite fd (delay_reg d) (delay_value opt.1 opt.2) ] else [].

(** [e] writes no AD9361 register other than [reg]. *)
Definition writes_only (reg : Z) (e : Event) : Prop :=
  match e with SpiWrite _ reg' _ => reg' = reg | _ => True end.

(** [e] does not write the AD9361 register [reg]. *)
Definition leaves (reg : Z) (e : Event) : Prop :=
  match e with SpiWrite _ reg' _ => reg' ≠ reg | _ => True end.

(** Lines 137-214 of [m2sdr_init]: what it prints and calls between
    [open] and the PRBS test. *)
Definition config_trace
    (fd samplerate bandwidth refclk_freq tx_freq rx_freq tx_gain rx_gain loopback : Z)
    (bist_tx_tone bist_rx_tone : bool) (bist_tone_freq : Z)
    (enable_8bit_mode enable_oversample : bool) : list Event :=
  [ Printf "Initializing SI5351 Clocking to 38.4MHz..." [];
    Si5351Config fd SI5351_I2C_ADDR si5351_config_len;
    Printf "Initializing AD9361 SPI..." [];
    SpiInit fd 1;
    Printf "Initializing AD9361 RFIC..." [];
    Ad9361Init 0 (-1) (-1) (-1);
    Printf "Setting TX/RX Samplerate to %f MSPS." [samplerate];
    SetTxSamplingFreq (if enable_oversample then samplerate / 2 else samplerate);
    SetRxSamplingFreq (if enable_oversample then samplerate / 2 else samplerate);
    Printf "Setting TX/RX Bandwidth to %f MHz." [bandwidth];
    SetRxRfBandwidth bandwidth;
    SetTxRfBandwidth bandwidth;
    Printf "Setting TX LO Freq to %f MHz." [tx_freq];
    Printf "Setting RX LO Freq to %f MHz." [rx_freq];
    SetTxLoFreq tx_freq;
    SetRxLoFreq rx_freq;
    SetTxFirConfig;
    SetRxFirConfig;
    Printf "Setting TX Gain to %ld dB." [tx_gain];
    SetTxAtten (tx_atten_arg tx_gain) 1 1 1;
    Printf "Setting RX Gain to %ld dB." [rx_gain];
    SetRxRfGain 0 rx_gain;
    SetRxRfGain 1 rx_gain;
    Printf "Setting Loopback to %d" [loopback];
    BistLoopback loopback;
    Printf (if enable_8bit_mode then "Enabling 8-bit mode." else "Enabling 16-bit mode.") [];
    Writel fd CSR_AD9361_BITMODE_ADDR (if enable_8bit_mode then 1 else 0);
    Writel fd CSR_AD9361_PHY_CONTROL_ADDR (if _1T1R_MODE then 1 else 0) ] ++
  (if bist_tx_tone then
     [ Printf "BIST_TX_TONE_TEST..." []; BistTone BIST_INJ_TX bist_tone_freq 0 0 ]
   else []) ++
  (if bist_rx_tone then
     [ Printf "BIST_RX_TONE_TEST..." []; BistTone BIST_INJ_RX bist_tone_freq 0 0 ]
   else []).

Definition oversample_trace (fd : Z) : list Event :=
  (λ rv, SpiWrite fd rv.1 rv.2) <$> oversample_writes.

(** A trace of a run of [m2sdr_init] that opened the device as [fd]. *)
Definition m2sdr_init_trace
    (fd samplerate bandwidth refclk_freq tx_freq rx_freq tx_gain rx_gain loopback : Z)
    (bist_tx_tone bist_rx_tone bist_prbs : bool) (bist_tone_freq : Z)
    (enable_8bit_mode enable_oversample : bool) (evs : list Event) : Prop :=
  ∃ prbs,
    evs = [Open] ++
          config_trace fd samplerate bandwidth refclk_freq tx_freq rx_freq tx_gain
            rx_gain loopback bist_tx_tone bist_rx_tone bist_tone_freq
            enable_8bit_mode enable_oversample ++
          prbs ++
          (if enable_oversample then oversample_trace fd else []) ++
          [Close fd] ∧
    if bist_prbs then ∃ g_rx g_tx, bist_prbs_trace fd g_rx g_tx prbs else prbs = [].

End Traces.


(** ** The display of a scan *)

(** A grid as a scan leaves it: 16 rows of 16 entries, each 0 or 1. *)
Definition grid_wf (g : Grid) : Prop :=
  length g = 16%nat ∧
  Forall (λ row, length row = 16%nat ∧ Forall (λ v, v = 0 ∨ v = 1) row) g.

Section Display.
Context {hdr : Headers}.

(** What one probe calls and prints when it records [cell g clk dat]. *)
Definition probe_trace (d : Direction) (fd : Z) (g : Grid) (clk dat : nat) : list Event :=
  [ SpiWrite fd (delay_reg d) (delay_value (Z.of_nat clk) (Z.of_nat dat));
    Usleep 10000;
    Readl fd CSR_AD9361_PRBS_RX_ADDR;
    Printf " %2d" [cell g clk dat] ].

(** One row of the scan: its label, its 16 probes, the end of the line. *)
Definition row_trace (d : Direction) (fd : Z) (g : Grid) (clk : nat) : list Event :=
  [ Printf " %2d     |" [Z.of_nat clk] ] ++
  (dat ← seq 0 16; probe_trace d fd g clk dat) ++
  [ Printf "" [] ].

(** The trace of a scan that records the grid [g]. *)
Definition scan_trace (d : Direction) (fd : Z) (g : Grid) : list Event :=
  clk ← seq 0 16; row_trace d fd g clk.

End Display.

(** The number of calls a scan has made when the PRBS checker has just
    been read for the pair [(clk, dat)]: 66 for each row done, 1 for the
    label of the row, 4 for each pair done in the row, 3 for this pair. *)
Definition probe_index (clk dat : nat) : nat := 66 * clk + 4 * dat + 4.


(** ** More vocabulary on traces *)

(** The calls into the AD9361 driver. *)
Definition is_ad9361_call (e : Event) : bool :=
  match e with
  | Ad9361Init _ _ _ _ | SetTxSamplingFreq _ | SetRxSamplingFreq _
  | SetRxRfBandwidth _ | SetTxRfBandwidth _ | SetTxLoFreq _ | SetRxLoFreq _
  | SetTxFirConfig | SetRxFirConfig | SetTxAtten _ _ _ _ | SetRxRfGain _ _
  | BistLoopback _ | BistTone _ _ _ _ | BistPrbs _ => true
  | _ => false
  end.

(** The writes of FPGA registers. *)
Definition is_writel (e : Event) : bool :=
  match e with Writel _ _ _ => true | _ => false end.

(** [e] is neither [open] nor [close], and if it takes a file descriptor,
    takes [fd]. *)
Definition on_fd (fd : Z) (e : Event) : Prop :=
  match e with
  | Open | Close _ => False
  | Si5351Config fd' _ _ | SpiInit fd' _ | Writel fd' _ _ | Readl fd' _
  | SpiWrite fd' _ _ | SpiRead fd' _ => fd' = fd
  | _ => True
  end.

(** The time a trace sleeps, in microseconds. *)
Definition sleep_total (evs : list Event) : Z :=
  foldr (λ e acc, match e with Usleep usecs => usecs + acc | _ => acc end) 0 evs.

Section FullTraces.
Context {hdr : Headers}.

(** The trace of [calibrate] when its scan records [g]. *)
Definition calibrate_full_trace (d : Direction) (fd : Z) (g : Grid) : list Event :=
  calibrate_header d ++ scan_trace d fd g ++ configure_trace d fd (find_optimal g).

(** The trace of [bist_prbs_test] when its scans record [g_rx], [g_tx]. *)
Definition bist_prbs_full_trace (fd : Z) (g_rx g_tx : Grid) : list Event :=
  prbs_rx_setup_trace fd ++ calibrate_full_trace RX fd g_rx ++
  prbs_tx_setup_trace fd ++ calibrate_full_trace TX fd g_tx.

(** What a delay register holds after [calibrate]: the delays found, or,
    when none was found, the last pair probed. *)
Definition delays_left (g : Grid) : Z :=
  if found (find_optimal g) then delay_value (find_optimal g).1 (find_optimal g).2
  else delay_value 15 15.

End FullTraces.

(** ** The sleeps of the platform layer (lines 79-93) *)

(** [void udelay(unsigned long usecs) { usleep(usecs); }]
    The argument is converted to the [useconds_t] of [usleep]. *)
Definition udelay (usecs : Z) : M unit := call (Usleep (uint_wrap usecs)).

(** [unsigned long msleep_interruptible(unsigned int msecs)
     { usleep(msecs * 1000); return 0; }]
    The product is computed on [unsigned int]. *)
Definition msleep_interruptible (msecs : Z) : M Z :=
  call (Usleep (uint_wrap (msecs * 1000)));;
  mret 0.

(** ** [main] (lines 413-578) *)

Module Main.

(** Constants of [m2sdr_config.h], which is not part of the file. *)
Class Defaults : Type := {
  DEFAULT_REFCLK_FREQ : Z;
  DEFAULT_SAMPLERATE : Z;
  DEFAULT_BANDWIDTH : Z;
  DEFAULT_TX_FREQ : Z;
  DEFAULT_RX_FREQ : Z;
  DEFAULT_TX_GAIN : Z;
  DEFAULT_RX_GAIN : Z;
  DEFAULT_LOOPBACK : Z;
  DEFAULT_BIST_TONE_FREQ : Z
}.

(** The conversions of the C library that [main] applies to [optarg],
    each with the cast that follows it in the source. *)
Class Libc : Type := {
  (** [(int64_t)strtod(optarg, NULL)] *)
  strtod_int64 : string → Z;
  (** [(uint32_t)strtod(optarg, NULL)] *)
  strtod_uint32 : string → Z;
  (** [(int32_t)strtod(optarg, NULL)] *)
  strtod_int32 : string → Z;
  (** [(uint8_t)strtod(optarg, NULL)] *)
  strtod_uint8 : string → Z
}.

(** One return of [getopt_long_only(argc, argv, "hc8", options,
    &option_index)]: its result [c]; what it left in [option_index]; the
    string [optarg] points to, for an option that [options] declares with
    [required_argument]; and the diagnostic it has printed on the standard
    error before returning ['?'] (63), [opterr] being left at its initial
    1.  For the other options [optarg] is NULL: for those that [options]
    declares with [no_argument], and for ['h'], ['c'] and ['8'], which the
    option string ["hc8"] declares without argument. *)
Record Getopt : Type := mkGetopt {
  opt_c : Z;
  opt_index : Z;
  opt_arg : string;
  opt_err : string
}.

(** The global [litepcie_device_num] and the locals of [main] that the
    options set. *)
Record Locals : Type := mkLocals {
  litepcie_device_num : Z;
  refclk_freq : Z;
  samplerate : Z;
  bandwidth : Z;
  tx_freq : Z;
  rx_freq : Z;
  tx_gain : Z;
  rx_gain : Z;
  loopback : Z;
  bist_tx_tone : bool;
  bist_rx_tone : bool;
  bist_prbs : bool;
  bist_tone_freq : Z;
  enable_8bit_mode : bool;
  enable_oversample : bool
}.

Definition set_litepcie_device_num (v : Z) (l : Locals) : Locals :=
  mkLocals v (refclk_freq l) (samplerate l) (bandwidth l) (tx_freq l) (rx_freq l)
    (tx_gain l) (rx_gain l) (loopback l) (bist_tx_tone l) (bist_rx_tone l) (bist_prbs l)
    (bist_tone_freq l) (enable_8bit_mode l) (enable_oversample l).
Definition set_refclk_freq (v : Z) (l : Locals) : Locals :=
  mkLocals (litepcie_device_num l) v (samplerate l) (bandwidth l) (tx_freq l) (rx_freq l)
    (tx_gain l) (rx_gain l) (loopback l) (bist_tx_tone l) (bist_rx_tone l) (bist_prbs l)
    (bist_tone_freq l) (enable_8bit_mode l) (enable_oversample l).
Definition set_samplerate (v : Z) (l : Locals) : Locals :=
  mkLocals (litepcie_device_num l) (refclk_freq l) v (bandwidth l) (tx_freq l) (rx_freq l)
    (tx_gain l) (rx_gain l) (loopback l) (bist_tx_tone l) (bist_rx_tone l) (bist_prbs l)
    (bist_tone_freq l) (enable_8bit_mode l) (enable_oversample l).
Definition set_bandwidth (v : Z) (l : Locals) : Locals :=
  mkLocals (litepcie_device_num l) (refclk_freq l) (samplerate l) v (tx_freq l) (rx_freq l)
    (tx_gain l) (rx_gain l) (loopback l) (bist_tx_tone l) (bist_rx_tone l) (bist_prbs l)
    (bist_tone_freq l) (enable_8bit_mode l) (enable_oversample l).
Definition set_tx_freq (v : Z) (l : Locals) : Locals :=
  mkLocals (litepcie_device_num l) (refclk_freq l) (samplerate l) (bandwidth l) v (rx_freq l)
    (tx_gain l) (rx_gain l) (loopback l) (bist_tx_tone l) (bist_rx_tone l) (bist_prbs l)
    (bist_tone_freq l) (enable_8bit_mode l) (enable_oversample l).
Definition set_rx_freq (v : Z) (l : Locals) : Locals :=
  mkLocals (litepcie_device_num l) (refclk_freq l) (samplerate l) (bandwidth l) (tx_freq l) v
    (tx_gain l) (rx_gain l) (loopback l) (bist_tx_tone l) (bist_rx_tone l) (bist_prbs l)
    (bist_tone_freq l) (enable_8bit_mode l) (enable_oversample l).
Definition set_tx_gain (v : Z) (l : Locals) : Locals :=
  mkLocals (litepcie_device_num l) (refclk_freq l) (samplerate l) (bandwidth l) (tx_freq l)
    (rx_freq l) v (rx_gain l) (loopback l) (bist_tx_tone l) (bist_rx_tone l) (bist_prbs l)
    (bist_tone_freq l) (enable_8bit_mode l) (enable_oversample l).
Definition set_rx_gain (v : Z) (l : Locals) : Locals :=
  mkLocals (litepcie_device_num l) (refclk_freq l) (samplerate l) (bandwidth l) (tx_freq l)
    (rx_freq l) (tx_gain l) v (loopback l) (bist_tx_tone l) (bist_rx_tone l) (bist_prbs l)
    (bist_tone_freq l) (enable_8bit_mode l) (enable_oversample l).
Definition set_loopback (v : Z) (l : Locals) : Locals :=
  mkLocals (litepcie_device_num l) (refclk_freq l) (samplerate l) (bandwidth l) (tx_freq l)
    (rx_freq l) (tx_gain l) (rx_gain l) v (bist_tx_tone l) (bist_rx_tone l) (bist_prbs l)
    (bist_tone_freq l) (enable_8bit_mode l) (enable_oversample l).
Definition set_bist_tx_tone (v : bool) (l : Locals) : Locals :=
  mkLocals (litepcie_device_num l) (refclk_freq l) (samplerate l) (bandwidth l) (tx_freq l)
    (rx_freq l) (tx_gain l) (rx_gain l) (loopback l) v (bist_rx_tone l) (bist_prbs l)
    (bist_tone_freq l) (enable_8bit_mode l) (enable_oversample l).
Definition set_bist_rx_tone (v : bool) (l : Locals) : Locals :=
  mkLocals (litepcie_device_num l) (refclk_freq l) (samplerate l) (bandwidth l) (tx_freq l)
    (rx_freq l) (tx_gain l) (rx_gain l) (loopback l) (bist_tx_tone l) v (bist_prbs l)
    (bist_tone_freq l) (enable_8bit_mode l) (enable_oversample l).
Definition set_bist_prbs (v : bool) (l : Locals) : Locals :=
  mkLocals (litepcie_device_num l) (refclk_freq l) (samplerate l) (bandwidth l) (tx_freq l)
    (rx_freq l) (tx_gain l) (rx_gain l) (loopback l) (bist_tx_tone l) (bist_rx_tone l) v
    (bist_tone_freq l) (enable_8bit_mode l) (enable_oversample l).
Definition set_bist_tone_freq (v : Z) (l : Locals) : Locals :=
  mkLocals (litepcie_device_num l) (refclk_freq l) (samplerate l) (bandwidth l) (tx_freq l)
    (rx_freq l) (tx_gain l) (rx_gain l) (loopback l) (bist_tx_tone l) (bist_rx_tone l)
    (bist_prbs l) v (enable_8bit_mode l) (enable_oversample l).
Definition set_enable_8bit_mode (v : bool) (l : Locals) : Locals :=
  mkLocals (litepcie_device_num l) (refclk_freq l) (samplerate l) (bandwidth l) (tx_freq l)
    (rx_freq l) (tx_gain l) (rx_gain l) (loopback l) (bist_tx_tone l) (bist_rx_tone l)
    (bist_prbs l) (bist_tone_freq l) v (enable_oversample l).
Definition set_enable_oversample (v : bool) (l : Locals) : Locals :=
  mkLocals (litepcie_device_num l) (refclk_freq l) (samplerate l) (bandwidth l) (tx_freq l)
    (rx_freq l) (tx_gain l) (rx_gain l) (loopback l) (bist_tx_tone l) (bist_rx_tone l)
    (bist_prbs l) (bist_tone_freq l) (enable_8bit_mode l) v.

(** The line feed. *)
Definition nl : string := String (Ascii.ascii_of_nat 10) EmptyString.

(** The format of [help], line by line; [PRId64] is [ld], and the last
    line feed is left out, as in every format.  The arguments follow in
    the order of the source. *)
Definition help_lines : list string :=
    [ "M2SDR RF init/config utility";
      "usage: m2sdr_rf [options] cmd [args...]";
      "";
      "Options:";
      "-h                    Help.";
      "-c device_num         Select the device (default=0).";
      "-8bit                 Enable 8-bit mode (default=disabled).";
      "-oversample           Enable oversample mode (default=disabled).";
      "";
      "-refclk_freq freq     Set the RefClk frequency in Hz (default=%ld).";
      "-samplerate sps       Set RF Samplerate in SPS (default=%d).";
      "-bandwidth bw         Set the RF bandwidth in Hz (default=%d).";
      "-tx_freq freq         Set the TX (TX1/2) frequency in Hz (default=%ld).";
      "-rx_freq freq         Set the RX (RX1/2) frequency in Hz (default=%ld).";
      "-tx_gain gain         Set the TX gain in dB (default=%d).";
      "-rx_gain gain         Set the RX gain in dB (default=%d).";
      "-loopback enable      Set the internal loopback (JESD Deframer -> Framer) (default=%d).";
      "-bist_tx_tone         Run TX tone test.";
      "-bist_rx_tone         Run RX tone test.";
      "-bist_prbs            Run PRBS test.";
      "-bist_tone_freq freq  Set the BIST tone frequency in Hz (default=%d).";
      "" ].

Definition help_format : string := String.concat nl help_lines.

(** The arguments [help] gives to [printf] after the format. *)
Definition help_args {dft : Defaults} : list Z :=
  [ DEFAULT_REFCLK_FREQ; DEFAULT_SAMPLERATE; DEFAULT_BANDWIDTH; DEFAULT_TX_FREQ;
    DEFAULT_RX_FREQ; DEFAULT_TX_GAIN; DEFAULT_RX_GAIN; DEFAULT_BIST_TONE_FREQ;
    DEFAULT_LOOPBACK ].

(** The number of conversions of a line of the format: its percent
    signs (character 37), none of which is doubled. *)
Fixpoint conversions (s : string) : nat :=
  match s with
  | EmptyString => 0%nat
  | String c s' => ((if Ascii.eqb c (Ascii.ascii_of_nat 37) then 1 else 0) + conversions s')%nat
  end.

(** The lines of the format that have a conversion, each with the
    argument [printf] prints there when every such line has one
    conversion: the k-th of these lines with the k-th argument. *)
Definition help_shows {dft : Defaults} : list (string * Z) :=
  zip (List.filter (λ line, negb (conversions line =? 0)%nat) help_lines) help_args.

Section Program.
Context {hdr : Headers} {env : Env} {dft : Defaults} {libc : Libc}.

(** [static void help(void)], lines 413-447. *)
Definition help : M unit :=
  printf help_format help_args;;
  exit 1.

(** [switch(option_index)], lines 508-554. *)
Definition switch_option_index (option_index : Z) (optarg : string) (l : Locals) : M Locals :=
  match option_index with
  | 1 => mret (set_refclk_freq (strtod_int64 optarg) l)
  | 2 => mret (set_samplerate (strtod_uint32 optarg) l)
  | 3 => mret (set_bandwidth (strtod_int32 optarg) l)
  | 4 => mret (set_tx_freq (strtod_int64 optarg) l)
  | 5 => mret (set_rx_freq (strtod_int64 optarg) l)
  | 6 => mret (set_tx_gain (strtod_int64 optarg) l)
  | 7 => mret (set_rx_gain (strtod_int64 optarg) l)
  | 8 => mret (set_loopback (strtod_uint8 optarg) l)
  | 9 => mret (set_bist_tx_tone true l)
  | 10 => mret (set_bist_rx_tone true l)
  | 11 => mret (set_bist_prbs true l)
  | 12 => mret (set_bist_tone_freq (strtod_int32 optarg) l)
  | 13 => mret (set_enable_8bit_mode true l)
  | 14 => mret (set_enable_oversample true l)
  | _ => fprintf_stderr "unknown option index: %d" [option_index];; exit 1
  end.

(** [atoi(NULL)]: the behaviour is undefined; with the GNU C library the
    process is ended by [SIGSEGV] (signal 11). *)
Definition atoi_NULL : M Z := kill 11.

(** [switch(c)], lines 506-568; ['h'] is 104, ['c'] is 99, ['8'] is 56.
    In the case ['c'], [optarg] is NULL. *)
Definition switch_c (r : Getopt) (l : Locals) : M Locals :=
  if opt_c r =? 0 then switch_option_index (opt_index r) (opt_arg r) l
  else if opt_c r =? 104 then help;; exit 1
  else if opt_c r =? 99 then v ← atoi_NULL; mret (set_litepcie_device_num v l)
  else if opt_c r =? 56 then mret (set_enable_8bit_mode true l)
  else exit 1.

(** [for (;;)], lines 502-569, on the successive returns of
    [getopt_long_only]; after the last of [rs] it returns -1.  The
    diagnostic of a return ['?'] is printed by [getopt_long_only] itself,
    before it returns. *)
Fixpoint parse (rs : list Getopt) (l : Locals) : M Locals :=
  match rs with
  | [] => mret l
  | r :: rs' =>
      (if opt_c r =? 63 then fprintf_stderr (opt_err r) [] else mret tt);;
      if opt_c r =? -1 then mret l
      else l' ← switch_c r l; parse rs' l'
  end.

(** The locals before the options are read, lines 476-499. *)
Definition locals_init : Locals :=
  mkLocals 0 DEFAULT_REFCLK_FREQ DEFAULT_SAMPLERATE DEFAULT_BANDWIDTH DEFAULT_TX_FREQ
    DEFAULT_RX_FREQ DEFAULT_TX_GAIN DEFAULT_RX_GAIN DEFAULT_LOOPBACK
    false false false DEFAULT_BIST_TONE_FREQ false false.

(** [int main(int argc, char **argv)], lines 471-578.  The device path
    written by [snprintf] does not appear in [Open]. *)
Definition main (rs : list Getopt) : M Z :=
  l ← parse rs locals_init;
  m2sdr_init (samplerate l) (bandwidth l) (refclk_freq l) (tx_freq l) (rx_freq l)
    (tx_gain l) (rx_gain l) (loopback l) (bist_tx_tone l) (bist_rx_tone l)
    (bist_prbs l) (bist_tone_freq l) (enable_8bit_mode l) (enable_oversample l);;
  mret 0.

End Program.

(** What the options recognised by [main] do to its locals. *)
Definition apply_option {libc : Libc} (r : Getopt) (l : Locals) : Locals :=
  if opt_c r =? 0 then
    match opt_index r with
    | 1 => set_refclk_freq (strtod_int64 (opt_arg r)) l
    | 2 => set_samplerate (strtod_uint32 (opt_arg r)) l
    | 3 => set_bandwidth (strtod_int32 (opt_arg r)) l
    | 4 => set_tx_freq (strtod_int64 (opt_arg r)) l
    | 5 => set_rx_freq (strtod_int64 (opt_arg r)) l
    | 6 => set_tx_gain (strtod_int64 (opt_arg r)) l
    | 7 => set_rx_gain (strtod_int64 (opt_arg r)) l
    | 8 => set_loopback (strtod_uint8 (opt_arg r)) l
    | 9 => set_bist_tx_tone true l
    | 10 => set_bist_rx_tone true l
    | 11 => set_bist_prbs true l
    | 12 => set_bist_tone_freq (strtod_int32 (opt_arg r)) l
    | 13 => set_enable_8bit_mode true l
    | 14 => set_enable_oversample true l
    | _ => l
    end
  else if opt_c r =? 56 then set_enable_8bit_mode true l
  else l.

(** The returns of [getopt_long_only] that [main] goes on after: a long
    option of index 1 to 14, or ['8']. *)
Definition accepted (r : Getopt) : Prop :=
  (opt_c r = 0 ∧ 1 ≤ opt_index r ≤ 14) ∨ opt_c r = 56.

(** The returns at which [main] ends the process with [exit]: anything
    else but -1 and ['c']. *)
Definition rejected (r : Getopt) : Prop :=
  opt_c r ≠ -1 ∧ opt_c r ≠ 99 ∧ ¬ accepted r.

(** The return for the long option of index [k], and for the short
    option of character [c]. *)
Definition is_long (k : Z) (r : Getopt) : Prop := opt_c r = 0 ∧ opt_index r = k.
Definition is_short (c : Z) (r : Getopt) : Prop := opt_c r = c.

Global Instance accepted_dec r : Decision (accepted r).
Proof. unfold accepted. apply _. Defined.

Global Instance is_long_dec k r : Decision (is_long k r).
Proof. unfold is_long. apply _. Defined.

Global Instance is_short_dec c r : Decision (is_short c r).
Proof. unfold is_short. apply _. Defined.

(** The argument of the last of the returns [rs] that satisfies [P]. *)
Definition last_arg (P : Getopt → Prop) `{∀ r, Decision (P r)}
    (rs : list Getopt) : option string :=
  opt_arg <$> last (filter P rs).

(** Whether one of the returns [rs] satisfies [P]. *)
Definition occurs (P : Getopt → Prop) `{∀ r, Decision (P r)} (rs : list Getopt) : bool :=
  bool_decide (Exists P rs).

(** What is printed at the rejection of [r]: by [main], by [help], or
    by [getopt_long_only] itself. *)
Definition rejection_trace {dft : Defaults} (r : Getopt) : list Event :=
  if opt_c r =? 0 then [ Stderr "unknown option index: %d" [opt_index r] ]
  else if opt_c r =? 104 then [ Printf help_format help_args ]
  else if opt_c r =? 63 then [ Stderr (opt_err r) [] ]
  else [].

(** Sample values of the defaults and conversions for the examples: the
    conversions read a decimal number. *)
Definition sample_defaults : Defaults := {|
  DEFAULT_REFCLK_FREQ := 38400000;
  DEFAULT_SAMPLERATE := 30720000;
  DEFAULT_BANDWIDTH := 56000000;
  DEFAULT_TX_FREQ := 2400000000;
  DEFAULT_RX_FREQ := 2400000000;
  DEFAULT_TX_GAIN := -20;
  DEFAULT_RX_GAIN := 0;
  DEFAULT_LOOPBACK := 0;
  DEFAULT_BIST_TONE_FREQ := 1000000
|}.

Fixpoint decimal_from (acc : Z) (s : string) : Z :=
  match s with
  | EmptyString => acc
  | String c s' => decimal_from (10 * acc + (Z.of_nat (Ascii.nat_of_ascii c) - 48)) s'
  end.

Definition decimal (s : string) : Z := decimal_from 0 s.

Definition sample_libc : Libc := {|
  strtod_int64 := decimal;
  strtod_uint32 := decimal;
  strtod_int32 := decimal;
  strtod_uint8 := decimal
|}.

(** The returns for [-samplerate 61440000 -oversample -bist_prbs
    -samplerate 30720000 -8bit]. *)
Definition sample_options : list Getopt :=
  [ mkGetopt 0 2 "61440000" EmptyString; mkGetopt 0 14 EmptyString EmptyString;
    mkGetopt 0 11 EmptyString EmptyString; mkGetopt 0 2 "30720000" EmptyString;
    mkGetopt 56 13 EmptyString EmptyString ].

(** The return for an option [-x] that [getopt_long_only] does not
    recognise, and the return for [-c]. *)
Definition sample_unknown : Getopt :=
  mkGetopt 63 0 EmptyString "m2sdr_rf: unrecognized option '-x'".

Definition sample_device : Getopt := mkGetopt 99 0 EmptyString EmptyString.

End Main.

(** ** The search for the optimal delays *)

(** Two nested loops over 16 rows and 16 columns visit the cells in the
    order of [cell_at]. *)
Lemma nested_loops_cells {S : Type} (f : nat → nat → S → S) (s : S) :
  for_range 0 16 (λ clk, for_range 0 16 (λ dat, f clk dat)) s =
  foldl (λ s x, f x.1 x.2 s) s (cell_at <$> seq 0 256).
Proof. vm_compute. reflexivity. Qed.

Section Selection.
Variable g : Grid.

Lemma count_valid_acc clk fuel : ∀ i v,
  count_valid g clk i fuel v = v + count_valid g clk i fuel 0.
Proof.
  induction fuel as [|fuel IH]; intros i v; simpl; [lia|].
  destruct ((i <? 16)%nat && (cell g clk i =? 1)); [|lia].
  rewrite (IH _ (v + 1)), (IH _ (0 + 1)). lia.
Qed.

(** The count is the length of the block of valid cells that starts at
    column [i] and is closed on its right. *)
Lemma count_valid_spec clk fuel : ∀ i,
  (i ≤ 16)%nat → (16 - i ≤ fuel)%nat →
  ∃ n : nat, count_valid g clk i fuel 0 = Z.of_nat n ∧
    (i + n ≤ 16)%nat ∧
    Forall (λ j, valid g clk j) (seq i n) ∧
    ((i + n)%nat ≠ 16%nat → ¬ valid g clk (i + n)).
Proof.
  induction fuel as [|fuel IH]; intros i Hi16 Hf; simpl.
  - exists 0%nat. rewrite Nat.add_0_r. split_and!; [done|lia|apply Forall_nil_2|lia].
  - destruct (i <? 16)%nat eqn:Hi; simpl.
    + apply Nat.ltb_lt in Hi. destruct (cell g clk i =? 1) eqn:Hc.
      * destruct (IH (S i)) as (n & Hn & Hb & Hall & Hend); [lia|lia|].
        exists (S n). rewrite count_valid_acc, Hn.
        split_and!; [lia|lia| |].
        -- simpl. constructor; [by apply Z.eqb_eq|done].
        -- replace (i + S n)%nat with (S i + n)%nat by lia. done.
      * exists 0%nat. rewrite Nat.add_0_r.
        split_and!; [done|lia|apply Forall_nil_2|]. intros _. unfold valid.
        by apply Z.eqb_neq.
    + apply Nat.ltb_ge in Hi. exists 0%nat. rewrite Nat.add_0_r.
      split_and!; [done|lia|apply Forall_nil_2|lia].
Qed.

(** Sixteen iterations are enough: more fuel does not change the count. *)
Lemma count_valid_fuel clk i fuel v :
  (16 ≤ fuel)%nat → count_valid g clk i fuel v = count_valid g clk i 16 v.
Proof.
  intros Hf.
  assert (Hgen : ∀ f1 f2 j w, (16 - j ≤ f1)%nat → (16 - j ≤ f2)%nat →
            count_valid g clk j f1 w = count_valid g clk j f2 w).
  { induction f1 as [|f1 IH]; intros f2 j w H1 H2.
    - destruct f2; simpl; [done|].
      replace (j <? 16)%nat with false; [done|]. symmetry. apply Nat.ltb_ge. lia.
    - destruct f2; simpl.
      + replace (j <? 16)%nat with false; [done|]. symmetry. apply Nat.ltb_ge. lia.
      + destruct (j <? 16)%nat eqn:Hj; simpl; [|done].
        destruct (cell g clk j =? 1); [|done]. apply IH; lia. }
  apply Hgen; lia.
Qed.

(** Two closed blocks of valid cells from the same column have the same
    length. *)
Lemma block_length_unique clk i n m :
  Forall (λ j, valid g clk j) (seq i n) →
  ((i + n)%nat ≠ 16%nat → ¬ valid g clk (i + n)) →
  Forall (λ j, valid g clk j) (seq i m) →
  ((i + m)%nat ≠ 16%nat → ¬ valid g clk (i + m)) →
  (i + n ≤ 16)%nat → (i + m ≤ 16)%nat → n = m.
Proof.
  rewrite !Forall_seq. intros Hn En Hm Em Bn Bm.
  destruct (decide (n = m)) as [|Hne]; [done|exfalso].
  destruct (decide (n < m)%nat).
  - apply En; [lia|]. apply Hm. lia.
  - apply Em; [lia|]. apply Hn. lia.
Qed.

Lemma find_optimal_loop_cells :
  find_optimal_loop g = foldl (sel g) optimum_init (cell_at <$> seq 0 256).
Proof. apply (nested_loops_cells (select_cell g)). Qed.

Lemma sel_keep st x : score g x ≤ max_valid_delays st → sel g st x = st.
Proof.
  unfold sel, select_cell, score. destruct (cell g x.1 x.2 =? 1); [|done].
  intros H. destruct (Z.gtb_spec (count_valid g x.1 x.2 16 0) (max_valid_delays st)); [lia|done].
Qed.

Lemma sel_take st x :
  0 ≤ max_valid_delays st → max_valid_delays st < score g x → sel g st x = candidate g x.
Proof.
  unfold sel, select_cell, candidate, score. destruct (cell g x.1 x.2 =? 1); [|lia].
  intros _ H. destruct (Z.gtb_spec (count_valid g x.1 x.2 16 0) (max_valid_delays st)); [done|lia].
Qed.

Lemma sel_cases st x :
  0 ≤ max_valid_delays st →
  sel g st x = st ∧ score g x ≤ max_valid_delays st ∨
  sel g st x = candidate g x ∧ max_valid_delays st < score g x.
Proof.
  intros H0. destruct (decide (score g x ≤ max_valid_delays st)).
  - left. by rewrite sel_keep.
  - right. split; [apply sel_take|]; lia.
Qed.

Lemma foldl_sel_keep l : ∀ st,
  Forall (λ x, score g x ≤ max_valid_delays st) l → foldl (sel g) st l = st.
Proof.
  induction l as [|x l IH]; intros st Hl; [done|]. simpl.
  apply Forall_cons in Hl as [Hx Hl]. rewrite sel_keep by done. by apply IH.
Qed.

Lemma foldl_sel_below l b : ∀ st,
  0 ≤ max_valid_delays st → max_valid_delays st < b →
  Forall (λ x, score g x < b) l →
  0 ≤ max_valid_delays (foldl (sel g) st l) < b.
Proof.
  induction l as [|x l IH]; intros st H0 Hb Hl; [simpl; lia|]. simpl.
  apply Forall_cons in Hl as [Hx Hl].
  destruct (sel_cases st x H0) as [[-> _]|[-> Hlt]]; apply IH; simpl; try done; lia.
Qed.

(** The search keeps the first cell of greatest score. *)
Lemma foldl_sel_first_max l1 x l2 st :
  0 ≤ max_valid_delays st → max_valid_delays st < score g x →
  Forall (λ y, score g y < score g x) l1 →
  Forall (λ y, score g y ≤ score g x) l2 →
  foldl (sel g) st (l1 ++ x :: l2) = candidate g x.
Proof.
  intros H0 Hx H1 H2. rewrite foldl_app. simpl.
  pose proof (foldl_sel_below l1 (score g x) st H0 Hx H1) as Hb.
  rewrite sel_take by lia. by apply foldl_sel_keep.
Qed.

(** The search ends on its initial locals or on a cell it visited. *)
Lemma foldl_sel_shape l : ∀ st,
  0 ≤ max_valid_delays st →
  foldl (sel g) st l = st ∨
  ∃ x, x ∈ l ∧ foldl (sel g) st l = candidate g x ∧ max_valid_delays st < score g x.
Proof.
  induction l as [|x l IH]; intros st H0; [by left|]. simpl.
  destruct (sel_cases st x H0) as [[-> _]|[-> Hlt]].
  - destruct (IH st H0) as [->|(y & Hy & -> & Hs)]; [by left|].
    right. exists y. split_and!; [by right|done..].
  - destruct (IH (candidate g x)) as [->|(y & Hy & -> & Hs)]; [simpl; lia| |].
    + right. exists x. split_and!; [by left|done..].
    + right. exists y. simpl in Hs. split_and!; [by right|done|lia].
Qed.

Lemma foldl_sel_max_ge l : ∀ st x,
  0 ≤ max_valid_delays st → x ∈ l →
  score g x ≤ max_valid_delays (foldl (sel g) st l).
Proof.
  assert (Hmono : ∀ l st, 0 ≤ max_valid_delays st →
            max_valid_delays st ≤ max_valid_delays (foldl (sel g) st l)).
  { clear. induction l as [|y l IH]; intros st H0; [done|]. simpl.
    destruct (sel_cases st y H0) as [[-> _]|[-> Hlt]]; [by apply IH|].
    etrans; [|apply IH]; simpl; lia. }
  induction l as [|y l IH]; intros st x H0 Hx; [by apply elem_of_nil in Hx|].
  simpl. apply elem_of_cons in Hx as [->|Hx].
  - destruct (sel_cases st y H0) as [[-> Hle]|[-> Hlt]].
    + etrans; [apply Hle|]. by apply Hmono.
    + apply (Hmono l (candidate g y)). simpl. lia.
  - destruct (sel_cases st y H0) as [[-> _]|[-> Hlt]]; apply IH; simpl; try done; lia.
Qed.

(** A valid cell has a valid run around it. *)
Lemma left_extent clk c :
  valid g clk c →
  ∃ s, (s ≤ c)%nat ∧ Forall (λ j, valid g clk j) (seq s (c - s)) ∧
       (s ≠ 0%nat → ¬ valid g clk (s - 1)).
Proof.
  induction c as [|c IH]; intros Hc.
  - exists 0%nat. split_and!; [done|apply Forall_nil_2|done].
  - destruct (decide (valid g clk c)) as [Hv|Hv].
    + destruct (IH Hv) as (s & Hs & Hall & Hl). exists s.
      split_and!; [lia| |done].
      apply Forall_seq. intros j Hj. destruct (decide (j = c)) as [->|]; [done|].
      rewrite Forall_seq in Hall. apply Hall. lia.
    + exists (S c). split_and!; [done| |].
      * rewrite Nat.sub_diag. apply Forall_nil_2.
      * intros _. by rewrite Nat.sub_1_r.
Qed.

Lemma score_run clk start len :
  valid_run g clk start len → score g (clk, start) = Z.of_nat len.
Proof.
  intros (Hclk & Hlen & Hb & Hall & Hl & Hr). unfold score. cbn [fst snd].
  assert (Hs : valid g clk start).
  { rewrite Forall_seq in Hall. apply Hall. lia. }
  unfold valid in Hs. rewrite Hs, Z.eqb_refl.
  destruct (count_valid_spec clk 16 start) as (n & -> & Hn & Halln & Hrn); [lia..|].
  f_equal. by eapply block_length_unique.
Qed.

Lemma score_cell clk c :
  (clk < 16)%nat → (c < 16)%nat → 0 < score g (clk, c) →
  ∃ start len, valid_run g clk start len ∧ (start ≤ c < start + len)%nat ∧
    score g (clk, c) = Z.of_nat (start + len - c).
Proof.
  intros Hclk Hc. unfold score. cbn [fst snd].
  destruct (cell g clk c =? 1) eqn:Hv; [|lia]. apply Z.eqb_eq in Hv.
  destruct (count_valid_spec clk 16 c) as (n & -> & Hn & Halln & Hrn); [lia..|].
  intros Hpos. destruct (left_extent clk c Hv) as (s & Hs & Halls & Hl).
  exists s, (c - s + n)%nat. split_and!; [| |lia|f_equal; lia].
  - unfold valid_run. split_and!; [done|lia|lia| |done|].
    + rewrite Forall_seq in Halls, Halln. apply Forall_seq. intros j Hj.
      destruct (decide (j < c)%nat); [apply Halls|apply Halln]; lia.
    + replace (s + (c - s + n))%nat with (c + n)%nat by lia. done.
  - lia.
Qed.

(** The search returns the valid run that no run exceeds and that is the
    first, in scan order, of those of its length. *)
Lemma find_optimal_first_longest clk start len :
  valid_run g clk start len →
  (∀ clk' start' len', valid_run g clk' start' len' → (len' ≤ len)%nat) →
  (∀ clk' start', valid_run g clk' start' len → scan_le clk start clk' start') →
  find_optimal g = (Z.of_nat clk, Z.of_nat (start + len `div` 2)).
Proof.
  intros Hrun Hmax Hfirst.
  pose proof Hrun as (Hclk & Hlen & Hb & _).
  pose proof (score_run _ _ _ Hrun) as Hscore.
  assert (Hle : ∀ k, (k < 256)%nat → score g (cell_at k) ≤ Z.of_nat len).
  { intros k Hk. destruct (decide (0 < score g (cell_at k))) as [Hp|]; [|lia].
    destruct (score_cell (k `div` 16) (k `mod` 16)) as (s & l & Hr & Hin & Hsc).
    - apply Nat.Div0.div_lt_upper_bound. lia.
    - apply Nat.mod_upper_bound. lia.
    - done.
    - unfold cell_at. rewrite Hsc. specialize (Hmax _ _ _ Hr). lia. }
  assert (Hlt : ∀ k, (k < clk * 16 + start)%nat →
            score g (cell_at k) < Z.of_nat len).
  { intros k Hk. destruct (decide (0 < score g (cell_at k))) as [Hp|]; [|lia].
    destruct (score_cell (k `div` 16) (k `mod` 16)) as (s & l & Hr & Hin & Hsc).
    - apply Nat.Div0.div_lt_upper_bound. lia.
    - apply Nat.mod_upper_bound. lia.
    - done.
    - unfold cell_at. rewrite Hsc. pose proof (Hmax _ _ _ Hr) as Hl.
      destruct (decide (l = len ∧ s = (k `mod` 16)%nat)) as [[-> ->]|]; [|lia].
      destruct (Hfirst _ _ Hr) as [Hlex|[Heq Hlex]].
      + pose proof (Nat.div_mod_eq k 16). lia.
      + pose proof (Nat.div_mod_eq k 16). lia. }
  unfold find_optimal. rewrite find_optimal_loop_cells.
  replace (seq 0 256) with
    (seq 0 (clk * 16 + start) ++ (clk * 16 + start)%nat ::
     seq (S (clk * 16 + start)) (255 - (clk * 16 + start))).
  2:{ symmetry. etrans; [|apply (seq_app (clk * 16 + start) (S (255 - (clk * 16 + start))) 0)].
      f_equal. lia. }
  rewrite fmap_app, fmap_cons.
  assert (Hat : cell_at (clk * 16 + start) = (clk, start)).
  { unfold cell_at. f_equal.
    - rewrite Nat.div_add_l by lia. rewrite Nat.div_small; lia.
    - rewrite Nat.add_comm, Nat.Div0.mod_add. apply Nat.mod_small. lia. }
  rewrite Hat, foldl_sel_first_max.
  - unfold candidate. cbn [fst snd optimal_clk_delay optimal_dat_delay].
    rewrite Hscore. f_equal.
    rewrite Z.quot_div_nonneg by lia. rewrite Nat2Z.inj_add, Nat2Z.inj_div. done.
  - done.
  - simpl. lia.
  - apply Forall_fmap, Forall_seq. intros j Hj. simpl. rewrite Hscore. apply Hlt. lia.
  - apply Forall_fmap, Forall_seq. intros j Hj. simpl. rewrite Hscore. apply Hle. lia.
Qed.

Lemma score_valid clk dat :
  (dat < 16)%nat → valid g clk dat → 0 < score g (clk, dat).
Proof.
  intros Hd Hv. unfold score. cbn [fst snd]. unfold valid in Hv. rewrite Hv, Z.eqb_refl.
  destruct (count_valid_spec clk 16 dat) as (n & -> & Hn & Halln & Hrn); [lia..|].
  destruct n as [|n]; [|lia]. exfalso. rewrite Nat.add_0_r in Hrn. apply Hrn; [lia|done].
Qed.

Lemma valid_run_elem clk start len :
  valid_run g clk start len ↔ (clk, start, len) ∈ valid_runs g.
Proof.
  unfold valid_runs. rewrite list_elem_of_filter. cbn [fst snd]. split; [|by intros [? _]].
  intros Hr. split; [done|]. destruct Hr as (Hclk & Hlen & Hb & _).
  apply list_elem_of_bind. exists clk. split; [|apply elem_of_seq; lia].
  apply list_elem_of_bind. exists start. split; [|apply elem_of_seq; lia].
  apply list_elem_of_bind. exists len. split; [|apply elem_of_seq; lia].
  by apply list_elem_of_ret.
Qed.

(** A property of all valid runs can be checked on their list. *)
Lemma valid_runs_Forall (P : nat → nat → nat → Prop) :
  Forall (λ r, P r.1.1 r.1.2 r.2) (valid_runs g) →
  ∀ clk start len, valid_run g clk start len → P clk start len.
Proof.
  rewrite Forall_forall. intros H clk start len Hr%valid_run_elem. apply (H _ Hr).
Qed.

End Selection.

(** C1: on a grid with at least one valid cell the search finds delays,
    and the cell at (clock delay, data delay) it returns is valid. *)
Theorem optimal_setting_is_valid (g : Grid) :
  (∃ clk dat, (clk < 16)%nat ∧ (dat < 16)%nat ∧ valid g clk dat) →
  ∃ clk dat : nat,
    find_optimal g = (Z.of_nat clk, Z.of_nat dat) ∧ found (find_optimal g) = true ∧
    (clk < 16)%nat ∧ (dat < 16)%nat ∧ valid g clk dat.
Proof.
  intros (clk0 & dat0 & Hclk0 & Hdat0 & Hv0).
  pose proof (score_valid g clk0 dat0 Hdat0 Hv0) as Hs0.
  assert (Hin0 : (clk0, dat0) ∈ cell_at <$> seq 0 256).
  { apply list_elem_of_fmap. exists (clk0 * 16 + dat0)%nat. split.
    - unfold cell_at. f_equal.
      + rewrite Nat.div_add_l by lia. rewrite Nat.div_small; lia.
      + rewrite Nat.add_comm, Nat.Div0.mod_add. symmetry. apply Nat.mod_small. lia.
    - apply elem_of_seq. lia. }
  pose proof (foldl_sel_max_ge g _ optimum_init _ (Z.le_refl 0) Hin0) as Hge.
  unfold find_optimal. rewrite find_optimal_loop_cells.
  destruct (foldl_sel_shape g (cell_at <$> seq 0 256) optimum_init (Z.le_refl 0))
    as [Heq|(x & Hx & Heq & Hsx)].
  { rewrite Heq in Hge. simpl in Hge. lia. }
  rewrite Heq. cbn [candidate optimal_clk_delay optimal_dat_delay].
  apply list_elem_of_fmap in Hx as (k & -> & Hk%elem_of_seq).
  assert (Hr : (k `div` 16 < 16)%nat) by (apply Nat.Div0.div_lt_upper_bound; lia).
  assert (Hc : (k `mod` 16 < 16)%nat) by (apply Nat.mod_upper_bound; lia).
  destruct (score_cell g _ _ Hr Hc Hsx) as (s & l & Hrun & Hin & Hsc).
  unfold cell_at in *. cbn [fst snd]. rewrite Hsc.
  rewrite Z.quot_div_nonneg by lia.
  exists (k `div` 16)%nat, (k `mod` 16 + (s + l - k `mod` 16) `div` 2)%nat.
  destruct Hrun as (_ & _ & Hb & Hall & _). rewrite Forall_seq in Hall.
  assert (Hhalf : ((s + l - k `mod` 16) `div` 2 < s + l - k `mod` 16)%nat)
    by (apply Nat.div_lt; lia).
  split_and!.
  - f_equal. rewrite Nat2Z.inj_add, Nat2Z.inj_div. done.
  - unfold found. cbn [fst snd]. apply andb_true_iff. split; apply negb_true_iff, Z.eqb_neq.
    + lia.
    + assert (0 ≤ Z.of_nat (s + l - k `mod` 16) `div` 2) by (apply Z.div_pos; lia). lia.
  - done.
  - lia.
  - apply Hall. lia.
Qed.

Lemma optimal_setting_is_valid_witness :
  ∃ clk dat : nat,
    find_optimal grid_row5 = (Z.of_nat clk, Z.of_nat dat) ∧
    found (find_optimal grid_row5) = true ∧
    (clk < 16)%nat ∧ (dat < 16)%nat ∧ valid grid_row5 clk dat.
Proof.
  apply (optimal_setting_is_valid grid_row5).
  exists 5%nat, 3%nat. split_and!; [lia|lia|vm_compute; reflexivity].
Defined.

(** The centre of a run of length 1 is its only cell. *)
Example single_cell_run_accepted :
  find_optimal (grid_of_runs [(7, 15, 1)]%nat) = (7, 15).
Proof. vm_compute. reflexivity. Qed.

(** From a cell of a run the count is what is left of the run; from a
    cell outside, nothing. *)
Example count_valid_row5 :
  count_valid grid_row5 5 3 16 0 = 7 ∧ count_valid grid_row5 5 6 16 0 = 4 ∧
  count_valid grid_row5 5 10 16 0 = 0.
Proof. vm_compute. repeat split. Qed.

(** C2: when the longest valid run of the grid is the run of length [len]
    that starts at column [start] of row [clk], every other valid run being
    shorter, the search returns clock delay [clk] and data delay
    [start + len / 2]; no least length is asked of the run. *)
Theorem optimal_setting_centers_longest_run (g : Grid) (clk start len : nat) :
  valid_run g clk start len →
  (∀ clk' start' len', valid_run g clk' start' len' →
     (clk', start') = (clk, start) ∨ (len' < len)%nat) →
  find_optimal g = (Z.of_nat clk, Z.of_nat (start + len `div` 2)).
Proof.
  intros Hrun Huniq. apply find_optimal_first_longest; [done| |].
  - intros clk' start' len' Hr'. destruct (Huniq _ _ _ Hr') as [[= -> ->]|]; [|lia].
    pose proof (score_run g _ _ _ Hrun). pose proof (score_run g _ _ _ Hr'). lia.
  - intros clk' start' Hr'. destruct (Huniq _ _ _ Hr') as [[= -> ->]|]; [|lia].
    right. done.
Qed.

Lemma optimal_setting_centers_longest_run_witness :
  find_optimal grid_row5 = (5, 6).
Proof.
  apply (optimal_setting_centers_longest_run grid_row5 5 3 7).
  - compute_done.
  - apply (valid_runs_Forall grid_row5
             (λ clk' start' len', (clk', start') = (5, 3)%nat ∨ (len' < 7)%nat)).
    compute_done.
Defined.

(** C3: of several valid runs of the same greatest length the search
    returns the one it meets first, rows from low to high and columns from
    low to high within a row. *)
Theorem optimal_setting_first_of_equal_runs (g : Grid) (clk start len : nat) :
  valid_run g clk start len →
  (∀ clk' start' len', valid_run g clk' start' len' → (len' ≤ len)%nat) →
  (∀ clk' start', valid_run g clk' start' len → scan_le clk start clk' start') →
  find_optimal g = (Z.of_nat clk, Z.of_nat (start + len `div` 2)).
Proof. apply find_optimal_first_longest. Qed.

Lemma optimal_setting_first_of_equal_runs_witness :
  valid_run grid_tie 9 0 5 ∧ find_optimal grid_tie = (3, 4).
Proof.
  split; [compute_done|].
  apply (optimal_setting_first_of_equal_runs grid_tie 3 2 5).
  - compute_done.
  - apply (valid_runs_Forall grid_tie (λ _ _ len', (len' ≤ 5)%nat)). compute_done.
  - intros clk' start' Hr'.
    apply (valid_runs_Forall grid_tie
             (λ clk' start' len', len' = 5%nat → scan_le 3 2 clk' start')
             ltac:(compute_done) clk' start' 5%nat Hr' eq_refl).
Defined.

(** ** Reasoning about runs *)

Lemma calls_nil : calls [] = [].
Proof. done. Qed.

Lemma calls_cons e l : calls (e :: l) = if is_printf e then calls l else e :: calls l.
Proof. unfold calls. rewrite filter_cons. by destruct (is_printf e). Qed.

Lemma calls_app l k : calls (l ++ k) = calls l ++ calls k.
Proof. apply filter_app. Qed.

Ltac calls_simpl :=
  repeat first [rewrite calls_app | rewrite calls_cons | rewrite calls_nil];
  cbn [is_printf app].

Section Runs.
Context {hdr : Headers} {env : Env}.

Lemma runs_ret {A} (a : A) w (Q : A → list Event → Prop) :
  Q a [] → runs (mret a) w Q.
Proof. intros HQ. exists a, w, []. by rewrite app_nil_r. Qed.

Lemma runs_bind {A B} (m : M A) (f : A → M B) w Q1 (Q : B → list Event → Prop) :
  runs m w Q1 →
  (∀ a e1 w', events w' = events w ++ e1 → Q1 a e1 →
     runs (f a) w' (λ b e2, Q b (e1 ++ e2))) →
  runs (m ≫= f) w Q.
Proof.
  intros (a & w1 & e1 & Hm & He1 & HQ1) Hf.
  destruct (Hf a e1 w1 He1 HQ1) as (b & w2 & e2 & Hfa & He2 & HQ).
  exists b, w2, (e1 ++ e2). unfold mbind, M_bind. rewrite Hm, Hfa.
  split_and!; [done| |done]. by rewrite He2, He1, app_assoc.
Qed.

Lemma runs_call e w (Q : unit → list Event → Prop) :
  Q tt [e] → runs (call e) w Q.
Proof.
  intros HQ. eexists tt, _, [e]. split_and!; [done| |done].
  reflexivity.
Qed.

Lemma runs_call_in e w (Q : Z → list Event → Prop) :
  Q (input (events w ++ [e])) [e] → runs (call_in e) w Q.
Proof.
  intros HQ. eexists _, _, [e]. split_and!; [done| |].
  - reflexivity.
  - exact HQ.
Qed.

Lemma runs_call_eq e w : runs (call e) w (λ _ evs, evs = [e]).
Proof. by apply runs_call. Qed.

Lemma runs_call_in_eq e w :
  runs (call_in e) w (λ v evs, v = input (events w ++ [e]) ∧ evs = [e]).
Proof. by apply runs_call_in. Qed.

Lemma runs_weaken {A} (m : M A) w (Q Q' : A → list Event → Prop) :
  runs m w Q → (∀ a e, Q a e → Q' a e) → runs m w Q'.
Proof. intros (a & w' & e & Hm & He & HQ) Himp. exists a, w', e. auto. Qed.

Lemma exits_call_exit {A} e status w :
  exits (call e;; exit status : M A) w status [e].
Proof.
  eexists. split; [reflexivity|]. reflexivity.
Qed.

Lemma exits_bind_l {A B} (m : M A) (f : A → M B) w status evs :
  exits m w status evs → exits (m ≫= f) w status evs.
Proof.
  intros (w' & Hm & He). exists w'. unfold mbind, M_bind. by rewrite Hm.
Qed.

Lemma exits_bind_r {A B} (m : M A) (f : A → M B) w status Q1 (P : list Event → Prop) :
  runs m w Q1 →
  (∀ a e1 w', events w' = events w ++ e1 → Q1 a e1 →
     ∃ e2, exits (f a) w' status e2 ∧ P (e1 ++ e2)) →
  ∃ evs, exits (m ≫= f) w status evs ∧ P evs.
Proof.
  intros (a & w1 & e1 & Hm & He1 & HQ1) Hf.
  destruct (Hf a e1 w1 He1 HQ1) as (e2 & (w2 & Hfa & He2) & HP).
  exists (e1 ++ e2). split; [|done]. exists w2. unfold mbind, M_bind.
  rewrite Hm, Hfa. split; [done|]. by rewrite He2, He1, app_assoc.
Qed.

(** A loop whose body keeps [I] and makes the calls [tr i] keeps [I] and
    makes the calls of its iterations, in order. *)
Lemma runs_for_each {S} (I : S → Prop) (tr : nat → list Event)
    (body : nat → S → M S) (l : list nat) :
  (∀ i s w, i ∈ l → I s → runs (body i s) w (λ s' evs, I s' ∧ calls evs = tr i)) →
  ∀ s w, I s → runs (for_each body l s) w (λ s' evs, I s' ∧ calls evs = l ≫= tr).
Proof.
  induction l as [|i l IH]; intros Hbody s w HI.
  - by apply runs_ret.
  - simpl. eapply runs_bind; [apply Hbody; [by left|done]|].
    intros s1 e1 w1 _ [HI1 Hc1]. eapply runs_weaken.
    + apply IH; [|done]. intros j s' w' Hj. apply Hbody. by right.
    + intros s2 e2 [HI2 Hc2]. split; [done|].
      by rewrite calls_app, Hc1, Hc2.
Qed.

(** *** The scan and the configuration of the delays *)

Lemma runs_probe d fd clk dat g w :
  runs (probe d fd clk dat g) w (λ _ evs,
    calls evs = [ SpiWrite fd (delay_reg d) (delay_value (Z.of_nat clk) (Z.of_nat dat));
                  Usleep 10000; Readl fd CSR_AD9361_PRBS_RX_ADDR ]).
Proof.
  unfold probe, m2sdr_ad9361_spi_write, mdelay, litepcie_readl, printf.
  eapply runs_bind; [apply runs_call_eq|]. intros ? ? w1 _ ->.
  eapply runs_bind; [apply runs_call_eq|]. intros ? ? w2 _ ->.
  eapply runs_bind; [apply runs_call_in_eq|]. intros v ? w3 _ [_ ->].
  eapply runs_bind; [apply runs_call_eq|]. intros ? ? w4 _ ->.
  by apply runs_ret.
Qed.

(** A scan, once begun, makes its 256 probes and returns. *)
Lemma runs_delays_scan d fd w :
  runs (delays_scan d fd) w (λ _ evs, calls evs = probes d fd).
Proof.
  unfold delays_scan, for_rangeM, printf. eapply runs_weaken.
  - apply (runs_for_each (λ _, True)
             (λ clk, dat ← seq 0 16;
                [ SpiWrite fd (delay_reg d) (delay_value (Z.of_nat clk) (Z.of_nat dat));
                  Usleep 10000; Readl fd CSR_AD9361_PRBS_RX_ADDR ])); [|done].
    intros clk g w1 _ _.
    eapply runs_bind; [apply runs_call_eq|]. intros ? ? w2 _ ->.
    eapply runs_bind.
    { apply (runs_for_each (λ _, True)
               (λ dat, [ SpiWrite fd (delay_reg d) (delay_value (Z.of_nat clk) (Z.of_nat dat));
                         Usleep 10000; Readl fd CSR_AD9361_PRBS_RX_ADDR ])); [|done].
      intros dat g' w3 _ _. eapply runs_weaken; [apply runs_probe|]. by intros ? ? ->. }
    intros g2 e2 w3 _ [_ Hc2].
    eapply runs_bind; [apply runs_call_eq|]. intros ? ? w4 _ ->.
    apply runs_ret. split; [done|]. calls_simpl. by rewrite Hc2, app_nil_r.
  - by intros g' evs [_ ->].
Qed.

Lemma runs_configure_optimal d fd opt w :
  runs (configure_optimal d fd opt) w (λ _ evs, evs = configure_trace d fd opt).
Proof.
  unfold configure_optimal, configure_trace, printf, m2sdr_ad9361_spi_write.
  destruct (found opt).
  - eapply runs_bind; [apply runs_call_eq|]. intros ? ? w1 _ ->. by apply runs_call.
  - eapply runs_bind; [apply runs_call_eq|]. intros ? ? w1 _ ->. by apply runs_ret.
Qed.

Lemma runs_calibrate d fd w :
  runs (calibrate d fd) w (λ g evs, calibrate_trace d fd g evs).
Proof.
  unfold calibrate, printf.
  eapply runs_bind; [apply runs_call_eq|]. intros ? ? w1 _ ->.
  eapply runs_bind; [apply runs_call_eq|]. intros ? ? w2 _ ->.
  eapply runs_bind; [apply runs_call_eq|]. intros ? ? w3 _ ->.
  eapply runs_bind; [apply runs_call_eq|]. intros ? ? w4 _ ->.
  eapply runs_bind; [apply runs_delays_scan|]. intros g scan w5 _ Hscan.
  eapply runs_bind; [apply runs_configure_optimal|]. intros ? ? w6 _ ->.
  apply runs_ret. exists scan. split; [|done]. by rewrite app_nil_r.
Qed.

Lemma runs_prbs_rx_setup fd w :
  runs (prbs_rx_setup fd) w (λ _ evs, evs = prbs_rx_setup_trace fd).
Proof.
  unfold prbs_rx_setup, printf, litepcie_writel.
  eapply runs_bind; [apply runs_call_eq|]. intros ? ? w1 _ ->.
  eapply runs_bind; [apply runs_call_eq|]. intros ? ? w2 _ ->.
  by apply runs_call.
Qed.

Lemma runs_prbs_tx_setup fd w :
  runs (prbs_tx_setup fd) w (λ _ evs, evs = prbs_tx_setup_trace fd).
Proof.
  unfold prbs_tx_setup, litepcie_writel.
  eapply runs_bind; [apply runs_call_eq|]. intros ? ? w1 _ ->.
  by apply runs_call.
Qed.

Lemma runs_bist_prbs_test fd w :
  runs (bist_prbs_test fd) w (λ _ evs, ∃ g_rx g_tx, bist_prbs_trace fd g_rx g_tx evs).
Proof.
  unfold bist_prbs_test.
  eapply runs_bind; [apply runs_prbs_rx_setup|]. intros ? ? w1 _ ->.
  eapply runs_bind; [apply runs_calibrate|]. intros g_rx rx w2 _ Hrx.
  eapply runs_bind; [apply runs_prbs_tx_setup|]. intros ? ? w3 _ ->.
  eapply runs_bind; [apply runs_calibrate|]. intros g_tx tx w4 _ Htx.
  apply runs_ret. exists g_rx, g_tx, rx, tx. by rewrite app_nil_r.
Qed.

Lemma runs_bind_assoc {A B C} (m : M A) (f : A → M B) (k : B → M C) w Q :
  runs (m ≫= λ a, f a ≫= k) w Q → runs ((m ≫= f) ≫= k) w Q.
Proof.
  intros (c & w' & evs & Hr & He & HQ). exists c, w', evs. split_and!; [|done..].
  rewrite <- Hr. unfold mbind, M_bind. by destruct (m w) as [[a|status|signal] w1].
Qed.

Lemma runs_ret_bind {A B} (a : A) (f : A → M B) w Q :
  runs (f a) w Q → runs (mret a ≫= f) w Q.
Proof. done. Qed.

Lemma runs_spi_write_all fd l w :
  runs (spi_write_all fd l) w (λ _ evs, evs = (λ rv, SpiWrite fd rv.1 rv.2) <$> l).
Proof.
  revert w. induction l as [|[reg val] l IH]; intros w; [by apply runs_ret|].
  simpl. unfold m2sdr_ad9361_spi_write.
  eapply runs_bind; [apply runs_call_eq|]. intros ? ? w1 _ ->.
  eapply runs_weaken; [apply IH|]. by intros ? ? ->.
Qed.

(** One step of a straight-line run. *)
Ltac run_step :=
  lazymatch goal with
  | |- runs (mbind _ (mbind _ _)) _ _ => apply runs_bind_assoc
  | |- runs (mbind _ (mret _)) _ _ => apply runs_ret_bind
  | |- runs (mbind _ (call _)) _ _ =>
      eapply runs_bind; [apply runs_call_eq|]; intros ? ? ? _ ->
  end.

(** *** [m2sdr_init] *)

Lemma runs_m2sdr_init
    samplerate bandwidth refclk_freq tx_freq rx_freq tx_gain rx_gain loopback
    bist_tx_tone bist_rx_tone bist_prbs bist_tone_freq enable_8bit_mode
    enable_oversample w :
  0 ≤ input (events w ++ [Open]) →
  runs (m2sdr_init samplerate bandwidth refclk_freq tx_freq rx_freq tx_gain rx_gain
          loopback bist_tx_tone bist_rx_tone bist_prbs bist_tone_freq
          enable_8bit_mode enable_oversample) w
    (λ _ evs,
       m2sdr_init_trace (input (events w ++ [Open])) samplerate bandwidth refclk_freq
         tx_freq rx_freq tx_gain rx_gain loopback bist_tx_tone bist_rx_tone bist_prbs
         bist_tone_freq enable_8bit_mode enable_oversample evs).
Proof.
  intros Hfd. unfold m2sdr_init, printf, litepcie_writel, fprintf_stderr.
  eapply runs_bind; [apply runs_call_in_eq|]. intros fd ? w0 _ [-> ->].
  destruct (Z.ltb_spec (input (events w ++ [Open])) 0) as [|_]; [lia|].
  set (fd := input (events w ++ [Open])). cbv zeta.
  assert (Hrest : ∀ w',
    runs ((if bist_prbs then bist_prbs_test fd else mret tt);;
          (if enable_oversample then spi_write_all fd oversample_writes else mret tt);;
          call (Close fd)) w'
      (λ _ evs, ∃ prbs,
         evs = prbs ++ (if enable_oversample then oversample_trace fd else []) ++
               [Close fd] ∧
         if bist_prbs then ∃ g_rx g_tx, bist_prbs_trace fd g_rx g_tx prbs else prbs = [])).
  { intros w'. eapply runs_bind.
    { instantiate (1 := λ _ prbs,
        if bist_prbs then ∃ g_rx g_tx, bist_prbs_trace fd g_rx g_tx prbs else prbs = []).
      destruct bist_prbs; [apply runs_bist_prbs_test|by apply runs_ret]. }
    intros ? prbs w1 _ Hprbs. eapply runs_bind.
    { instantiate (1 := λ _ evs,
        evs = if enable_oversample then oversample_trace fd else []).
      destruct enable_oversample; [apply runs_spi_write_all|by apply runs_ret]. }
    intros ? ? w2 _ ->. apply runs_call. by exists prbs. }
  repeat run_step. unfold m2sdr_init_trace, config_trace.
  destruct enable_8bit_mode, _1T1R_MODE, bist_tx_tone, bist_rx_tone;
    repeat run_step; (eapply runs_weaken; [apply Hrest|]);
    intros _ evs (prbs & -> & Hprbs); exists prbs; (split; [|done]);
    cbn [app]; reflexivity.
Qed.

Lemma exits_m2sdr_init
    samplerate bandwidth refclk_freq tx_freq rx_freq tx_gain rx_gain loopback
    bist_tx_tone bist_rx_tone bist_prbs bist_tone_freq enable_8bit_mode
    enable_oversample w :
  input (events w ++ [Open]) < 0 →
  exits (m2sdr_init samplerate bandwidth refclk_freq tx_freq rx_freq tx_gain rx_gain
           loopback bist_tx_tone bist_rx_tone bist_prbs bist_tone_freq
           enable_8bit_mode enable_oversample) w 1
    [Open; Stderr "Could not init driver" []].
Proof.
  intros Hfd. unfold exits, m2sdr_init, fprintf_stderr.
  unfold mbind at 1, M_bind at 1. unfold call_in at 1. cbv zeta.
  unfold mbind at 1, M_bind at 1.
  destruct (Z.ltb_spec (input (events w ++ [Open])) 0) as [_|]; [|lia].
  eexists. split; [reflexivity|]. simpl.
  by rewrite <- app_assoc.
Qed.

End Runs.

(** ** [keep_running] is never read *)

Section Blind.
Context {hdr : Headers} {env : Env}.













End Blind.

(** ** A grid without a valid cell *)

Lemma find_optimal_none (g : Grid) :
  (∀ clk dat, (clk < 16)%nat → (dat < 16)%nat → ¬ valid g clk dat) →
  find_optimal g = (-1, -1).
Proof.
  intros Hnone. unfold find_optimal. rewrite find_optimal_loop_cells.
  rewrite foldl_sel_keep; [done|].
  apply Forall_fmap, Forall_seq. intros k Hk. simpl. unfold score. cbn [cell_at fst snd].
  destruct (cell g (k `div` 16) (k `mod` 16) =? 1) eqn:Hc; [|done].
  exfalso. apply (Hnone (k `div` 16)%nat (k `mod` 16)%nat).
  - apply Nat.Div0.div_lt_upper_bound. lia.
  - apply Nat.mod_upper_bound. lia.
  - by apply Z.eqb_eq.
Qed.

Section Calibration.
Context {hdr : Headers} {env : Env}.

(** C4: on a grid without a valid cell the search finds nothing; what
    follows the scan then prints the diagnostic of the direction, writes
    no register, and returns, so that [m2sdr_init] goes on. *)
Theorem no_valid_delays_reported_not_written (d : Direction) (fd : Z) (g : Grid) (w : World) :
  (∀ clk dat, (clk < 16)%nat → (dat < 16)%nat → ¬ valid g clk dat) →
  found (find_optimal g) = false ∧
  runs (configure_optimal d fd (find_optimal g)) w
    (λ _ evs, evs = [Printf (msg_no_valid d) []]).
Proof.
  intros Hnone. rewrite (find_optimal_none g Hnone). split; [done|].
  eapply runs_weaken; [apply runs_configure_optimal|]. by intros _ evs ->.
Qed.

End Calibration.

Lemma no_valid_cells_Forall (g : Grid) :
  Forall (λ clk, Forall (λ dat, ¬ valid g clk dat) (seq 0 16)) (seq 0 16) →
  ∀ clk dat, (clk < 16)%nat → (dat < 16)%nat → ¬ valid g clk dat.
Proof.
  rewrite Forall_seq. intros H clk dat Hclk Hdat.
  specialize (H clk). rewrite Forall_seq in H. apply H; lia.
Qed.

Lemma no_valid_delays_reported_not_written_witness :
  found (find_optimal grid_init) = false ∧
  runs (configure_optimal (hdr := sample_headers) RX 3 (find_optimal grid_init))
    (world_init no_sigint)
    (λ _ evs, evs = [Printf "No valid RX Clk/Dat delay settings found." []]).
Proof.
  apply (no_valid_delays_reported_not_written (hdr := sample_headers)
           RX 3 grid_init (world_init no_sigint)).
  apply no_valid_cells_Forall. compute_done.
Defined.

(** ** The order of the PRBS test *)

Section Order.
Context {hdr : Headers} {env : Env}.

Lemma calls_calibrate_trace d fd g evs :
  calibrate_trace d fd g evs →
  calls evs = probes d fd ++ commit_calls d fd (find_optimal g).
Proof.
  intros (scan & -> & Hscan). unfold calibrate_header, configure_trace, commit_calls.
  destruct (found (find_optimal g)); calls_simpl; by rewrite Hscan.
Qed.

Lemma calls_bist_prbs_trace fd g_rx g_tx evs :
  bist_prbs_trace fd g_rx g_tx evs →
  calls evs =
    [ Writel fd CSR_AD9361_PRBS_TX_ADDR (0 * Z.shiftl 1 CSR_AD9361_PRBS_TX_ENABLE_OFFSET);
      BistPrbs BIST_INJ_RX ] ++
    probes RX fd ++ commit_calls RX fd (find_optimal g_rx) ++
    [ BistLoopback 1;
      Writel fd CSR_AD9361_PRBS_TX_ADDR (1 * Z.shiftl 1 CSR_AD9361_PRBS_TX_ENABLE_OFFSET) ] ++
    probes TX fd ++ commit_calls TX fd (find_optimal g_tx).
Proof.
  intros (rx & tx & -> & Hrx%calls_calibrate_trace & Htx%calls_calibrate_trace).
  unfold prbs_rx_setup_trace, prbs_tx_setup_trace. calls_simpl.
  rewrite Hrx, Htx. by rewrite <- !app_assoc.
Qed.

End Order.

(** ** What is passed to the AD9361 driver *)

Lemma filter_none (p : Event → bool) l :
  Forall (λ e, p e = false) l → List.filter p l = [].
Proof.
  induction 1 as [|e l He _ IH]; [done|]. simpl. by rewrite He.
Qed.

Lemma Forall_of_calls (P : Event → Prop) scan l :
  calls scan = l → Forall P l → (∀ e, is_printf e = true → P e) → Forall P scan.
Proof.
  intros <- Hl Hp. induction scan as [|e scan IH]; [done|].
  rewrite calls_cons in Hl. destruct (is_printf e) eqn:He.
  - constructor; [by apply Hp|by apply IH].
  - apply Forall_cons in Hl as [? ?]. constructor; [done|by apply IH].
Qed.

Section Driver.
Context {hdr : Headers} {env : Env}.

Lemma probes_Forall (P : Event → Prop) d fd :
  (∀ clk dat, P (SpiWrite fd (delay_reg d) (delay_value (Z.of_nat clk) (Z.of_nat dat)))) →
  P (Usleep 10000) → P (Readl fd CSR_AD9361_PRBS_RX_ADDR) →
  Forall P (probes d fd).
Proof.
  intros Hw Hs Hr. apply Forall_forall. intros e He. unfold probes in He.
  apply list_elem_of_bind in He as (clk & He & _).
  apply list_elem_of_bind in He as (dat & He & _).
  repeat (apply elem_of_cons in He as [->|He]; [done|]). by apply elem_of_nil in He.
Qed.

Lemma calibrate_trace_Forall (P : Event → Prop) d fd g evs :
  calibrate_trace d fd g evs →
  (∀ e, is_printf e = true → P e) →
  (∀ val, P (SpiWrite fd (delay_reg d) val)) →
  P (Usleep 10000) → P (Readl fd CSR_AD9361_PRBS_RX_ADDR) →
  Forall P evs.
Proof.
  intros (scan & -> & Hscan) Hp Hw Hs Hr. rewrite !Forall_app. split_and!.
  - unfold calibrate_header. repeat constructor; by apply Hp.
  - eapply Forall_of_calls; [done| |done]. by apply probes_Forall.
  - unfold configure_trace. destruct (found _); repeat constructor; auto.
Qed.

Lemma bist_prbs_trace_io fd g_rx g_tx evs :
  bist_prbs_trace fd g_rx g_tx evs → Forall (λ e, is_board_io e = true) evs.
Proof.
  intros (rx & tx & -> & Hrx & Htx). rewrite !Forall_app. split_and!.
  - by repeat constructor.
  - eapply calibrate_trace_Forall; [done| |done..]. by intros [].
  - by repeat constructor.
  - eapply calibrate_trace_Forall; [done| |done..]. by intros [].
Qed.

(** Outside lines 137-214, [m2sdr_init] makes no configuration call. *)
Lemma filter_m2sdr_init_trace (p : Event → bool)
    fd samplerate bandwidth refclk_freq tx_freq rx_freq tx_gain rx_gain loopback
    bist_tx_tone bist_rx_tone bist_prbs bist_tone_freq enable_8bit_mode
    enable_oversample evs :
  (∀ e, is_board_io e = true → p e = false) →
  m2sdr_init_trace fd samplerate bandwidth refclk_freq tx_freq rx_freq tx_gain rx_gain
    loopback bist_tx_tone bist_rx_tone bist_prbs bist_tone_freq enable_8bit_mode
    enable_oversample evs →
  List.filter p evs =
  List.filter p
    (config_trace fd samplerate bandwidth refclk_freq tx_freq rx_freq tx_gain rx_gain
       loopback bist_tx_tone bist_rx_tone bist_tone_freq enable_8bit_mode
       enable_oversample).
Proof.
  intros Hp (prbs & -> & Hprbs). rewrite !List.filter_app.
  assert (Hio : ∀ l, Forall (λ e, is_board_io e = true) l → List.filter p l = []).
  { intros l Hl. apply filter_none. eapply Forall_impl; [done|]. apply Hp. }
  rewrite (Hio [Open]), (Hio prbs), (Hio [Close fd]), (Hio (if enable_oversample then _ else _)).
  - by rewrite !app_nil_r.
  - destruct enable_oversample; [|done]. unfold oversample_trace.
    apply Forall_fmap, Forall_true. done.
  - by repeat constructor.
  - destruct bist_prbs; [|by subst].
    destruct Hprbs as (g_rx & g_tx & Hprbs). by eapply bist_prbs_trace_io.
  - by repeat constructor.
Qed.

(** C6: [m2sdr_init] passes to [ad9361_set_tx_sampling_freq] and to
    [ad9361_set_rx_sampling_freq], once each, the requested rate when
    oversampling is disabled and half of it, rounded down within
    [uint32_t], when oversampling is enabled. *)
Theorem sampling_freq_halved_when_oversampling
    (samplerate bandwidth refclk_freq tx_freq rx_freq tx_gain rx_gain loopback : Z)
    (bist_tx_tone bist_rx_tone bist_prbs : bool) (bist_tone_freq : Z)
    (enable_8bit_mode enable_oversample : bool) (w : World) :
  0 ≤ samplerate < 2 ^ 32 →
  0 ≤ input (events w ++ [Open]) →
  let rate := if enable_oversample then samplerate `div` 2 else samplerate in
  0 ≤ rate < 2 ^ 32 ∧
  runs (m2sdr_init samplerate bandwidth refclk_freq tx_freq rx_freq tx_gain rx_gain
          loopback bist_tx_tone bist_rx_tone bist_prbs bist_tone_freq
          enable_8bit_mode enable_oversample) w
    (λ _ evs,
       List.filter is_sampling_freq evs = [SetTxSamplingFreq rate; SetRxSamplingFreq rate]).
Proof.
  intros Hrange Hfd rate. split.
  { subst rate. destruct enable_oversample; [|done].
    split; [apply Z.div_pos; lia|]. apply Z.div_lt_upper_bound; lia. }
  eapply runs_weaken; [by apply runs_m2sdr_init|].
  intros [] evs Htrace. erewrite filter_m2sdr_init_trace; [|by intros []|done].
  unfold config_trace. by destruct bist_tx_tone, bist_rx_tone.
Qed.

End Driver.

Lemma sampling_freq_halved_when_oversampling_witness :
  0 ≤ 61440000 < 2 ^ 32 ∧
  runs (m2sdr_init (hdr := sample_headers) (env := sample_board)
          122880001 56000000 38400000 2400000000 2400000000 (-20) 0 1
          false false true 1000000 false true) (world_init no_sigint)
    (λ _ evs,
       List.filter is_sampling_freq evs =
       [SetTxSamplingFreq 61440000; SetRxSamplingFreq 61440000]).
Proof.
  apply (sampling_freq_halved_when_oversampling (hdr := sample_headers)
           (env := sample_board)
           122880001 56000000 38400000 2400000000 2400000000 (-20) 0 1
           false false true 1000000 false true (world_init no_sigint)).
  - vm_compute. split; [discriminate|reflexivity].
  - vm_compute. discriminate.
Defined.

Lemma tx_atten_arg_in_range (tx_gain : Z) :
  -9223372036854775 ≤ tx_gain ≤ 9223372036854775 →
  tx_atten_arg tx_gain = - tx_gain * 1000.
Proof.
  intros H. unfold tx_atten_arg, int64_wrap.
  rewrite (Z.mod_small (- tx_gain + 2 ^ 63)) by lia.
  replace (- tx_gain + 2 ^ 63 - 2 ^ 63) with (- tx_gain) by lia.
  rewrite Z.mod_small by lia. lia.
Qed.

Section Attenuation.
Context {hdr : Headers} {env : Env}.

(** C9, amended: for a TX gain [G] whose product with 1000 fits
    [int64_t], [m2sdr_init] passes [-G * 1000] to [ad9361_set_tx_atten],
    once. *)
Theorem tx_atten_is_minus_gain_times_1000
    (samplerate bandwidth refclk_freq tx_freq rx_freq tx_gain rx_gain loopback : Z)
    (bist_tx_tone bist_rx_tone bist_prbs : bool) (bist_tone_freq : Z)
    (enable_8bit_mode enable_oversample : bool) (w : World) :
  -9223372036854775 ≤ tx_gain ≤ 9223372036854775 →
  0 ≤ input (events w ++ [Open]) →
  runs (m2sdr_init samplerate bandwidth refclk_freq tx_freq rx_freq tx_gain rx_gain
          loopback bist_tx_tone bist_rx_tone bist_prbs bist_tone_freq
          enable_8bit_mode enable_oversample) w
    (λ _ evs, List.filter is_tx_atten evs = [SetTxAtten (- tx_gain * 1000) 1 1 1]).
Proof.
  intros Hrange Hfd.
  eapply runs_weaken; [by apply runs_m2sdr_init|].
  intros [] evs Htrace. erewrite filter_m2sdr_init_trace; [|by intros []|done].
  unfold config_trace. rewrite (tx_atten_arg_in_range _ Hrange).
  by destruct bist_tx_tone, bist_rx_tone.
Qed.

End Attenuation.

Lemma tx_atten_is_minus_gain_times_1000_witness :
  runs (m2sdr_init (hdr := sample_headers) (env := sample_board)
          30720000 56000000 38400000 2400000000 2400000000 10 0 1
          false false false 1000000 false false) (world_init no_sigint)
    (λ _ evs, List.filter is_tx_atten evs = [SetTxAtten (-10000) 1 1 1]).
Proof.
  apply (tx_atten_is_minus_gain_times_1000 (hdr := sample_headers)
           (env := sample_board)
           30720000 56000000 38400000 2400000000 2400000000 10 0 1
           false false false 1000000 false false (world_init no_sigint)).
  - lia.
  - vm_compute. discriminate.
Defined.

(** C9 as stated fails for a gain whose product with 1000 leaves
    [int64_t]: for [G = 2^62] the call receives 0, and no [int64_t] value
    is [-G * 1000]. *)
Lemma tx_atten_overflow :
  let G := 4611686018427387904 in
  let w := (m2sdr_init (hdr := sample_headers) (env := sample_board)
              30720000 56000000 38400000 2400000000 2400000000 G 0 1
              false false false 1000000 false false (world_init no_sigint)).2 in
  List.filter is_tx_atten (events w) = [SetTxAtten 0 1 1 1] ∧
  List.filter is_tx_atten (events w) ≠ [SetTxAtten (- G * 1000) 1 1 1] ∧
  ¬ (- 2 ^ 63 ≤ - G * 1000 < 2 ^ 63).
Proof.
  split_and!.
  - vm_compute. reflexivity.
  - vm_compute. discriminate.
  - lia.
Qed.

(** ** The RX delays after the TX calibration *)

Lemma spi_regs_app h evs :
  spi_regs (h ++ evs) =
  foldl (λ m e, match e with SpiWrite _ reg val => <[reg := val]> m | _ => m end)
    (spi_regs h) evs.
Proof. unfold spi_regs. by rewrite foldl_app. Qed.

Lemma spi_regs_write h fd reg val :
  spi_regs (h ++ [SpiWrite fd reg val]) !! reg = Some val.
Proof. rewrite spi_regs_app. simpl. apply lookup_insert_eq. Qed.

Lemma spi_regs_leaves reg evs : ∀ h,
  Forall (leaves reg) evs → spi_regs (h ++ evs) !! reg = spi_regs h !! reg.
Proof.
  induction evs as [|e evs IH]; intros h Hl; [by rewrite app_nil_r|].
  apply Forall_cons in Hl as [He Hl].
  change (h ++ e :: evs) with (h ++ [e] ++ evs).
  rewrite (assoc_L (++) h [e] evs), IH by done.
  rewrite spi_regs_app. destruct e; simpl; try done.
  simpl in He. by rewrite lookup_insert_ne.
Qed.

Lemma bind_assoc_at {A B C} (m : M A) (f : A → M B) (k : B → M C) w :
  ((m ≫= f) ≫= k) w = (m ≫= λ a, f a ≫= k) w.
Proof. unfold mbind, M_bind. by destruct (m w) as [[a|status|signal] w1]. Qed.

Section Frame.
Context {hdr : Headers} {env : Env}.

(** C10: once [calibrate RX] has written the RX delays it found, the rest
    of the PRBS test makes no register write of its own but to the TX
    delay register (what the loopback call does inside the driver is not
    part of the file); so, the two registers being distinct, the RX delay
    register holds the RX delays found when the test ends. *)
Theorem rx_delays_kept_by_tx_calibration (fd : Z) (w0 w2 : World) (g_rx : Grid) :
  REG_RX_CLOCK_DATA_DELAY ≠ REG_TX_CLOCK_DATA_DELAY →
  (prbs_rx_setup fd;; calibrate RX fd) w0 = (Returned g_rx, w2) →
  found (find_optimal g_rx) = true →
  let v := delay_value (find_optimal g_rx).1 (find_optimal g_rx).2 in
  spi_regs (events w2) !! REG_RX_CLOCK_DATA_DELAY = Some v ∧
  ∃ w3 evs,
    bist_prbs_test fd w0 = (Returned tt, w3) ∧
    events w3 = events w2 ++ evs ∧
    Forall (writes_only REG_TX_CLOCK_DATA_DELAY) evs ∧
    spi_regs (events w3) !! REG_RX_CLOCK_DATA_DELAY = Some v.
Proof.
  intros Hne Hrx Hfound v.
  assert (Hrest : bist_prbs_test fd w0 =
                  (prbs_tx_setup fd;; calibrate TX fd;; mret tt) w2).
  { unfold bist_prbs_test. rewrite <- bind_assoc_at.
    unfold mbind at 1, M_bind at 1. rewrite Hrx. reflexivity. }
  assert (Hrx_run : runs (prbs_rx_setup fd;; calibrate RX fd) w0
            (λ g evs, ∃ rx, evs = prbs_rx_setup_trace fd ++ rx ∧ calibrate_trace RX fd g rx)).
  { eapply runs_bind; [apply runs_prbs_rx_setup|]. intros ? ? w1 _ ->.
    eapply runs_weaken; [apply runs_calibrate|]. intros g rx Hg.
    exists rx. split; [reflexivity|exact Hg]. }
  destruct Hrx_run as (g & w2' & evs2 & Heq & Hev2 & rx & -> & scan & -> & Hscan).
  rewrite Hrx in Heq. injection Heq as <- <-. clear Hrx.
  assert (Hv2 : spi_regs (events w2) !! REG_RX_CLOCK_DATA_DELAY = Some v).
  { rewrite Hev2. unfold configure_trace. rewrite Hfound.
    rewrite !(assoc_L (++)).
    match goal with
    | |- spi_regs (?h ++ [?p; ?wr]) !! _ = _ =>
        change (h ++ [p; wr]) with (h ++ [p] ++ [wr])
    end.
    rewrite (assoc_L (++)). apply (spi_regs_write _ fd REG_RX_CLOCK_DATA_DELAY v). }
  split; [exact Hv2|]. rewrite Hrest. clear Hrest.
  assert (Htx_run : runs (prbs_tx_setup fd;; calibrate TX fd;; mret tt) w2
            (λ _ evs, ∃ tx g_tx, evs = prbs_tx_setup_trace fd ++ tx ∧
                                 calibrate_trace TX fd g_tx tx)).
  { eapply runs_bind; [apply runs_prbs_tx_setup|]. intros ? ? w3 _ ->.
    eapply runs_bind; [apply runs_calibrate|]. intros g_tx tx w4 _ Htx.
    apply runs_ret. exists tx, g_tx. rewrite app_nil_r. split; [reflexivity|exact Htx]. }
  destruct Htx_run as ([] & w3 & evs & Heq & Hev3 & tx & g_tx & -> & Htx).
  rewrite Heq. clear Heq.
  assert (Honly : Forall (writes_only REG_TX_CLOCK_DATA_DELAY)
                    (prbs_tx_setup_trace fd ++ tx)).
  { apply Forall_app. split; [by repeat constructor|].
    eapply calibrate_trace_Forall; [done| |done..]. by intros []. }
  exists w3, (prbs_tx_setup_trace fd ++ tx). split_and!; [done..|].
  rewrite Hev3, spi_regs_leaves; [done|].
  eapply Forall_impl; [done|]. intros [] He; simpl in *; try done. congruence.
Qed.

End Frame.

Lemma rx_delays_kept_by_tx_calibration_witness :
  let w0 := world_init no_sigint in
  let w2 := ((prbs_rx_setup (hdr := sample_headers) 3;;
              calibrate (hdr := sample_headers) (env := sample_board) RX 3) w0).2 in
  spi_regs (events w2) !! 6 = Some 86 ∧
  ∃ w3 evs,
    bist_prbs_test (hdr := sample_headers) (env := sample_board) 3 w0 = (Returned tt, w3) ∧
    events w3 = events w2 ++ evs ∧
    Forall (writes_only 7) evs ∧
    spi_regs (events w3) !! 6 = Some 86.
Proof.
  intros w0 w2.
  apply (rx_delays_kept_by_tx_calibration (hdr := sample_headers) (env := sample_board)
           3 w0 w2 grid_row5).
  - vm_compute. discriminate.
  - vm_compute. reflexivity.
  - vm_compute. reflexivity.
Defined.

(** ** [spi_write_then_read] *)

Section Spi.
Context {hdr : Headers} {env : Env}.

Lemma exits_bind_runs {A B} (m : M A) (f : A → M B) w status Q1 evs :
  runs m w Q1 →
  (∀ a e1 w', events w' = events w ++ e1 → Q1 a e1 →
     ∃ e2, exits (f a) w' status e2 ∧ evs = e1 ++ e2) →
  exits (m ≫= f) w status evs.
Proof.
  intros Hm Hf.
  destruct (exits_bind_r m f w status Q1 (λ l, evs = l) Hm Hf) as (l & Hl & ->).
  exact Hl.
Qed.

Lemma exits_ret_bind {A B} (a : A) (f : A → M B) w status evs :
  exits (f a) w status evs → exits (mret a ≫= f) w status evs.
Proof. intros H. exact H. Qed.

(** C8: [spi_write_then_read] makes a transfer for two shapes only: a
    read for 2 bytes sent and 1 received, a write for 3 bytes sent and
    none received.  For any other pair of counts it makes no transfer and
    ends the process with status 1, after the diagnostic of the
    unsupported transfer when the device could be opened. *)
Theorem spi_transfer_shapes (txbuf : list Z) (n_tx : Z) (rxbuf : list Z) (n_rx : Z)
    (w : World) :
  let fd := input (events w ++ [Open]) in
  let reg := Z.lor (Z.shiftl (txbuf !!! 0%nat) 8) (txbuf !!! 1%nat) in
  (0 ≤ fd → n_tx = 2 → n_rx = 1 →
   runs (spi_write_then_read txbuf n_tx rxbuf n_rx) w
     (λ r evs,
        evs = [Open; SpiRead fd reg; Close fd] ∧
        r = (0, <[0%nat := uchar_wrap (input (events w ++ [Open; SpiRead fd reg]))]> rxbuf))) ∧
  (0 ≤ fd → n_tx = 3 → n_rx = 0 →
   runs (spi_write_then_read txbuf n_tx rxbuf n_rx) w
     (λ r evs,
        evs = [Open; SpiWrite fd reg (txbuf !!! 2%nat); Close fd] ∧ r = (0, rxbuf))) ∧
  (¬ (n_tx = 2 ∧ n_rx = 1) → ¬ (n_tx = 3 ∧ n_rx = 0) →
   exits (spi_write_then_read txbuf n_tx rxbuf n_rx) w 1
     [Open;
      if fd <? 0 then Stderr "Could not init driver" []
      else Stderr "Unsupported SPI transfer n_tx=%d n_rx=%d" [n_tx; n_rx]]).
Proof.
  intros fd reg. unfold spi_write_then_read, fprintf_stderr, m2sdr_ad9361_spi_read,
    m2sdr_ad9361_spi_write.
  split_and!.
  - intros Hfd -> ->. simpl.
    eapply runs_bind; [apply runs_call_in_eq|]. intros ? ? w1 Hw1 [-> ->]. fold fd.
    destruct (Z.ltb_spec fd 0) as [|_]; [lia|].
    apply runs_ret_bind, runs_bind_assoc.
    eapply runs_bind; [apply runs_call_in_eq|]. intros v ? w2 _ [-> ->].
    apply runs_ret_bind.
    eapply runs_bind; [apply runs_call_eq|]. intros ? ? w3 _ ->.
    apply runs_ret. rewrite Hw1, <- app_assoc. done.
  - intros Hfd -> ->. simpl.
    eapply runs_bind; [apply runs_call_in_eq|]. intros ? ? w1 Hw1 [-> ->]. fold fd.
    destruct (Z.ltb_spec fd 0) as [|_]; [lia|].
    apply runs_ret_bind, runs_bind_assoc.
    eapply runs_bind; [apply runs_call_eq|]. intros ? ? w2 _ ->.
    apply runs_ret_bind.
    eapply runs_bind; [apply runs_call_eq|]. intros ? ? w3 _ ->.
    by apply runs_ret.
  - intros Hr Hw.
    eapply exits_bind_runs; [apply runs_call_in_eq|]. intros ? ? w1 Hw1 [-> ->]. fold fd.
    destruct (Z.ltb_spec fd 0) as [Hneg|Hpos].
    + eexists. split; [|reflexivity].
      apply exits_bind_l. apply exits_call_exit.
    + eexists. split; [|reflexivity].
      apply exits_ret_bind, exits_bind_l.
      replace ((n_tx =? 2) && (n_rx =? 1)) with false.
      2:{ symmetry. apply andb_false_iff. rewrite !Z.eqb_neq. lia. }
      replace ((n_tx =? 3) && (n_rx =? 0)) with false.
      2:{ symmetry. apply andb_false_iff. rewrite !Z.eqb_neq. lia. }
      apply exits_call_exit.
Qed.

End Spi.

Lemma spi_transfer_shapes_witness :
  exits (spi_write_then_read (env := sample_board) [0x80; 0x37; 0x00; 0x00] 4 [0; 0] 2)
    (world_init no_sigint) 1
    [Open; Stderr "Unsupported SPI transfer n_tx=%d n_rx=%d" [4; 2]].
Proof.
  apply (proj2 (proj2 (spi_transfer_shapes (env := sample_board)
                         [0x80; 0x37; 0x00; 0x00] 4 [0; 0] 2 (world_init no_sigint)))); lia.
Defined.

(** ** Two complete runs *)

(** On a board whose PRBS checker never syncs, [m2sdr_init] returns, has
    printed both diagnostics, and leaves in each delay register the last
    pair probed. *)
Example silent_board_run :
  let r := m2sdr_init (hdr := sample_headers) (env := silent_board)
             30720000 56000000 38400000 2400000000 2400000000 (-20) 0 1
             false false true 1000000 false false (world_init no_sigint) in
  r.1 = Returned tt ∧
  List.filter (λ e, match e with Printf fmt [] => String.prefix "No valid" fmt | _ => false end)
    (events r.2) =
    [ Printf "No valid RX Clk/Dat delay settings found." [];
      Printf "No valid TX Clk/Dat delay settings found." [] ] ∧
  spi_regs (events r.2) !! 6 = Some 255 ∧ spi_regs (events r.2) !! 7 = Some 255 ∧
  last (events r.2) = Some (Close 3).
Proof. vm_compute. repeat split. Qed.

(** Without the device, [m2sdr_init] ends the process with status 1. *)
Example absent_board_run :
  exits (m2sdr_init (hdr := sample_headers) (env := absent_board)
           30720000 56000000 38400000 2400000000 2400000000 (-20) 0 1
           false false true 1000000 false false) (world_init no_sigint) 1
    [Open; Stderr "Could not init driver" []].
Proof. apply exits_m2sdr_init. vm_compute. reflexivity. Qed.

(** ** What a scan records and displays *)

Lemma land_1_bit (v : Z) : Z.land v 1 = 0 ∨ Z.land v 1 = 1.
Proof.
  assert (H : Z.land v 1 = v `mod` 2) by (apply (Z.land_ones v 1); lia).
  rewrite H. pose proof (Z.mod_pos_bound v 2). lia.
Qed.

Lemma grid_wf_init : grid_wf grid_init.
Proof.
  split; [done|]. unfold grid_init. apply Forall_replicate.
  split; [done|]. apply Forall_replicate. by left.
Qed.

Lemma grid_wf_row g clk :
  grid_wf g → (clk < 16)%nat → ∃ row, g !! clk = Some row ∧ length row = 16%nat.
Proof.
  intros [Hlen Hrows] Hclk.
  destruct (lookup_lt_is_Some_2 g clk) as [row Hrow]; [lia|].
  exists row. split; [done|]. by apply (Forall_lookup_1 _ _ _ _ Hrows Hrow).
Qed.

Lemma grid_wf_set g clk dat v :
  grid_wf g → v = 0 ∨ v = 1 → grid_wf (grid_set g clk dat v).
Proof.
  intros [Hlen Hrows] Hv. unfold grid_set, grid_wf, Grid in *.
  split; [by rewrite length_insert|].
  destruct (g !! clk) as [row|] eqn:Hrow; simpl.
  - apply Forall_insert; [done|].
    destruct (Forall_lookup_1 _ _ _ _ Hrows Hrow) as [Hl Hbits].
    split; [by rewrite length_insert|].
    destruct (decide (dat < length row)%nat).
    + by apply Forall_insert.
    + by rewrite list_insert_ge by lia.
  - rewrite list_insert_ge; [done|]. by apply lookup_ge_None.
Qed.

Lemma cell_set_eq g clk dat v :
  grid_wf g → (clk < 16)%nat → (dat < 16)%nat → cell (grid_set g clk dat v) clk dat = v.
Proof.
  intros Hwf Hclk Hdat. destruct (grid_wf_row g clk Hwf Hclk) as (row & Hrow & Hl).
  unfold cell, grid_set, Grid in *. rewrite Hrow. simpl.
  rewrite list_lookup_insert_eq by (destruct Hwf; lia). simpl.
  by rewrite list_lookup_insert_eq by lia.
Qed.

Lemma cell_set_ne g clk dat v clk' dat' :
  (clk', dat') ≠ (clk, dat) → cell (grid_set g clk dat v) clk' dat' = cell g clk' dat'.
Proof.
  intros Hne. unfold cell, grid_set, Grid in *.
  destruct (decide (clk' = clk)) as [->|Hclk].
  - destruct (g !! clk) as [row|] eqn:Hrow; simpl.
    + rewrite list_lookup_insert_eq by (by eapply lookup_lt_Some). simpl.
      rewrite list_lookup_insert_ne; [done|]. congruence.
    + rewrite list_insert_ge by (by apply lookup_ge_None). by rewrite Hrow.
  - by rewrite list_lookup_insert_ne.
Qed.

Lemma bind_seq_ext {B} (f f' : nat → list B) lo n :
  (∀ i, (lo ≤ i < lo + n)%nat → f i = f' i) → seq lo n ≫= f = seq lo n ≫= f'.
Proof.
  revert lo. induction n as [|n IH]; intros lo Hf; [done|]. cbn [seq].
  rewrite !bind_cons. f_equal; [apply Hf; lia|]. apply IH. intros i Hi. apply Hf. lia.
Qed.

Section Scan.
Context {hdr : Headers} {env : Env}.

(** A counted loop with an invariant on the index, the locals and the
    calls made since the loop began. *)
Lemma runs_for_range_inv {St} (I : nat → St → list Event → Prop)
    (body : nat → St → M St) (base : list Event) : ∀ n lo s w pre,
  events w = base ++ pre → I lo s pre →
  (∀ i s evs w', (lo ≤ i < lo + n)%nat → events w' = base ++ evs → I i s evs →
     runs (body i s) w' (λ s' e, I (S i) s' (evs ++ e))) →
  runs (for_each body (seq lo n) s) w (λ s' evs, I (lo + n)%nat s' (pre ++ evs)).
Proof.
  induction n as [|n IH]; intros lo s w pre Hw HI Hbody; simpl.
  - apply runs_ret. by rewrite Nat.add_0_r, app_nil_r.
  - eapply runs_bind; [apply (Hbody lo s pre w); [lia|done|done]|].
    intros s1 e1 w1 Hw1 HI1. eapply runs_weaken.
    + apply (IH (S lo) s1 w1 (pre ++ e1)); [|done|].
      * by rewrite Hw1, Hw, <- app_assoc.
      * intros i s' evs w' Hi. apply Hbody. lia.
    + intros s2 e2 HI2. cbn beta. rewrite Nat.add_succ_r, app_assoc. exact HI2.
Qed.

Lemma runs_probe_exact d fd clk dat g w :
  runs (probe d fd clk dat g) w (λ g' e,
    let v := Z.land (input (events w ++
               [ SpiWrite fd (delay_reg d) (delay_value (Z.of_nat clk) (Z.of_nat dat));
                 Usleep 10000; Readl fd CSR_AD9361_PRBS_RX_ADDR ])) 1 in
    g' = grid_set g clk dat v ∧
    e = [ SpiWrite fd (delay_reg d) (delay_value (Z.of_nat clk) (Z.of_nat dat));
          Usleep 10000; Readl fd CSR_AD9361_PRBS_RX_ADDR; Printf " %2d" [v] ]).
Proof.
  unfold probe, m2sdr_ad9361_spi_write, mdelay, litepcie_readl, printf.
  eapply runs_bind; [apply runs_call_eq|]. intros ? ? w1 Hw1 ->.
  eapply runs_bind; [apply runs_call_eq|]. intros ? ? w2 Hw2 ->.
  eapply runs_bind; [apply runs_call_in_eq|]. intros v ? w3 Hw3 [-> ->].
  eapply runs_bind; [apply runs_call_eq|]. intros ? ? w4 Hw4 ->.
  apply runs_ret. cbn zeta. rewrite Hw2, Hw1, <- !app_assoc. done.
Qed.

Lemma probe_trace_ext d fd g g' clk dat :
  cell g' clk dat = cell g clk dat → probe_trace d fd g' clk dat = probe_trace d fd g clk dat.
Proof. unfold probe_trace. by intros ->. Qed.

Lemma row_trace_ext d fd g g' clk :
  (∀ dat, cell g' clk dat = cell g clk dat) → row_trace d fd g' clk = row_trace d fd g clk.
Proof.
  intros H. unfold row_trace. do 2 f_equal. apply bind_seq_ext.
  intros dat _. by apply probe_trace_ext.
Qed.

(** The 16 probes of a row. *)
Lemma runs_row_probes d fd clk g0 w :
  (clk < 16)%nat → grid_wf g0 →
  runs (for_rangeM 0 16 (probe d fd clk) g0) w (λ g evs,
    grid_wf g ∧ length evs = 64%nat ∧
    evs = (dat ← seq 0 16; probe_trace d fd g clk dat) ∧
    (∀ dat, (dat < 16)%nat →
       cell g clk dat = Z.land (input (events w ++ take (4 * dat + 3) evs)) 1) ∧
    (∀ r c, r ≠ clk → cell g r c = cell g0 r c)).
Proof.
  intros Hclk Hwf0. unfold for_rangeM. change (16 - 0)%nat with 16%nat.
  eapply runs_weaken.
  - apply (runs_for_range_inv
             (λ n g evs,
                grid_wf g ∧ length evs = (4 * n)%nat ∧
                evs = (dat ← seq 0 n; probe_trace d fd g clk dat) ∧
                (∀ dat, (dat < n)%nat →
                   cell g clk dat =
                   Z.land (input (events w ++ take (4 * dat + 3) evs)) 1) ∧
                (∀ r c, r ≠ clk → cell g r c = cell g0 r c))
             (probe d fd clk) (events w) 16 0%nat g0 w []).
    + by rewrite app_nil_r.
    + split_and!; [done|done|done|lia|done].
    + intros n g evs w' Hn Hw' (Hwf & Hlen & Hevs & Hlink & Hrows).
      eapply runs_weaken; [apply runs_probe_exact|].
      intros g' e [-> ->]. cbn zeta.
      set (v := Z.land (input (events w' ++ _)) 1).
      assert (Hother : ∀ dat, (dat < n)%nat →
                cell (grid_set g clk n v) clk dat = cell g clk dat).
      { intros dat Hdat. apply cell_set_ne. intros [= ?]. lia. }
      split_and!.
      * apply grid_wf_set; [done|apply land_1_bit].
      * rewrite length_app, Hlen. simpl. lia.
      * rewrite seq_S, bind_app, bind_singleton. cbn [Nat.add]. f_equal.
        -- rewrite Hevs. apply bind_seq_ext. intros dat Hdat. symmetry.
           apply probe_trace_ext, Hother. lia.
        -- unfold probe_trace. by rewrite cell_set_eq by (done || lia).
      * intros dat Hdat. destruct (decide (dat = n)) as [->|Hne].
        -- rewrite cell_set_eq by (done || lia).
           rewrite take_app_ge by lia.
           replace (4 * n + 3 - length evs)%nat with 3%nat by lia.
           cbn [take]. unfold v. by rewrite Hw', <- app_assoc.
        -- rewrite Hother by lia. rewrite take_app_le by lia. apply Hlink. lia.
      * intros r c Hr. rewrite cell_set_ne by congruence. by apply Hrows.
  - intros g evs HI. cbn beta in HI. exact HI.
Qed.

(** A scan returns a well-formed grid, has made the calls and printed
    the lines of [scan_trace] for that grid, and each cell of the grid is
    bit 0 of what the PRBS checker returned when it was read for that
    cell. *)
Lemma runs_delays_scan_exact d fd w :
  runs (delays_scan d fd) w (λ g evs,
    grid_wf g ∧ evs = scan_trace d fd g ∧
    ∀ clk dat, (clk < 16)%nat → (dat < 16)%nat →
      cell g clk dat = Z.land (input (events w ++ take (probe_index clk dat) evs)) 1).
Proof.
  unfold delays_scan, printf. unfold for_rangeM at 1. change (16 - 0)%nat with 16%nat.
  eapply runs_weaken.
  - apply (runs_for_range_inv
             (λ n g evs,
                grid_wf g ∧ length evs = (66 * n)%nat ∧
                evs = (clk ← seq 0 n; row_trace d fd g clk) ∧
                (∀ clk dat, (clk < n)%nat → (dat < 16)%nat →
                   cell g clk dat =
                   Z.land (input (events w ++ take (probe_index clk dat) evs)) 1))
             _ (events w) 16 0%nat grid_init w []).
    + by rewrite app_nil_r.
    + split_and!; [apply grid_wf_init|done|done|lia].
    + intros n g evs w' Hn Hw' (Hwf & Hlen & Hevs & Hlink).
      eapply runs_bind; [apply runs_call_eq|]. intros ? ? w1 Hw1 ->.
      eapply runs_bind; [apply runs_row_probes; [lia|done]|].
      intros g' row w2 _ (Hwf' & Hlen' & Hrow & Hlink' & Hrows).
      eapply runs_bind; [apply runs_call_eq|]. intros ? ? w3 _ ->.
      apply runs_ret. rewrite app_nil_r. split_and!.
      * done.
      * rewrite !length_app, Hlen, Hlen'. simpl. lia.
      * rewrite seq_S, bind_app, bind_singleton. cbn [Nat.add]. f_equal.
        -- rewrite Hevs. apply bind_seq_ext. intros clk Hclk. symmetry.
           apply row_trace_ext. intros dat. apply Hrows. lia.
        -- unfold row_trace. by rewrite <- Hrow.
      * intros clk dat Hclk Hdat. unfold probe_index.
        destruct (decide (clk = n)) as [->|Hne].
        -- rewrite Hlink' by done. rewrite Hw1, Hw'.
           rewrite take_app_ge by lia.
           replace (66 * n + 4 * dat + 4 - length evs)%nat with (S (4 * dat + 3)) by lia.
           cbn [app take]. rewrite take_app_le by lia.
           by rewrite <- !app_assoc.
        -- rewrite Hrows by done. rewrite take_app_le by lia.
           apply Hlink; [lia|done].
  - intros g evs (Hwf & _ & Hevs & Hlink). cbn beta in *.
    split_and!; [done|done|]. intros clk dat Hclk Hdat. by apply Hlink.
Qed.

End Scan.

(** X1: the grid a scan returns has 16 rows of 16 entries, each 0 or 1,
    whatever the PRBS checker returns. *)
Theorem scan_grid_well_formed {hdr : Headers} {env : Env} (d : Direction) (fd : Z)
    (w : World) :
  runs (delays_scan d fd) w (λ g _, grid_wf g).
Proof.
  eapply runs_weaken; [apply runs_delays_scan_exact|]. by intros g evs (Hwf & _).
Qed.

(** X2: a scan makes, for each pair of delays in row-major order, the
    register write, the sleep and the read of the checker, and prints
    after each read the very value it stores in the grid it returns: its
    trace is [scan_trace] of that grid. *)
Theorem scan_displays_what_it_records {hdr : Headers} {env : Env} (d : Direction)
    (fd : Z) (w : World) :
  runs (delays_scan d fd) w (λ g evs, evs = scan_trace d fd g).
Proof.
  eapply runs_weaken; [apply runs_delays_scan_exact|]. by intros g evs (_ & Hevs & _).
Qed.

Lemma length_bind_seq {B} (f : nat → list B) (len : nat) lo n :
  (∀ i, length (f i) = len) → length (seq lo n ≫= f) = (len * n)%nat.
Proof.
  intros Hf. revert lo. induction n as [|n IH]; intros lo; [simpl; lia|].
  cbn [seq]. rewrite bind_cons, length_app, Hf, IH. lia.
Qed.

(** The first [k] blocks and the first [m] elements of the next. *)
Lemma take_bind_seq {B} (f : nat → list B) (len n k m : nat) :
  (∀ i, length (f i) = len) → (k < n)%nat → (m ≤ len)%nat →
  take (len * k + m) (seq 0 n ≫= f) = (seq 0 k ≫= f) ++ take m (f k).
Proof.
  intros Hf Hk Hm.
  assert (Hsplit : seq 0 n = seq 0 k ++ k :: seq (S k) (n - S k)).
  { etrans; [|apply (seq_app k (S (n - S k)) 0)]. f_equal. lia. }
  rewrite Hsplit, bind_app, bind_cons.
  rewrite take_app_ge by (rewrite (length_bind_seq f len); [lia|done]).
  rewrite (length_bind_seq f len) by done.
  replace (len * k + m - len * k)%nat with m by lia.
  by rewrite take_app_le by (rewrite Hf; lia).
Qed.

(** X3: each cell of the grid a scan returns is bit 0 of the value the
    PRBS checker returned when it was read for that cell, that is, after
    the calls made before the scan and the first [probe_index clk dat]
    calls of the scan, the last of which is that read. *)
Theorem scan_records_checker_bit {hdr : Headers} {env : Env} (d : Direction) (fd : Z)
    (w : World) :
  runs (delays_scan d fd) w (λ g evs,
    ∀ clk dat, (clk < 16)%nat → (dat < 16)%nat →
      cell g clk dat = Z.land (input (events w ++ take (probe_index clk dat) evs)) 1 ∧
      ∃ pre, take (probe_index clk dat) evs =
             pre ++ [ SpiWrite fd (delay_reg d) (delay_value (Z.of_nat clk) (Z.of_nat dat));
                      Usleep 10000; Readl fd CSR_AD9361_PRBS_RX_ADDR ]).
Proof.
  eapply runs_weaken; [apply runs_delays_scan_exact|].
  intros g evs (Hwf & Hevs & Hlink) clk dat Hclk Hdat. split; [by apply Hlink|].
  rewrite Hevs. clear Hlink Hevs Hwf. unfold scan_trace, probe_index.
  replace (66 * clk + 4 * dat + 4)%nat with (66 * clk + (4 * dat + 4))%nat by lia.
  rewrite (take_bind_seq (row_trace d fd g) 66) by (done || lia).
  unfold row_trace at 2.
  replace (4 * dat + 4)%nat with (S (4 * dat + 3)) by lia. cbn [app take].
  rewrite take_app_le by (rewrite (length_bind_seq _ 4); [lia|done]).
  rewrite (take_bind_seq (probe_trace d fd g clk) 4) by (done || lia).
  exists ((seq 0 clk ≫= row_trace d fd g) ++
          Printf " %2d     |" [Z.of_nat clk] :: (seq 0 dat ≫= probe_trace d fd g clk)).
  unfold probe_trace at 2. cbn [take]. by rewrite <- app_assoc.
Qed.

(** ** The search returns the centre of a longest run *)

(** Among the first [n] values of [f], if one is positive, there is a
    first greatest one. *)
Lemma first_max_index (f : nat → Z) (n : nat) :
  (∃ j, (j < n)%nat ∧ 0 < f j) →
  ∃ k, (k < n)%nat ∧ 0 < f k ∧
       (∀ j, (j < k)%nat → f j < f k) ∧ (∀ j, (k < j < n)%nat → f j ≤ f k).
Proof.
  induction n as [|n IH]; intros (j & Hj & Hpos); [lia|].
  destruct (decide (Exists (λ i, 0 < f i) (seq 0 n))) as [Hex|Hnex].
  - apply Exists_exists in Hex as (i & Hi%elem_of_seq & Hfi).
    destruct IH as (k & Hk & Hfk & Hbefore & Hafter); [exists i; split; [lia|done]|].
    destruct (decide (f n ≤ f k)).
    + exists k. split_and!; [lia|done|done|].
      intros i' Hi'. destruct (decide (i' = n)) as [->|]; [done|]. apply Hafter. lia.
    + exists n. split_and!; [lia|lia| |lia].
      intros i' Hi'. destruct (decide (i' < k)%nat); [specialize (Hbefore i'); lia|].
      destruct (decide (i' = k)) as [->|]; [lia|]. specialize (Hafter i'). lia.
  - rewrite Exists_exists in Hnex.
    assert (Hle : ∀ i, (i < n)%nat → f i ≤ 0).
    { intros i Hi. destruct (decide (0 < f i)); [|lia]. exfalso. apply Hnex.
      exists i. split; [apply elem_of_seq; lia|done]. }
    assert (j = n) as -> by (destruct (decide (j = n)); [done|specialize (Hle j); lia]).
    exists n. split_and!; [lia|done| |lia]. intros i Hi. specialize (Hle i). lia.
Qed.

(** Two valid runs of a row that share a cell are the same run. *)
Lemma valid_run_unique (g : Grid) clk s l s' l' x :
  valid_run g clk s l → valid_run g clk s' l' →
  (s ≤ x < s + l)%nat → (s' ≤ x < s' + l')%nat → s = s' ∧ l = l'.
Proof.
  intros (_ & _ & Hb & Hall & Hleft & Hright) (_ & _ & Hb' & Hall' & Hleft' & Hright') Hx Hx'.
  rewrite Forall_seq in Hall, Hall'.
  assert (s = s') as <-.
  { destruct (decide (s = s')) as [|Hne]; [done|exfalso].
    destruct (decide (s < s')%nat).
    - apply Hleft'; [lia|]. apply Hall. lia.
    - apply Hleft; [lia|]. apply Hall'. lia. }
  split; [done|].
  destruct (decide (l = l')) as [|Hne]; [done|exfalso].
  destruct (decide (l < l')%nat).
  - apply Hright; [lia|]. apply Hall'. lia.
  - apply Hright'; [lia|]. apply Hall. lia.
Qed.

(** X4: on a grid with a valid cell, the delays the search returns are the
    row of a longest valid run, the first of the longest in scan order,
    and the column [len / 2] after its start. *)
Theorem optimal_setting_is_centre_of_a_longest_run (g : Grid) :
  (∃ clk dat, (clk < 16)%nat ∧ (dat < 16)%nat ∧ valid g clk dat) →
  ∃ clk start len,
    valid_run g clk start len ∧
    (∀ clk' start' len', valid_run g clk' start' len' → (len' ≤ len)%nat) ∧
    (∀ clk' start', valid_run g clk' start' len → scan_le clk start clk' start') ∧
    find_optimal g = (Z.of_nat clk, Z.of_nat (start + len `div` 2)).
Proof.
  intros (clk0 & dat0 & Hclk0 & Hdat0 & Hv0).
  assert (Hat : ∀ r c, (c < 16)%nat → cell_at (16 * r + c) = (r, c)).
  { intros r c Hc. unfold cell_at. f_equal.
    - rewrite Nat.mul_comm, Nat.div_add_l by lia. rewrite Nat.div_small; lia.
    - rewrite Nat.mul_comm, Nat.add_comm, Nat.Div0.mod_add. apply Nat.mod_small. lia. }
  destruct (first_max_index (λ j, score g (cell_at j)) 256) as (k & Hk & Hpos & Hbefore & Hafter).
  { exists (16 * clk0 + dat0)%nat. split; [lia|]. rewrite Hat by done. by apply score_valid. }
  assert (Hr : (k `div` 16 < 16)%nat) by (apply Nat.Div0.div_lt_upper_bound; lia).
  assert (Hc : (k `mod` 16 < 16)%nat) by (apply Nat.mod_upper_bound; lia).
  pose proof (Nat.div_mod_eq k 16) as Hkeq.
  set (r := (k `div` 16)%nat) in *. set (c := (k `mod` 16)%nat) in *.
  assert (Hk_at : cell_at k = (r, c)) by done.
  rewrite Hk_at in *.
  destruct (score_cell g r c Hr Hc Hpos) as (s & l & Hrun & Hin & Hsc).
  assert (s = c) as ->.
  { destruct (decide (s = c)) as [|Hne]; [done|exfalso].
    assert (Hprev : valid g r (c - 1)).
    { destruct Hrun as (_ & _ & _ & Hall & _). rewrite Forall_seq in Hall. apply Hall. lia. }
    assert (Hc1 : (c - 1 < 16)%nat) by lia.
    pose proof (score_valid g r (c - 1) Hc1 Hprev) as Hpos'.
    destruct (score_cell g r (c - 1) Hr Hc1 Hpos') as (s' & l' & Hrun' & Hin' & Hsc').
    destruct (valid_run_unique g r s l s' l' (c - 1) Hrun Hrun') as [<- <-]; [lia|lia|].
    assert (Hk1 : (k - 1 < k)%nat) by lia.
    specialize (Hbefore (k - 1)%nat Hk1).
    replace (k - 1)%nat with (16 * r + (c - 1))%nat in Hbefore by lia.
    rewrite Hat in Hbefore by lia. lia. }
  assert (Hall_le : ∀ j, (j < 256)%nat → score g (cell_at j) ≤ score g (r, c)).
  { intros j Hj. destruct (decide (j < k)%nat); [specialize (Hbefore j); lia|].
    destruct (decide (j = k)) as [->|]; [by rewrite Hk_at|]. apply Hafter. lia. }
  exists r, c, l. split_and!; [done| | |].
  - intros clk' start' len' Hrun'. pose proof Hrun' as (Hclk' & Hlen' & Hb' & _).
    pose proof (score_run g _ _ _ Hrun') as Hs'.
    assert (Hidx : (16 * clk' + start' < 256)%nat) by lia.
    specialize (Hall_le _ Hidx). rewrite Hat in Hall_le by lia. lia.
  - intros clk' start' Hrun'. pose proof Hrun' as (Hclk' & Hlen' & Hb' & _).
    pose proof (score_run g _ _ _ Hrun') as Hs'.
    destruct (decide (16 * clk' + start' < k)%nat) as [Hlt|Hge].
    + specialize (Hbefore _ Hlt). rewrite Hat in Hbefore by lia. lia.
    + unfold scan_le. lia.
  - apply find_optimal_first_longest; [done| |].
    + intros clk' start' len' Hrun'. pose proof Hrun' as (Hclk' & Hlen' & Hb' & _).
      pose proof (score_run g _ _ _ Hrun') as Hs'.
      assert (Hidx : (16 * clk' + start' < 256)%nat) by lia.
      specialize (Hall_le _ Hidx). rewrite Hat in Hall_le by lia. lia.
    + intros clk' start' Hrun'. pose proof Hrun' as (Hclk' & Hlen' & Hb' & _).
      pose proof (score_run g _ _ _ Hrun') as Hs'.
      destruct (decide (16 * clk' + start' < k)%nat) as [Hlt|Hge].
      * specialize (Hbefore _ Hlt). rewrite Hat in Hbefore by lia. lia.
      * unfold scan_le. lia.
Qed.

Lemma optimal_setting_is_centre_of_a_longest_run_witness :
  ∃ clk start len,
    valid_run grid_tie clk start len ∧
    (∀ clk' start' len', valid_run grid_tie clk' start' len' → (len' ≤ len)%nat) ∧
    (∀ clk' start', valid_run grid_tie clk' start' len → scan_le clk start clk' start') ∧
    find_optimal grid_tie = (Z.of_nat clk, Z.of_nat (start + len `div` 2)).
Proof.
  apply (optimal_setting_is_centre_of_a_longest_run grid_tie).
  exists 9%nat, 4%nat. split_and!; [lia|lia|vm_compute; reflexivity].
Defined.

(** ** The complete trace of the PRBS test *)

Section Exact.
Context {hdr : Headers} {env : Env}.

Lemma calls_scan_trace d fd g : calls (scan_trace d fd g) = probes d fd.
Proof.
  unfold scan_trace, probes.
  assert (Hrows : ∀ lo n,
    calls (seq lo n ≫= row_trace d fd g) =
    seq lo n ≫= λ clk, seq 0 16 ≫= λ dat,
      [ SpiWrite fd (delay_reg d) (delay_value (Z.of_nat clk) (Z.of_nat dat));
        Usleep 10000; Readl fd CSR_AD9361_PRBS_RX_ADDR ]).
  { intros lo n. revert lo. induction n as [|n IH]; intros lo; [done|].
    cbn [seq]. rewrite !bind_cons, calls_app, IH. by f_equal. }
  apply Hrows.
Qed.

Lemma calibrate_full_trace_is_trace d fd g :
  calibrate_trace d fd g (calibrate_full_trace d fd g).
Proof. exists (scan_trace d fd g). split; [done|apply calls_scan_trace]. Qed.


Lemma runs_calibrate_exact d fd w :
  runs (calibrate d fd) w (λ g evs, grid_wf g ∧ evs = calibrate_full_trace d fd g).
Proof.
  unfold calibrate, printf.
  eapply runs_bind; [apply runs_call_eq|]. intros ? ? w1 _ ->.
  eapply runs_bind; [apply runs_call_eq|]. intros ? ? w2 _ ->.
  eapply runs_bind; [apply runs_call_eq|]. intros ? ? w3 _ ->.
  eapply runs_bind; [apply runs_call_eq|]. intros ? ? w4 _ ->.
  eapply runs_bind; [apply runs_delays_scan_exact|]. intros g scan w5 _ (Hwf & -> & _).
  eapply runs_bind; [apply runs_configure_optimal|]. intros ? ? w6 _ ->.
  apply runs_ret. split; [done|]. by rewrite app_nil_r.
Qed.

Lemma runs_bist_prbs_test_exact fd w :
  runs (bist_prbs_test fd) w (λ _ evs, ∃ g_rx g_tx,
    grid_wf g_rx ∧ grid_wf g_tx ∧ evs = bist_prbs_full_trace fd g_rx g_tx).
Proof.
  unfold bist_prbs_test.
  eapply runs_bind; [apply runs_prbs_rx_setup|]. intros ? ? w1 _ ->.
  eapply runs_bind; [apply runs_calibrate_exact|]. intros g_rx rx w2 _ [Hrx ->].
  eapply runs_bind; [apply runs_prbs_tx_setup|]. intros ? ? w3 _ ->.
  eapply runs_bind; [apply runs_calibrate_exact|]. intros g_tx tx w4 _ [Htx ->].
  apply runs_ret. exists g_rx, g_tx. by rewrite app_nil_r.
Qed.

End Exact.

(** ** The complete trace of [m2sdr_init] *)

Section Complete.
Context {hdr : Headers} {env : Env}.

Ltac straight_step :=
  lazymatch goal with
  | |- runs (mbind _ (mbind _ _)) _ _ => apply runs_bind_assoc
  | |- runs (mbind _ (mret _)) _ _ => apply runs_ret_bind
  | |- runs (mbind _ (call _)) _ _ =>
      eapply runs_bind; [apply runs_call_eq|]; intros ? ? ? _ ->
  end.

(** A run of [m2sdr_init] that opens the device returns, and its trace is
    a function of the descriptor and of the two grids its scans record. *)
Lemma runs_m2sdr_init_exact
    samplerate bandwidth refclk_freq tx_freq rx_freq tx_gain rx_gain loopback
    bist_tx_tone bist_rx_tone bist_prbs bist_tone_freq enable_8bit_mode
    enable_oversample w :
  0 ≤ input (events w ++ [Open]) →
  runs (m2sdr_init samplerate bandwidth refclk_freq tx_freq rx_freq tx_gain rx_gain
          loopback bist_tx_tone bist_rx_tone bist_prbs bist_tone_freq
          enable_8bit_mode enable_oversample) w
    (λ _ evs, ∃ prbs,
       evs = [Open] ++
             config_trace (input (events w ++ [Open])) samplerate bandwidth refclk_freq
               tx_freq rx_freq tx_gain rx_gain loopback bist_tx_tone bist_rx_tone
               bist_tone_freq enable_8bit_mode enable_oversample ++
             prbs ++
             (if enable_oversample then oversample_trace (input (events w ++ [Open]))
              else []) ++
             [Close (input (events w ++ [Open]))] ∧
       if bist_prbs then
         ∃ g_rx g_tx, grid_wf g_rx ∧ grid_wf g_tx ∧
           prbs = bist_prbs_full_trace (input (events w ++ [Open])) g_rx g_tx
       else prbs = []).
Proof.
  intros Hfd. unfold m2sdr_init, printf, litepcie_writel, fprintf_stderr.
  eapply runs_bind; [apply runs_call_in_eq|]. intros fd ? w0 _ [-> ->].
  destruct (Z.ltb_spec (input (events w ++ [Open])) 0) as [|_]; [lia|].
  set (fd := input (events w ++ [Open])). cbv zeta.
  assert (Hrest : ∀ w',
    runs ((if bist_prbs then bist_prbs_test fd else mret tt);;
          (if enable_oversample then spi_write_all fd oversample_writes else mret tt);;
          call (Close fd)) w'
      (λ _ evs, ∃ prbs,
         evs = prbs ++ (if enable_oversample then oversample_trace fd else []) ++
               [Close fd] ∧
         if bist_prbs then
           ∃ g_rx g_tx, grid_wf g_rx ∧ grid_wf g_tx ∧
             prbs = bist_prbs_full_trace fd g_rx g_tx
         else prbs = [])).
  { intros w'. eapply runs_bind.
    { instantiate (1 := λ _ prbs,
        if bist_prbs then
          ∃ g_rx g_tx, grid_wf g_rx ∧ grid_wf g_tx ∧
            prbs = bist_prbs_full_trace fd g_rx g_tx
        else prbs = []).
      destruct bist_prbs; [apply runs_bist_prbs_test_exact|by apply runs_ret]. }
    intros ? prbs w1 _ Hprbs. eapply runs_bind.
    { instantiate (1 := λ _ evs,
        evs = if enable_oversample then oversample_trace fd else []).
      destruct enable_oversample; [apply runs_spi_write_all|by apply runs_ret]. }
    intros ? ? w2 _ ->. apply runs_call. by exists prbs. }
  repeat straight_step. unfold config_trace.
  destruct enable_8bit_mode, _1T1R_MODE, bist_tx_tone, bist_rx_tone;
    repeat straight_step; (eapply runs_weaken; [apply Hrest|]);
    intros _ evs (prbs & -> & Hprbs); exists prbs; (split; [|exact Hprbs]);
    cbn [app]; reflexivity.
Qed.

End Complete.

(** ** What [m2sdr_init] calls, and in which order *)

Lemma filter_calls (p : Event → bool) l :
  (∀ e, is_printf e = true → p e = false) → List.filter p l = List.filter p (calls l).
Proof.
  intros Hp. induction l as [|e l IH]; [done|]. rewrite calls_cons. simpl.
  destruct (is_printf e) eqn:He; [by rewrite (Hp e He)|]. simpl. by rewrite IH.
Qed.

Section Sequence.
Context {hdr : Headers} {env : Env}.

Lemma filter_probes (p : Event → bool) d fd :
  (∀ reg val, p (SpiWrite fd reg val) = false) → p (Usleep 10000) = false →
  (∀ addr, p (Readl fd addr) = false) → List.filter p (probes d fd) = [].
Proof. intros Hw Hs Hr. apply filter_none, probes_Forall; auto. Qed.

Lemma filter_bist_prbs_trace (p : Event → bool) fd g_rx g_tx prbs :
  (∀ e, is_printf e = true → p e = false) →
  (∀ reg val, p (SpiWrite fd reg val) = false) → p (Usleep 10000) = false →
  (∀ addr, p (Readl fd addr) = false) →
  bist_prbs_trace fd g_rx g_tx prbs →
  List.filter p prbs =
  List.filter p
    [ Writel fd CSR_AD9361_PRBS_TX_ADDR (0 * Z.shiftl 1 CSR_AD9361_PRBS_TX_ENABLE_OFFSET);
      BistPrbs BIST_INJ_RX; BistLoopback 1;
      Writel fd CSR_AD9361_PRBS_TX_ADDR (1 * Z.shiftl 1 CSR_AD9361_PRBS_TX_ENABLE_OFFSET) ].
Proof.
  intros Hp Hw Hs Hr Htrace. rewrite (filter_calls p prbs Hp).
  rewrite (calls_bist_prbs_trace fd g_rx g_tx prbs Htrace).
  rewrite !List.filter_app, !filter_probes by done.
  assert (Hc : ∀ d opt, List.filter p (commit_calls d fd opt) = []).
  { intros d opt. unfold commit_calls. destruct (found opt); [|done]. simpl. by rewrite Hw. }
  rewrite !Hc, !app_nil_r. simpl.
  by destruct (p (Writel _ _ _)), (p (BistPrbs _)), (p (BistLoopback _)), (p (Writel _ _ _)).
Qed.

(** The calls of [m2sdr_init] that satisfy [p], when [p] holds of none of
    its messages, sleeps, reads and SPI writes, nor of [open] and [close]. *)
Lemma filter_m2sdr_init (p : Event → bool)
    samplerate bandwidth refclk_freq tx_freq rx_freq tx_gain rx_gain loopback
    bist_tx_tone bist_rx_tone bist_prbs bist_tone_freq enable_8bit_mode
    enable_oversample w :
  (∀ e, is_printf e = true → p e = false) →
  (∀ fd reg val, p (SpiWrite fd reg val) = false) → p (Usleep 10000) = false →
  (∀ fd addr, p (Readl fd addr) = false) → p Open = false → (∀ fd, p (Close fd) = false) →
  0 ≤ input (events w ++ [Open]) →
  runs (m2sdr_init samplerate bandwidth refclk_freq tx_freq rx_freq tx_gain rx_gain
          loopback bist_tx_tone bist_rx_tone bist_prbs bist_tone_freq
          enable_8bit_mode enable_oversample) w
    (λ _ evs,
       List.filter p evs =
       List.filter p
         (config_trace (input (events w ++ [Open])) samplerate bandwidth refclk_freq
            tx_freq rx_freq tx_gain rx_gain loopback bist_tx_tone bist_rx_tone
            bist_tone_freq enable_8bit_mode enable_oversample ++
          if bist_prbs then
            [ Writel (input (events w ++ [Open])) CSR_AD9361_PRBS_TX_ADDR
                (0 * Z.shiftl 1 CSR_AD9361_PRBS_TX_ENABLE_OFFSET);
              BistPrbs BIST_INJ_RX; BistLoopback 1;
              Writel (input (events w ++ [Open])) CSR_AD9361_PRBS_TX_ADDR
                (1 * Z.shiftl 1 CSR_AD9361_PRBS_TX_ENABLE_OFFSET) ]
          else [])).
Proof.
  intros Hp Hw Hs Hr Ho Hc Hfd.
  eapply runs_weaken; [by apply runs_m2sdr_init|].
  intros [] evs (prbs & -> & Hprbs). rewrite !List.filter_app.
  assert (Hover : List.filter p
            (if enable_oversample then oversample_trace (input (events w ++ [Open]))
             else []) = []).
  { destruct enable_oversample; [|done]. apply filter_none. unfold oversample_trace.
    apply Forall_fmap, Forall_true. intros rv. apply Hw. }
  assert (Hopen : List.filter p [Open] = []) by (apply filter_none; by constructor).
  assert (Hclose : List.filter p [Close (input (events w ++ [Open]))] = [])
    by (apply filter_none; by constructor).
  rewrite Hover, Hopen, Hclose, !app_nil_r, app_nil_l. f_equal.
  destruct bist_prbs; [|by subst].
  destruct Hprbs as (g_rx & g_tx & Hprbs). by eapply filter_bist_prbs_trace.
Qed.

(** X5: a run of [m2sdr_init] that opens the device calls the AD9361
    driver in this order: initialisation, TX then RX sampling rate, RX
    then TX bandwidth, TX then RX LO frequency, TX then RX FIR, TX
    attenuation, the RX gain on channel 0 then on channel 1 with the same
    value, the loopback asked for, the tones asked for, and, for a PRBS
    test, the RX injection followed by loopback 1, which is not undone. *)
Theorem m2sdr_init_driver_calls
    (samplerate bandwidth refclk_freq tx_freq rx_freq tx_gain rx_gain loopback : Z)
    (bist_tx_tone bist_rx_tone bist_prbs : bool) (bist_tone_freq : Z)
    (enable_8bit_mode enable_oversample : bool) (w : World) :
  0 ≤ input (events w ++ [Open]) →
  runs (m2sdr_init samplerate bandwidth refclk_freq tx_freq rx_freq tx_gain rx_gain
          loopback bist_tx_tone bist_rx_tone bist_prbs bist_tone_freq
          enable_8bit_mode enable_oversample) w
    (λ _ evs,
       List.filter is_ad9361_call evs =
       [ Ad9361Init 0 (-1) (-1) (-1);
         SetTxSamplingFreq (if enable_oversample then samplerate `div` 2 else samplerate);
         SetRxSamplingFreq (if enable_oversample then samplerate `div` 2 else samplerate);
         SetRxRfBandwidth bandwidth; SetTxRfBandwidth bandwidth;
         SetTxLoFreq tx_freq; SetRxLoFreq rx_freq;
         SetTxFirConfig; SetRxFirConfig;
         SetTxAtten (tx_atten_arg tx_gain) 1 1 1;
         SetRxRfGain 0 rx_gain; SetRxRfGain 1 rx_gain;
         BistLoopback loopback ] ++
       (if bist_tx_tone then [BistTone BIST_INJ_TX bist_tone_freq 0 0] else []) ++
       (if bist_rx_tone then [BistTone BIST_INJ_RX bist_tone_freq 0 0] else []) ++
       (if bist_prbs then [BistPrbs BIST_INJ_RX; BistLoopback 1] else [])).
Proof.
  intros Hfd. eapply runs_weaken.
  - apply (filter_m2sdr_init is_ad9361_call);
      [by intros []|reflexivity|reflexivity|reflexivity|reflexivity|reflexivity|exact Hfd].
  - intros [] evs ->. rewrite List.filter_app. unfold config_trace.
    destruct bist_tx_tone, bist_rx_tone, bist_prbs; reflexivity.
Qed.

(** X6: a run of [m2sdr_init] that opens the device writes the FPGA
    registers in this order: the bit mode (1 for 8 bits, 0 for 16), the
    PHY control (1 in 1T1R mode, 0 otherwise), and, for a PRBS test, the
    TX-PRBS register twice, first with 0 and last with the enable bit,
    which is left set. *)
Theorem m2sdr_init_csr_writes
    (samplerate bandwidth refclk_freq tx_freq rx_freq tx_gain rx_gain loopback : Z)
    (bist_tx_tone bist_rx_tone bist_prbs : bool) (bist_tone_freq : Z)
    (enable_8bit_mode enable_oversample : bool) (w : World) :
  let fd := input (events w ++ [Open]) in
  0 ≤ fd →
  runs (m2sdr_init samplerate bandwidth refclk_freq tx_freq rx_freq tx_gain rx_gain
          loopback bist_tx_tone bist_rx_tone bist_prbs bist_tone_freq
          enable_8bit_mode enable_oversample) w
    (λ _ evs,
       List.filter is_writel evs =
       [ Writel fd CSR_AD9361_BITMODE_ADDR (if enable_8bit_mode then 1 else 0);
         Writel fd CSR_AD9361_PHY_CONTROL_ADDR (if _1T1R_MODE then 1 else 0) ] ++
       (if bist_prbs then
          [ Writel fd CSR_AD9361_PRBS_TX_ADDR 0;
            Writel fd CSR_AD9361_PRBS_TX_ADDR (Z.shiftl 1 CSR_AD9361_PRBS_TX_ENABLE_OFFSET) ]
        else [])).
Proof.
  intros fd Hfd. eapply runs_weaken.
  - apply (filter_m2sdr_init is_writel);
      [by intros []|reflexivity|reflexivity|reflexivity|reflexivity|reflexivity|exact Hfd].
  - intros [] evs ->. rewrite List.filter_app. unfold config_trace. fold fd.
    rewrite Z.mul_1_l.
    destruct bist_tx_tone, bist_rx_tone, bist_prbs; reflexivity.
Qed.

End Sequence.

(** ** The descriptor, the sleeps and the delay registers *)

Lemma sleep_total_cons e l :
  sleep_total (e :: l) =
  match e with Usleep usecs => usecs + sleep_total l | _ => sleep_total l end.
Proof. by destruct e. Qed.

Lemma sleep_total_app l k : sleep_total (l ++ k) = sleep_total l + sleep_total k.
Proof.
  induction l as [|e l IH]; [done|]. cbn [app]. rewrite !sleep_total_cons, IH.
  destruct e; lia.
Qed.

Lemma sleep_total_calls l : sleep_total (calls l) = sleep_total l.
Proof.
  induction l as [|e l IH]; [done|]. rewrite calls_cons, (sleep_total_cons e l), <- IH.
  destruct e; cbn [is_printf]; by rewrite ?sleep_total_cons.
Qed.

Section Resources.
Context {hdr : Headers} {env : Env}.

Lemma sleep_total_probes d fd : sleep_total (probes d fd) = 2560000.
Proof.
  unfold probes.
  assert (Hrow : ∀ clk lo n,
    sleep_total (seq lo n ≫= λ dat,
      [ SpiWrite fd (delay_reg d) (delay_value (Z.of_nat clk) (Z.of_nat dat));
        Usleep 10000; Readl fd CSR_AD9361_PRBS_RX_ADDR ]) = 10000 * Z.of_nat n).
  { intros clk lo n. revert lo. induction n as [|n IH]; intros lo; [done|].
    cbn [seq]. rewrite bind_cons, sleep_total_app, IH. simpl. lia. }
  assert (Hrows : ∀ lo n,
    sleep_total (seq lo n ≫= λ clk, seq 0 16 ≫= λ dat,
      [ SpiWrite fd (delay_reg d) (delay_value (Z.of_nat clk) (Z.of_nat dat));
        Usleep 10000; Readl fd CSR_AD9361_PRBS_RX_ADDR ]) = 160000 * Z.of_nat n).
  { intros lo n. revert lo. induction n as [|n IH]; intros lo; [done|].
    change (seq lo (S n)) with (lo :: seq (S lo) n).
    rewrite bind_cons, sleep_total_app, IH, Hrow. lia. }
  by rewrite Hrows.
Qed.

Lemma sleep_total_calibrate_trace d fd g evs :
  calibrate_trace d fd g evs → sleep_total evs = 2560000.
Proof.
  intros Htrace. rewrite <- sleep_total_calls, (calls_calibrate_trace d fd g evs Htrace).
  rewrite sleep_total_app, sleep_total_probes. unfold commit_calls.
  by destruct (found _).
Qed.

(** X7: a run of [m2sdr_init] that opens the device sleeps 5.12 s in all
    when it makes a PRBS test, 10 ms for each of the 512 pairs of delays
    whatever the PRBS checker returns, and does not sleep otherwise. *)
Theorem m2sdr_init_sleeps
    (samplerate bandwidth refclk_freq tx_freq rx_freq tx_gain rx_gain loopback : Z)
    (bist_tx_tone bist_rx_tone bist_prbs : bool) (bist_tone_freq : Z)
    (enable_8bit_mode enable_oversample : bool) (w : World) :
  0 ≤ input (events w ++ [Open]) →
  runs (m2sdr_init samplerate bandwidth refclk_freq tx_freq rx_freq tx_gain rx_gain
          loopback bist_tx_tone bist_rx_tone bist_prbs bist_tone_freq
          enable_8bit_mode enable_oversample) w
    (λ _ evs, sleep_total evs = if bist_prbs then 5120000 else 0).
Proof.
  intros Hfd. eapply runs_weaken; [by apply runs_m2sdr_init|].
  intros [] evs (prbs & -> & Hprbs). rewrite !sleep_total_app.
  assert (Hconfig : sleep_total
            (config_trace (input (events w ++ [Open])) samplerate bandwidth refclk_freq
               tx_freq rx_freq tx_gain rx_gain loopback bist_tx_tone bist_rx_tone
               bist_tone_freq enable_8bit_mode enable_oversample) = 0).
  { unfold config_trace. rewrite !sleep_total_app. by destruct bist_tx_tone, bist_rx_tone. }
  assert (Hover : sleep_total
            (if enable_oversample then oversample_trace (input (events w ++ [Open]))
             else []) = 0) by (by destruct enable_oversample).
  rewrite Hconfig, Hover. cbn [sleep_total foldr].
  destruct bist_prbs; [|by subst].
  destruct Hprbs as (g_rx & g_tx & rx & tx & -> & Hrx & Htx).
  rewrite !sleep_total_app.
  rewrite (sleep_total_calibrate_trace _ _ _ _ Hrx), (sleep_total_calibrate_trace _ _ _ _ Htx).
  reflexivity.
Qed.

(** X8: in a run of [m2sdr_init] that opens the device, [open] is the
    first call and is made once, [close] is the last and is made once, on
    the descriptor [open] returned, and every call in between that takes
    a descriptor takes that one. *)
Theorem m2sdr_init_descriptor
    (samplerate bandwidth refclk_freq tx_freq rx_freq tx_gain rx_gain loopback : Z)
    (bist_tx_tone bist_rx_tone bist_prbs : bool) (bist_tone_freq : Z)
    (enable_8bit_mode enable_oversample : bool) (w : World) :
  let fd := input (events w ++ [Open]) in
  0 ≤ fd →
  runs (m2sdr_init samplerate bandwidth refclk_freq tx_freq rx_freq tx_gain rx_gain
          loopback bist_tx_tone bist_rx_tone bist_prbs bist_tone_freq
          enable_8bit_mode enable_oversample) w
    (λ _ evs, ∃ mid, evs = Open :: mid ++ [Close fd] ∧ Forall (on_fd fd) mid).
Proof.
  intros fd Hfd. eapply runs_weaken; [by apply runs_m2sdr_init|].
  intros [] evs (prbs & -> & Hprbs). fold fd.
  exists (config_trace fd samplerate bandwidth refclk_freq tx_freq rx_freq tx_gain rx_gain
            loopback bist_tx_tone bist_rx_tone bist_tone_freq enable_8bit_mode
            enable_oversample ++ prbs ++
          if enable_oversample then oversample_trace fd else []).
  split; [by rewrite <- !app_assoc|].
  rewrite !Forall_app. split_and!.
  - unfold config_trace. rewrite !Forall_app. split_and!.
    + repeat constructor.
    + destruct bist_tx_tone; repeat constructor.
    + destruct bist_rx_tone; repeat constructor.
  - destruct bist_prbs; [|subst; constructor].
    destruct Hprbs as (g_rx & g_tx & rx & tx & -> & Hrx & Htx).
    rewrite !Forall_app. split_and!.
    + repeat constructor.
    + eapply calibrate_trace_Forall; [exact Hrx|by intros []|done..].
    + repeat constructor.
    + eapply calibrate_trace_Forall; [exact Htx|by intros []|done..].
  - destruct enable_oversample; [|constructor]. unfold oversample_trace.
    apply Forall_fmap, Forall_true. done.
Qed.

(** X9: when the device cannot be opened, [m2sdr_init] ends the process
    with status 1 after the message on the standard error, whatever its
    arguments, and has made no other call. *)
Theorem m2sdr_init_open_failure
    (samplerate bandwidth refclk_freq tx_freq rx_freq tx_gain rx_gain loopback : Z)
    (bist_tx_tone bist_rx_tone bist_prbs : bool) (bist_tone_freq : Z)
    (enable_8bit_mode enable_oversample : bool) (w : World) :
  input (events w ++ [Open]) < 0 →
  exits (m2sdr_init samplerate bandwidth refclk_freq tx_freq rx_freq tx_gain rx_gain
           loopback bist_tx_tone bist_rx_tone bist_prbs bist_tone_freq
           enable_8bit_mode enable_oversample) w 1
    [Open; Stderr "Could not init driver" []].
Proof. apply exits_m2sdr_init. Qed.

End Resources.

Section Registers.
Context {hdr : Headers} {env : Env}.

(** A scan leaves in its delay register the last pair it probed. *)
Lemma spi_regs_scan_trace d fd g h :
  spi_regs (h ++ scan_trace d fd g) !! delay_reg d = Some (delay_value 15 15).
Proof.
  unfold scan_trace. change (seq 0 16) with (seq 0 15 ++ [15%nat]).
  rewrite bind_app, bind_singleton. unfold row_trace at 2.
  change (seq 0 16) with (seq 0 15 ++ [15%nat]).
  rewrite bind_app, bind_singleton. unfold probe_trace at 2.
  set (rows := seq 0 15 ≫= _). set (cells := seq 0 15 ≫= _).
  set (wr := SpiWrite fd (delay_reg d) (delay_value (Z.of_nat 15) (Z.of_nat 15))).
  set (label := Printf " %2d     |" _). set (shown := Printf " %2d" _).
  replace (h ++ rows ++ [label] ++ (cells ++ [wr; Usleep 10000;
             Readl fd CSR_AD9361_PRBS_RX_ADDR; shown]) ++ [Printf "" []])
    with ((h ++ rows ++ [label] ++ cells) ++ [wr] ++
          [Usleep 10000; Readl fd CSR_AD9361_PRBS_RX_ADDR; shown; Printf "" []]).
  2:{ rewrite <- !app_assoc. reflexivity. }
  rewrite (assoc_L (++) _ [wr]), spi_regs_leaves by (by repeat constructor).
  apply spi_regs_write.
Qed.

Lemma spi_regs_calibrate d fd g h :
  spi_regs (h ++ calibrate_full_trace d fd g) !! delay_reg d = Some (delays_left g).
Proof.
  unfold calibrate_full_trace, configure_trace, delays_left.
  destruct (found (find_optimal g)).
  - match goal with
    | |- spi_regs (h ++ ?a ++ ?b ++ [?p; ?wr]) !! _ = _ =>
        replace (h ++ a ++ b ++ [p; wr]) with ((h ++ a ++ b ++ [p]) ++ [wr])
          by (by rewrite <- !app_assoc)
    end.
    apply spi_regs_write.
  - rewrite !(assoc_L (++)). rewrite spi_regs_leaves by (by repeat constructor).
    apply spi_regs_scan_trace.
Qed.

Lemma calibrate_leaves d fd g reg :
  delay_reg d ≠ reg → Forall (leaves reg) (calibrate_full_trace d fd g).
Proof.
  intros Hne. eapply calibrate_trace_Forall;
    [apply calibrate_full_trace_is_trace|by intros []|done..].
Qed.

(** X10: when a run of [m2sdr_init] with a PRBS test ends, each delay
    register holds the delays found on the grid of its direction, or,
    when none was found, the last pair probed, (15, 15); the oversampling
    block, which writes neither register, keeps them. *)
Theorem delay_registers_at_end
    (samplerate bandwidth refclk_freq tx_freq rx_freq tx_gain rx_gain loopback : Z)
    (bist_tx_tone bist_rx_tone : bool) (bist_tone_freq : Z)
    (enable_8bit_mode enable_oversample : bool) (w : World) :
  let fd := input (events w ++ [Open]) in
  0 ≤ fd →
  REG_RX_CLOCK_DATA_DELAY ≠ REG_TX_CLOCK_DATA_DELAY →
  Forall (λ rv, rv.1 ≠ REG_RX_CLOCK_DATA_DELAY ∧ rv.1 ≠ REG_TX_CLOCK_DATA_DELAY)
    oversample_writes →
  runs (m2sdr_init samplerate bandwidth refclk_freq tx_freq rx_freq tx_gain rx_gain
          loopback bist_tx_tone bist_rx_tone true bist_tone_freq
          enable_8bit_mode enable_oversample) w
    (λ _ evs, ∃ g_rx g_tx,
       grid_wf g_rx ∧ grid_wf g_tx ∧
       evs = [Open] ++
             config_trace fd samplerate bandwidth refclk_freq tx_freq rx_freq tx_gain
               rx_gain loopback bist_tx_tone bist_rx_tone bist_tone_freq
               enable_8bit_mode enable_oversample ++
             bist_prbs_full_trace fd g_rx g_tx ++
             (if enable_oversample then oversample_trace fd else []) ++
             [Close fd] ∧
       spi_regs (events w ++ evs) !! REG_RX_CLOCK_DATA_DELAY = Some (delays_left g_rx) ∧
       spi_regs (events w ++ evs) !! REG_TX_CLOCK_DATA_DELAY = Some (delays_left g_tx)).
Proof.
  intros fd Hfd Hne Hover. eapply runs_weaken; [by apply runs_m2sdr_init_exact|].
  intros [] evs (prbs & -> & g_rx & g_tx & Hrx & Htx & ->). fold fd.
  exists g_rx, g_tx. split_and!; [done|done|done| |].
  - assert (Htail : Forall (leaves REG_RX_CLOCK_DATA_DELAY)
              ((prbs_tx_setup_trace fd ++ calibrate_full_trace TX fd g_tx) ++
               (if enable_oversample then oversample_trace fd else []) ++ [Close fd])).
    { rewrite !Forall_app. split_and!.
      - by repeat constructor.
      - apply calibrate_leaves. simpl. congruence.
      - destruct enable_oversample; [|constructor]. unfold oversample_trace.
        apply Forall_fmap. eapply Forall_impl; [exact Hover|]. by intros rv [? ?].
      - by repeat constructor. }
    unfold bist_prbs_full_trace.
    match goal with
    | |- spi_regs (?h ++ ?o ++ ?c ++ (?s ++ ?rx ++ ?t ++ ?tx) ++ ?ov ++ ?cl) !! _ = _ =>
        replace (h ++ o ++ c ++ (s ++ rx ++ t ++ tx) ++ ov ++ cl)
          with (((h ++ o ++ c ++ s) ++ rx) ++ (t ++ tx) ++ ov ++ cl)
          by (by rewrite <- !app_assoc)
    end.
    rewrite spi_regs_leaves by exact Htail.
    apply (spi_regs_calibrate RX).
  - assert (Htail : Forall (leaves REG_TX_CLOCK_DATA_DELAY)
              ((if enable_oversample then oversample_trace fd else []) ++ [Close fd])).
    { rewrite !Forall_app. split_and!.
      - destruct enable_oversample; [|constructor]. unfold oversample_trace.
        apply Forall_fmap. eapply Forall_impl; [exact Hover|]. by intros rv [? ?].
      - by repeat constructor. }
    unfold bist_prbs_full_trace.
    match goal with
    | |- spi_regs (?h ++ ?o ++ ?c ++ (?s ++ ?rx ++ ?t ++ ?tx) ++ ?ov ++ ?cl) !! _ = _ =>
        replace (h ++ o ++ c ++ (s ++ rx ++ t ++ tx) ++ ov ++ cl)
          with (((h ++ o ++ c ++ s ++ rx ++ t) ++ tx) ++ ov ++ cl)
          by (by rewrite <- !app_assoc)
    end.
    rewrite spi_regs_leaves by exact Htail.
    apply (spi_regs_calibrate TX).
Qed.

End Registers.

(** ** The command line *)

Section CommandLine.
Import Main.
Context {hdr : Headers} {env : Env} {dft : Defaults} {libc : Libc}.

Lemma apply_option_cases r l :
  (is_long 1 r ∧ apply_option r l = set_refclk_freq (strtod_int64 (opt_arg r)) l) ∨
  (is_long 2 r ∧ apply_option r l = set_samplerate (strtod_uint32 (opt_arg r)) l) ∨
  (is_long 3 r ∧ apply_option r l = set_bandwidth (strtod_int32 (opt_arg r)) l) ∨
  (is_long 4 r ∧ apply_option r l = set_tx_freq (strtod_int64 (opt_arg r)) l) ∨
  (is_long 5 r ∧ apply_option r l = set_rx_freq (strtod_int64 (opt_arg r)) l) ∨
  (is_long 6 r ∧ apply_option r l = set_tx_gain (strtod_int64 (opt_arg r)) l) ∨
  (is_long 7 r ∧ apply_option r l = set_rx_gain (strtod_int64 (opt_arg r)) l) ∨
  (is_long 8 r ∧ apply_option r l = set_loopback (strtod_uint8 (opt_arg r)) l) ∨
  (is_long 9 r ∧ apply_option r l = set_bist_tx_tone true l) ∨
  (is_long 10 r ∧ apply_option r l = set_bist_rx_tone true l) ∨
  (is_long 11 r ∧ apply_option r l = set_bist_prbs true l) ∨
  (is_long 12 r ∧ apply_option r l = set_bist_tone_freq (strtod_int32 (opt_arg r)) l) ∨
  (is_long 13 r ∧ apply_option r l = set_enable_8bit_mode true l) ∨
  (is_long 14 r ∧ apply_option r l = set_enable_oversample true l) ∨
  (is_short 56 r ∧ apply_option r l = set_enable_8bit_mode true l) ∨
  (¬ accepted r ∧ apply_option r l = l).
Proof.
  destruct r as [c i a err].
  unfold apply_option, is_long, is_short, accepted. cbn [opt_c opt_index opt_arg].
  destruct (Z.eqb_spec c 0) as [->|Hc0].
  - destruct (decide (1 ≤ i ≤ 14)) as [Hi|Hi].
    + assert (Hcases : i = 1 ∨ i = 2 ∨ i = 3 ∨ i = 4 ∨ i = 5 ∨ i = 6 ∨ i = 7 ∨ i = 8 ∨
                       i = 9 ∨ i = 10 ∨ i = 11 ∨ i = 12 ∨ i = 13 ∨ i = 14) by lia.
      destruct_or!; subst i;
        repeat first [ left; split; [split; reflexivity | reflexivity] | right ].
    + do 15 right. split; [intros [[_ ?]|?]; [contradiction|discriminate]|].
      destruct i as [|q|q]; [reflexivity| |reflexivity].
      do 4 (try destruct q as [q|q|]); first [reflexivity | exfalso; lia].
  - destruct (Z.eqb_spec c 56) as [->|Hc56]; [do 14 right; left; done|].
    do 15 right. split; [|reflexivity]. intros [[? _]|?]; contradiction.
Qed.

Lemma switch_c_accepted r l w :
  accepted r → switch_c r l w = (Returned (apply_option r l), w).
Proof.
  destruct r as [c i a err].
  unfold accepted, switch_c, apply_option. cbn [opt_c opt_index opt_arg].
  intros [[-> Hi]| ->]; [|reflexivity].
  assert (Hcases : i = 1 ∨ i = 2 ∨ i = 3 ∨ i = 4 ∨ i = 5 ∨ i = 6 ∨ i = 7 ∨ i = 8 ∨
                   i = 9 ∨ i = 10 ∨ i = 11 ∨ i = 12 ∨ i = 13 ∨ i = 14) by lia.
  destruct_or!; subst i; reflexivity.
Qed.

Lemma accepted_not_end r : accepted r → (opt_c r =? -1) = false.
Proof. intros [[-> _]| ->]; reflexivity. Qed.

Lemma accepted_not_err r : accepted r → (opt_c r =? 63) = false.
Proof. intros [[-> _]| ->]; reflexivity. Qed.

Lemma parse_app rs rest l w :
  Forall accepted rs →
  parse (rs ++ rest) l w = parse rest (foldl (flip apply_option) l rs) w.
Proof.
  intros Hrs. revert l. induction Hrs as [|r rs Hr _ IH]; intros l; [reflexivity|].
  cbn [app parse foldl]. rewrite (accepted_not_end r Hr), (accepted_not_err r Hr).
  unfold mbind, M_bind, mret, M_ret. rewrite (switch_c_accepted r l w Hr). apply IH.
Qed.

Lemma parse_accepted rs l w :
  Forall accepted rs → parse rs l w = (Returned (foldl (flip apply_option) l rs), w).
Proof.
  intros Hrs. rewrite <- (app_nil_r rs) at 1. by rewrite parse_app.
Qed.

Lemma last_arg_snoc (P : Getopt → Prop) `{∀ r, Decision (P r)} rs r :
  last_arg P (rs ++ [r]) = if decide (P r) then Some (opt_arg r) else last_arg P rs.
Proof.
  unfold last_arg. rewrite filter_app, filter_cons, filter_nil.
  destruct (decide (P r)); [by rewrite last_snoc|by rewrite app_nil_r].
Qed.

Lemma occurs_snoc (P : Getopt → Prop) `{∀ r, Decision (P r)} rs r :
  occurs P (rs ++ [r]) = bool_decide (P r) || occurs P rs.
Proof.
  unfold occurs. apply eq_true_iff_eq.
  rewrite orb_true_iff, !bool_decide_eq_true, Exists_app, Exists_cons, Exists_nil.
  tauto.
Qed.

(** A local that one option sets from its argument holds the
    conversion of the last such argument. *)
Lemma foldl_last_arg {A} (f : Locals → A) (conv : string → A)
    (P : Getopt → Prop) `{∀ r, Decision (P r)} :
  (∀ r l, f (apply_option r l) = if decide (P r) then conv (opt_arg r) else f l) →
  ∀ rs l, f (foldl (flip apply_option) l rs) = from_option conv (f l) (last_arg P rs).
Proof.
  intros Hstep rs l. induction rs as [|r rs IH] using rev_ind; [reflexivity|].
  rewrite foldl_app, last_arg_snoc. cbn [foldl flip]. rewrite Hstep.
  destruct (decide (P r)); [reflexivity|exact IH].
Qed.

(** A flag that options only set holds whether one of them occurred. *)
Lemma foldl_occurs (f : Locals → bool) (P : Getopt → Prop) `{∀ r, Decision (P r)} :
  (∀ r l, f (apply_option r l) = bool_decide (P r) || f l) →
  ∀ rs l, f (foldl (flip apply_option) l rs) = occurs P rs || f l.
Proof.
  intros Hstep rs l. induction rs as [|r rs IH] using rev_ind; [reflexivity|].
  rewrite foldl_app, occurs_snoc. cbn [foldl flip]. rewrite Hstep, IH.
  by rewrite orb_assoc.
Qed.

(** A local that no accepted option sets keeps its value. *)
Lemma foldl_keeps {A} (f : Locals → A) :
  (∀ r l, f (apply_option r l) = f l) →
  ∀ rs l, f (foldl (flip apply_option) l rs) = f l.
Proof.
  intros Hstep rs. induction rs as [|r rs IH]; intros l; [reflexivity|].
  cbn [foldl flip]. by rewrite IH, Hstep.
Qed.

Ltac option_keep :=
  let r := fresh "r" in
  let l := fresh "l" in
  let Hc := fresh "Hc" in
  intros r l; pose proof (apply_option_cases r l) as Hc;
  destruct_or! Hc; destruct Hc as [_ ->]; destruct l; reflexivity.

Ltac option_step :=
  let r := fresh "r" in
  let l := fresh "l" in
  let Hc := fresh "Hc" in
  let HP := fresh "HP" in
  intros r l; pose proof (apply_option_cases r l) as Hc;
  destruct_or! Hc; destruct Hc as [HP ->]; destruct l; simpl;
  first [case_decide | case_bool_decide];
  unfold is_long, is_short, accepted in *;
  first [reflexivity | exfalso; lia].

(** The locals after a run of accepted options. *)
Lemma parse_fields rs :
  let l := foldl (flip apply_option) locals_init rs in
  litepcie_device_num l = 0 ∧
  refclk_freq l = from_option strtod_int64 DEFAULT_REFCLK_FREQ (last_arg (is_long 1) rs) ∧
  samplerate l = from_option strtod_uint32 DEFAULT_SAMPLERATE (last_arg (is_long 2) rs) ∧
  bandwidth l = from_option strtod_int32 DEFAULT_BANDWIDTH (last_arg (is_long 3) rs) ∧
  tx_freq l = from_option strtod_int64 DEFAULT_TX_FREQ (last_arg (is_long 4) rs) ∧
  rx_freq l = from_option strtod_int64 DEFAULT_RX_FREQ (last_arg (is_long 5) rs) ∧
  tx_gain l = from_option strtod_int64 DEFAULT_TX_GAIN (last_arg (is_long 6) rs) ∧
  rx_gain l = from_option strtod_int64 DEFAULT_RX_GAIN (last_arg (is_long 7) rs) ∧
  loopback l = from_option strtod_uint8 DEFAULT_LOOPBACK (last_arg (is_long 8) rs) ∧
  bist_tx_tone l = occurs (is_long 9) rs ∧
  bist_rx_tone l = occurs (is_long 10) rs ∧
  bist_prbs l = occurs (is_long 11) rs ∧
  bist_tone_freq l =
    from_option strtod_int32 DEFAULT_BIST_TONE_FREQ (last_arg (is_long 12) rs) ∧
  enable_8bit_mode l = occurs (λ r, is_long 13 r ∨ is_short 56 r) rs ∧
  enable_oversample l = occurs (is_long 14) rs.
Proof.
  intros l. subst l. split_and!.
  - apply (foldl_keeps litepcie_device_num). option_keep.
  - apply (foldl_last_arg refclk_freq strtod_int64 (is_long 1)). option_step.
  - apply (foldl_last_arg samplerate strtod_uint32 (is_long 2)). option_step.
  - apply (foldl_last_arg bandwidth strtod_int32 (is_long 3)). option_step.
  - apply (foldl_last_arg tx_freq strtod_int64 (is_long 4)). option_step.
  - apply (foldl_last_arg rx_freq strtod_int64 (is_long 5)). option_step.
  - apply (foldl_last_arg tx_gain strtod_int64 (is_long 6)). option_step.
  - apply (foldl_last_arg rx_gain strtod_int64 (is_long 7)). option_step.
  - apply (foldl_last_arg loopback strtod_uint8 (is_long 8)). option_step.
  - rewrite (foldl_occurs bist_tx_tone (is_long 9)); [apply orb_false_r|]. option_step.
  - rewrite (foldl_occurs bist_rx_tone (is_long 10)); [apply orb_false_r|]. option_step.
  - rewrite (foldl_occurs bist_prbs (is_long 11)); [apply orb_false_r|]. option_step.
  - apply (foldl_last_arg bist_tone_freq strtod_int32 (is_long 12)). option_step.
  - rewrite (foldl_occurs enable_8bit_mode (λ r, is_long 13 r ∨ is_short 56 r));
      [apply orb_false_r|]. option_step.
  - rewrite (foldl_occurs enable_oversample (is_long 14)); [apply orb_false_r|].
    option_step.
Qed.

Lemma switch_c_rejected r w :
  rejected r →
  ∃ w', (∀ l, switch_c r l w = (Exited 1, w')) ∧
        events w' = events w ++
          if opt_c r =? 0 then [ Stderr "unknown option index: %d" [opt_index r] ]
          else if opt_c r =? 104 then [ Printf help_format help_args ]
          else [].
Proof.
  destruct r as [c i a err].
  unfold rejected, accepted, switch_c. cbn [opt_c opt_index opt_arg].
  intros (Hend & Hdev & Hrej).
  destruct (Z.eqb_spec c 0) as [->|Hc0].
  - assert (Hi : ¬ 1 ≤ i ≤ 14) by (intros Hi; apply Hrej; by left).
    destruct i as [|q|q]; [| |];
      [|do 4 (try destruct q as [q|q|]); try (exfalso; lia)|];
      (eexists; split; [intros l; reflexivity|]);
      reflexivity.
  - destruct (Z.eqb_spec c 104) as [->|Hc104].
    { eexists. split; [intros l; reflexivity|]. reflexivity. }
    destruct (Z.eqb_spec c 99) as [->|Hc99]; [contradiction|].
    destruct (Z.eqb_spec c 56) as [->|Hc56]; [exfalso; apply Hrej; by right|].
    exists w. split; [intros l; reflexivity|]. by rewrite app_nil_r.
Qed.

Lemma switch_c_device r l w : opt_c r = 99 → switch_c r l w = (Killed 11, w).
Proof. destruct r as [c i a err]. cbn [opt_c]. intros ->. reflexivity. Qed.

(** The diagnostic of [getopt_long_only] and the rejection by [main]. *)
Lemma parse_rejected r rs l w :
  rejected r →
  ∃ w', parse (r :: rs) l w = (Exited 1, w') ∧
        events w' = events w ++ rejection_trace r.
Proof.
  intros Hr. cbn [parse]. unfold rejection_trace.
  destruct (Z.eqb_spec (opt_c r) 63) as [H63|H63].
  - unfold mbind at 1, M_bind at 1, fprintf_stderr, call.
    rewrite H63. cbn [Z.eqb Pos.eqb].
    set (w1 := mkWorld _ _ _).
    destruct (switch_c_rejected r w1 Hr) as (w' & Hsw & Hev).
    exists w'. unfold mbind, M_bind. rewrite Hsw. split; [reflexivity|].
    rewrite Hev, H63. subst w1. cbn [events Z.eqb Pos.eqb]. by rewrite app_nil_r.
  - destruct (switch_c_rejected r w Hr) as (w' & Hsw & Hev).
    exists w'. destruct Hr as (Hend & _ & _).
    destruct (Z.eqb_spec (opt_c r) (-1)) as [?|_]; [contradiction|].
    unfold mbind, M_bind, mret, M_ret. rewrite Hsw. split; [reflexivity|].
    rewrite Hev. by destruct (opt_c r =? 0), (opt_c r =? 104).
Qed.

(** X11: after a run of options that [main] accepts, each local holds
    the conversion of the argument of the last occurrence of its option,
    or its default when the option does not occur; each flag holds
    whether its option occurs, the 8-bit flag for a return of index 13 or
    of character ['8']; the device number is 0, no accepted option
    setting it; and reading the options makes no call. *)
Theorem options_last_occurrence_wins (rs : list Getopt) (w : World) :
  Forall accepted rs →
  runs (parse rs locals_init) w
    (λ l evs,
       evs = [] ∧
       litepcie_device_num l = 0 ∧
       refclk_freq l =
         from_option strtod_int64 DEFAULT_REFCLK_FREQ (last_arg (is_long 1) rs) ∧
       samplerate l =
         from_option strtod_uint32 DEFAULT_SAMPLERATE (last_arg (is_long 2) rs) ∧
       bandwidth l = from_option strtod_int32 DEFAULT_BANDWIDTH (last_arg (is_long 3) rs) ∧
       tx_freq l = from_option strtod_int64 DEFAULT_TX_FREQ (last_arg (is_long 4) rs) ∧
       rx_freq l = from_option strtod_int64 DEFAULT_RX_FREQ (last_arg (is_long 5) rs) ∧
       tx_gain l = from_option strtod_int64 DEFAULT_TX_GAIN (last_arg (is_long 6) rs) ∧
       rx_gain l = from_option strtod_int64 DEFAULT_RX_GAIN (last_arg (is_long 7) rs) ∧
       loopback l = from_option strtod_uint8 DEFAULT_LOOPBACK (last_arg (is_long 8) rs) ∧
       bist_tx_tone l = occurs (is_long 9) rs ∧
       bist_rx_tone l = occurs (is_long 10) rs ∧
       bist_prbs l = occurs (is_long 11) rs ∧
       bist_tone_freq l =
         from_option strtod_int32 DEFAULT_BIST_TONE_FREQ (last_arg (is_long 12) rs) ∧
       enable_8bit_mode l = occurs (λ r, is_long 13 r ∨ is_short 56 r) rs ∧
       enable_oversample l = occurs (is_long 14) rs).
Proof.
  intros Hrs. exists (foldl (flip apply_option) locals_init rs), w, [].
  split; [by apply parse_accepted|]. split; [by rewrite app_nil_r|].
  split; [reflexivity|]. apply parse_fields.
Qed.

(** X12: at the first return of [getopt_long_only] that [main] does not
    go on after, the process ends without having opened the device.  For
    ['c'] it is ended by [SIGSEGV] in [atoi(NULL)], having printed
    nothing.  For any other such return it ends with status 1, and what
    has been printed is the help for [-h], the diagnostic of
    [getopt_long_only] itself for ['?'], the index for a long option of
    unknown index, and nothing for any other value. *)
Theorem main_rejected_option (pre : list Getopt) (r : Getopt) (post : list Getopt)
    (w : World) :
  Forall accepted pre →
  (rejected r → exits (main (pre ++ r :: post)) w 1 (rejection_trace r)) ∧
  (opt_c r = 99 → killed (main (pre ++ r :: post)) w 11 []).
Proof.
  intros Hpre. split.
  - intros Hr. destruct (parse_rejected r post (foldl (flip apply_option) locals_init pre)
                           w Hr) as (w' & Hp & Hev).
    exists w'. split; [|exact Hev].
    unfold main, mbind, M_bind. rewrite parse_app by exact Hpre. by rewrite Hp.
  - intros Hc. exists w. split; [|by rewrite app_nil_r].
    unfold main, mbind at 1, M_bind at 1. rewrite parse_app by exact Hpre.
    cbn [parse]. rewrite Hc. cbn [Z.eqb Pos.eqb].
    unfold mbind, M_bind, mret, M_ret. by rewrite (switch_c_device r _ w Hc).
Qed.

Lemma apply_option_clear_refclk r l :
  set_refclk_freq 0 (apply_option r l) =
  set_refclk_freq 0 (apply_option r (set_refclk_freq 0 l)).
Proof.
  destruct r as [c i a err]. unfold apply_option. cbn [opt_c opt_index opt_arg].
  destruct (c =? 0).
  - destruct i as [|q|q]; [reflexivity| |reflexivity].
    do 4 (try destruct q as [q|q|]); reflexivity.
  - destruct (c =? 56); reflexivity.
Qed.

Lemma apply_option_refclk r l l' :
  set_refclk_freq 0 l = set_refclk_freq 0 l' →
  set_refclk_freq 0 (apply_option r l) = set_refclk_freq 0 (apply_option r l').
Proof.
  intros H. rewrite (apply_option_clear_refclk r l), (apply_option_clear_refclk r l').
  by rewrite H.
Qed.

Lemma apply_option_long_1 r l :
  is_long 1 r → set_refclk_freq 0 (apply_option r l) = set_refclk_freq 0 l.
Proof.
  destruct r as [c i a err]. intros [Hc Hi]. cbn in Hc, Hi. subst c i. reflexivity.
Qed.

(** What happens at a return does not depend on the locals, unless
    [main] goes on after it. *)
Lemma parse_stops r rs w :
  opt_c r ≠ -1 → ¬ accepted r →
  ∃ o, ∀ l, parse (r :: rs) l w = o ∧
            match o.1 with Returned _ => False | _ => True end.
Proof.
  intros Hend Hacc. destruct (decide (opt_c r = 99)) as [Hdev|Hdev].
  - exists (Killed 11, w). intros l. split; [|done]. cbn [parse]. rewrite Hdev.
    cbn [Z.eqb Pos.eqb]. unfold mbind, M_bind, mret, M_ret.
    by rewrite (switch_c_device r _ w Hdev).
  - assert (Hr : rejected r) by done.
    destruct (switch_c_rejected r w Hr) as (w' & Hsw & _).
    destruct (Z.eqb_spec (opt_c r) 63) as [H63|H63].
    + set (w1 := mkWorld (events w ++ [Stderr (opt_err r) []]) (keep_running w)
                   (sigint w)).
      destruct (switch_c_rejected r w1 Hr) as (w1' & Hsw1 & _).
      exists (Exited 1, w1'). intros l. split; [|done]. cbn [parse].
      unfold mbind at 1, M_bind at 1, fprintf_stderr, call. rewrite H63.
      cbn [Z.eqb Pos.eqb]. fold w1. unfold mbind, M_bind. by rewrite Hsw1.
    + exists (Exited 1, w'). intros l. split; [|done]. cbn [parse].
      destruct (Z.eqb_spec (opt_c r) 63) as [?|_]; [contradiction|].
      destruct (Z.eqb_spec (opt_c r) (-1)) as [?|_]; [contradiction|].
      unfold mbind, M_bind, mret, M_ret. by rewrite Hsw.
Qed.

Lemma parse_stops_eq r rs rs' l w :
  opt_c r ≠ -1 → ¬ accepted r → parse (r :: rs) l w = parse (r :: rs') l w.
Proof.
  intros Hend Hacc. cbn [parse].
  destruct (Z.eqb_spec (opt_c r) (-1)) as [?|_]; [contradiction|].
  assert (Hsw : ∀ w0, ∃ o w', switch_c r l w0 = (o, w') ∧
                      match o with Returned _ => False | _ => True end).
  { intros w0. destruct (decide (opt_c r = 99)) as [Hdev|Hdev].
    - exists (Killed 11), w0. by rewrite (switch_c_device r l w0 Hdev).
    - destruct (switch_c_rejected r w0) as (w' & Hsw & _); [done|].
      exists (Exited 1), w'. by rewrite Hsw. }
  unfold mbind at 1 3, M_bind at 1 3.
  destruct ((if opt_c r =? 63 then fprintf_stderr (opt_err r) [] else mret tt) w)
    as [[[]|s|s] w0]; [|reflexivity..].
  unfold mbind, M_bind. destruct (Hsw w0) as (o & w' & -> & Ho). by destruct o.
Qed.

Lemma parse_ignores_refclk rs :
  ∀ l l' w,
    set_refclk_freq 0 l = set_refclk_freq 0 l' →
    match parse rs l w, parse (filter (λ r, ¬ is_long 1 r) rs) l' w with
    | (Returned a, w1), (Returned a', w2) =>
        set_refclk_freq 0 a = set_refclk_freq 0 a' ∧ w1 = w2
    | (Exited s1, w1), (Exited s2, w2) => s1 = s2 ∧ w1 = w2
    | (Killed s1, w1), (Killed s2, w2) => s1 = s2 ∧ w1 = w2
    | _, _ => False
    end.
Proof.
  induction rs as [|r rs IH]; intros l l' w H; [by split|].
  destruct (decide (is_long 1 r)) as [Hlong|Hlong].
  - rewrite filter_cons_False by (intros Hn; by apply Hn).
    assert (Hacc : accepted r) by (destruct Hlong as [? ?]; left; lia).
    cbn [parse]. rewrite (accepted_not_end r Hacc), (accepted_not_err r Hacc).
    unfold mbind, M_bind, mret, M_ret.
    rewrite (switch_c_accepted r l w Hacc). apply IH.
    by rewrite apply_option_long_1.
  - rewrite filter_cons_True by exact Hlong.
    destruct (Z.eqb_spec (opt_c r) (-1)) as [Hend|Hend].
    { cbn [parse]. rewrite Hend. by split. }
    destruct (decide (accepted r)) as [Hacc|Hacc].
    + cbn [parse]. rewrite (accepted_not_end r Hacc), (accepted_not_err r Hacc).
      unfold mbind, M_bind, mret, M_ret.
      rewrite !(switch_c_accepted r _ w Hacc). apply IH. by apply apply_option_refclk.
    + destruct (parse_stops r rs w Hend Hacc) as ([o w'] & Ho).
      rewrite (parse_stops_eq r (filter (λ r, ¬ is_long 1 r) rs) rs l' w Hend Hacc).
      rewrite (proj1 (Ho l)), (proj1 (Ho l')).
      destruct (Ho l) as [_ Hstop]. cbn [fst] in Hstop. by destruct o.
Qed.

(** X13: the option [-refclk_freq] has no effect: [main] makes the same
    calls, with the same results and the same end, as on the command line
    without it. *)
Theorem main_ignores_refclk_freq (rs : list Getopt) (w : World) :
  main rs w = main (filter (λ r, ¬ is_long 1 r) rs) w.
Proof.
  unfold main, mbind, M_bind.
  pose proof (parse_ignores_refclk rs locals_init locals_init w eq_refl) as H.
  destruct (parse rs locals_init w) as [[a|s1|s1] w1],
           (parse (filter (λ r, ¬ is_long 1 r) rs) locals_init w) as [[a'|s2|s2] w2];
    try contradiction.
  - destruct H as [H ->]. destruct a, a'. unfold set_refclk_freq in H. cbn in H.
    injection H as -> -> -> -> -> -> -> -> -> -> -> -> -> ->. reflexivity.
  - by destruct H as [-> ->].
  - by destruct H as [-> ->].
Qed.

(** X14: on options it accepts, when the device opens, [main] returns 0
    whatever the test finds, and each value of the command line reaches
    the driver call it is meant for: the sample rate (halved with
    [-oversample]) both sampling rates, the bandwidth both bandwidths,
    [-tx_freq] the TX and [-rx_freq] the RX local oscillator, [-tx_gain]
    the attenuation, [-rx_gain] the gain of both channels, [-loopback]
    the loopback, and [-bist_tone_freq] the tones. *)
Theorem main_passes_options_to_driver (rs : list Getopt) (w : World) :
  Forall accepted rs →
  0 ≤ input (events w ++ [Open]) →
  let arg (conv : string → Z) (dflt k : Z) :=
    from_option conv dflt (last_arg (is_long k) rs) in
  let asked := arg strtod_uint32 DEFAULT_SAMPLERATE 2 in
  let rate := if occurs (is_long 14) rs then asked `div` 2 else asked in
  runs (main rs) w
    (λ status evs,
       status = 0 ∧
       List.filter is_ad9361_call evs =
       [ Ad9361Init 0 (-1) (-1) (-1);
         SetTxSamplingFreq rate; SetRxSamplingFreq rate;
         SetRxRfBandwidth (arg strtod_int32 DEFAULT_BANDWIDTH 3);
         SetTxRfBandwidth (arg strtod_int32 DEFAULT_BANDWIDTH 3);
         SetTxLoFreq (arg strtod_int64 DEFAULT_TX_FREQ 4);
         SetRxLoFreq (arg strtod_int64 DEFAULT_RX_FREQ 5);
         SetTxFirConfig; SetRxFirConfig;
         SetTxAtten (tx_atten_arg (arg strtod_int64 DEFAULT_TX_GAIN 6)) 1 1 1;
         SetRxRfGain 0 (arg strtod_int64 DEFAULT_RX_GAIN 7);
         SetRxRfGain 1 (arg strtod_int64 DEFAULT_RX_GAIN 7);
         BistLoopback (arg strtod_uint8 DEFAULT_LOOPBACK 8) ] ++
       (if occurs (is_long 9) rs
        then [BistTone BIST_INJ_TX (arg strtod_int32 DEFAULT_BIST_TONE_FREQ 12) 0 0]
        else []) ++
       (if occurs (is_long 10) rs
        then [BistTone BIST_INJ_RX (arg strtod_int32 DEFAULT_BIST_TONE_FREQ 12) 0 0]
        else []) ++
       (if occurs (is_long 11) rs then [BistPrbs BIST_INJ_RX; BistLoopback 1] else [])).
Proof.
  intros Hrs Hfd arg asked rate. subst arg asked rate. cbv beta.
  destruct (parse_fields rs)
    as (_ & _ & <- & <- & <- & <- & <- & <- & <- & <- & <- & <- & <- & _ & <-).
  unfold main. eapply runs_bind.
  { instantiate (1 := λ l evs, evs = [] ∧ l = foldl (flip apply_option) locals_init rs).
    exists (foldl (flip apply_option) locals_init rs), w, [].
    split; [by apply parse_accepted|]. by rewrite app_nil_r. }
  intros l ? w1 Hw1 [-> ->]. rewrite app_nil_r in Hw1.
  set (l := foldl (flip apply_option) locals_init rs).
  eapply runs_bind.
  { apply (filter_m2sdr_init is_ad9361_call);
      [by intros []|reflexivity|reflexivity|reflexivity|reflexivity|reflexivity|].
    by rewrite Hw1. }
  intros [] evs w2 _ Hevs. apply runs_ret. split; [reflexivity|].
  rewrite app_nil_l, app_nil_r, Hevs, List.filter_app. unfold config_trace.
  destruct (bist_tx_tone l), (bist_rx_tone l), (bist_prbs l); reflexivity.
Qed.

End CommandLine.

Lemma options_last_occurrence_wins_witness :
  runs (Main.parse (dft := Main.sample_defaults) (libc := Main.sample_libc)
          Main.sample_options
          (Main.locals_init (dft := Main.sample_defaults))) (world_init no_sigint)
    (λ l evs,
       evs = [] ∧ Main.samplerate l = 30720000 ∧ Main.bandwidth l = 56000000 ∧
       Main.bist_prbs l = true ∧ Main.bist_tx_tone l = false ∧
       Main.enable_8bit_mode l = true).
Proof.
  eapply runs_weaken.
  - apply (options_last_occurrence_wins (dft := Main.sample_defaults)
             (libc := Main.sample_libc) Main.sample_options (world_init no_sigint)).
    apply (bool_decide_unpack _). vm_compute. exact I.
  - intros l evs (-> & _ & _ & -> & -> & _ & _ & _ & _ & _ & -> & _ & -> & _ & -> & _).
    vm_compute. repeat split.
Defined.

Lemma main_rejected_option_witness :
  exits (Main.main (hdr := sample_headers) (env := sample_board)
           (dft := Main.sample_defaults) (libc := Main.sample_libc)
           (Main.sample_options ++ Main.sample_unknown :: []))
    (world_init no_sigint) 1 [ Stderr "m2sdr_rf: unrecognized option '-x'" [] ] ∧
  killed (Main.main (hdr := sample_headers) (env := sample_board)
            (dft := Main.sample_defaults) (libc := Main.sample_libc)
            (Main.sample_options ++ Main.sample_device :: []))
    (world_init no_sigint) 11 [].
Proof.
  split.
  - apply (proj1 (main_rejected_option (hdr := sample_headers) (env := sample_board)
                    (dft := Main.sample_defaults) (libc := Main.sample_libc)
                    Main.sample_options Main.sample_unknown [] (world_init no_sigint)
                    ltac:(apply (bool_decide_unpack _); vm_compute; exact I))).
    apply (bool_decide_unpack _). vm_compute. exact I.
  - apply (proj2 (main_rejected_option (hdr := sample_headers) (env := sample_board)
                    (dft := Main.sample_defaults) (libc := Main.sample_libc)
                    Main.sample_options Main.sample_device [] (world_init no_sigint)
                    ltac:(apply (bool_decide_unpack _); vm_compute; exact I))).
    reflexivity.
Defined.

Lemma main_passes_options_to_driver_witness :
  runs (Main.main (hdr := sample_headers) (env := sample_board)
          (dft := Main.sample_defaults) (libc := Main.sample_libc) Main.sample_options)
    (world_init no_sigint)
    (λ status evs,
       status = 0 ∧
       List.filter is_ad9361_call evs =
       [ Ad9361Init 0 (-1) (-1) (-1);
         SetTxSamplingFreq 15360000; SetRxSamplingFreq 15360000;
         SetRxRfBandwidth 56000000; SetTxRfBandwidth 56000000;
         SetTxLoFreq 2400000000; SetRxLoFreq 2400000000;
         SetTxFirConfig; SetRxFirConfig;
         SetTxAtten 20000 1 1 1; SetRxRfGain 0 0; SetRxRfGain 1 0;
         BistLoopback 0; BistPrbs 2; BistLoopback 1 ]).
Proof.
  apply (main_passes_options_to_driver (hdr := sample_headers) (env := sample_board)
           (dft := Main.sample_defaults) (libc := Main.sample_libc) Main.sample_options
           (world_init no_sigint)).
  - apply (bool_decide_unpack _). vm_compute. exact I.
  - vm_compute. discriminate.
Defined.

(** ** Witnesses of the properties of [m2sdr_init] *)

Lemma m2sdr_init_driver_calls_witness :
  runs (m2sdr_init (hdr := sample_headers) (env := sample_board)
          30720000 56000000 38400000 2400000000 2400000000 (-20) 0 1
          true false true 1000000 false true) (world_init no_sigint)
    (λ _ evs,
       List.filter is_ad9361_call evs =
       [ Ad9361Init 0 (-1) (-1) (-1);
         SetTxSamplingFreq 15360000; SetRxSamplingFreq 15360000;
         SetRxRfBandwidth 56000000; SetTxRfBandwidth 56000000;
         SetTxLoFreq 2400000000; SetRxLoFreq 2400000000;
         SetTxFirConfig; SetRxFirConfig;
         SetTxAtten 20000 1 1 1; SetRxRfGain 0 0; SetRxRfGain 1 0;
         BistLoopback 1; BistTone 1 1000000 0 0; BistPrbs 2; BistLoopback 1 ]).
Proof.
  apply (m2sdr_init_driver_calls (hdr := sample_headers) (env := sample_board)
           30720000 56000000 38400000 2400000000 2400000000 (-20) 0 1
           true false true 1000000 false true (world_init no_sigint)).
  vm_compute. discriminate.
Defined.

Lemma m2sdr_init_csr_writes_witness :
  runs (m2sdr_init (hdr := sample_headers) (env := sample_board)
          30720000 56000000 38400000 2400000000 2400000000 (-20) 0 1
          false false true 1000000 true false) (world_init no_sigint)
    (λ _ evs,
       List.filter is_writel evs =
       [ Writel 3 0x5000 1; Writel 3 0x5004 0; Writel 3 0x5008 0; Writel 3 0x5008 1 ]).
Proof.
  apply (m2sdr_init_csr_writes (hdr := sample_headers) (env := sample_board)
           30720000 56000000 38400000 2400000000 2400000000 (-20) 0 1
           false false true 1000000 true false (world_init no_sigint)).
  vm_compute. discriminate.
Defined.

Lemma m2sdr_init_sleeps_witness :
  runs (m2sdr_init (hdr := sample_headers) (env := sample_board)
          30720000 56000000 38400000 2400000000 2400000000 (-20) 0 1
          false false true 1000000 false false) (world_init no_sigint)
    (λ _ evs, sleep_total evs = 5120000).
Proof.
  apply (m2sdr_init_sleeps (hdr := sample_headers) (env := sample_board)
           30720000 56000000 38400000 2400000000 2400000000 (-20) 0 1
           false false true 1000000 false false (world_init no_sigint)).
  vm_compute. discriminate.
Defined.

Lemma m2sdr_init_descriptor_witness :
  runs (m2sdr_init (hdr := sample_headers) (env := sample_board)
          30720000 56000000 38400000 2400000000 2400000000 (-20) 0 1
          false false true 1000000 false true) (world_init no_sigint)
    (λ _ evs, ∃ mid, evs = Open :: mid ++ [Close 3] ∧ Forall (on_fd 3) mid).
Proof.
  apply (m2sdr_init_descriptor (hdr := sample_headers) (env := sample_board)
           30720000 56000000 38400000 2400000000 2400000000 (-20) 0 1
           false false true 1000000 false true (world_init no_sigint)).
  vm_compute. discriminate.
Defined.

Lemma m2sdr_init_open_failure_witness :
  exits (m2sdr_init (hdr := sample_headers) (env := absent_board)
           30720000 56000000 38400000 2400000000 2400000000 (-20) 0 1
           false false true 1000000 false true) (world_init no_sigint) 1
    [Open; Stderr "Could not init driver" []].
Proof.
  apply (m2sdr_init_open_failure (hdr := sample_headers) (env := absent_board)
           30720000 56000000 38400000 2400000000 2400000000 (-20) 0 1
           false false true 1000000 false true (world_init no_sigint)).
  vm_compute. reflexivity.
Defined.

Lemma delay_registers_at_end_witness :
  runs (m2sdr_init (hdr := sample_headers) (env := sample_board)
          30720000 56000000 38400000 2400000000 2400000000 (-20) 0 1
          false false true 1000000 false true) (world_init no_sigint)
    (λ _ evs, ∃ g_rx g_tx,
       spi_regs (events (world_init no_sigint) ++ evs) !! 6 =
         Some (delays_left (hdr := sample_headers) g_rx) ∧
       spi_regs (events (world_init no_sigint) ++ evs) !! 7 =
         Some (delays_left (hdr := sample_headers) g_tx)).
Proof.
  eapply runs_weaken.
  - apply (delay_registers_at_end (hdr := sample_headers) (env := sample_board)
             30720000 56000000 38400000 2400000000 2400000000 (-20) 0 1
             false false 1000000 false true (world_init no_sigint)).
    + vm_compute. discriminate.
    + vm_compute. discriminate.
    + apply (bool_decide_unpack _). vm_compute. exact I.
  - intros [] evs (g_rx & g_tx & _ & _ & _ & Hrx & Htx). exists g_rx, g_tx.
    split; [exact Hrx|exact Htx].
Defined.

(** ** The bytes of an SPI transfer and the sleeps *)

Lemma lor_shiftl_byte (a b : Z) : 0 ≤ b < 256 → Z.lor (Z.shiftl a 8) b = 256 * a + b.
Proof.
  intros Hb. rewrite Z.shiftl_mul_pow2 by lia.
  assert (Hland : Z.land (a * 2 ^ 8) b = 0).
  { apply Z.bits_inj'. intros n Hn. rewrite Z.land_spec, Z.bits_0.
    destruct (Z.lt_ge_cases n 8) as [Hlt|Hge].
    - by rewrite Z.mul_pow2_bits_low.
    - rewrite <- (Z.mod_small b (2 ^ 8)) by lia.
      rewrite Z.mod_pow2_bits_high by lia. apply andb_false_r. }
  rewrite <- Z.lxor_lor, <- Z.add_nocarry_lxor by exact Hland. lia.
Qed.

Section SpiBytes.
Context {hdr : Headers} {env : Env}.

(** X15: with the two address bytes first in [txbuf], both transfers
    address the register 256·[txbuf[0]] + [txbuf[1]].  A read stores one
    byte, below 256, in [rxbuf[0]] and keeps the length and the other
    bytes of [rxbuf]; a write sends [txbuf[2]] and keeps [rxbuf].  Each
    opens the device, makes its transfer, closes the device and returns
    0. *)
Theorem spi_transfer_address (a b c : Z) (rest rxbuf : list Z) (w : World) :
  let fd := input (events w ++ [Open]) in
  0 ≤ a < 256 → 0 ≤ b < 256 → 0 ≤ fd →
  runs (spi_write_then_read (a :: b :: rest) 2 rxbuf 1) w
    (λ r evs,
       evs = [Open; SpiRead fd (256 * a + b); Close fd] ∧
       r.1 = 0 ∧
       length r.2 = length rxbuf ∧
       (∀ i, (0 < i)%nat → r.2 !! i = rxbuf !! i) ∧
       (∀ v, r.2 !! 0%nat = Some v → 0 ≤ v < 256)) ∧
  runs (spi_write_then_read (a :: b :: c :: rest) 3 rxbuf 0) w
    (λ r evs,
       evs = [Open; SpiWrite fd (256 * a + b) c; Close fd] ∧ r = (0, rxbuf)).
Proof.
  intros fd Ha Hb Hfd.
  unfold spi_write_then_read, fprintf_stderr, m2sdr_ad9361_spi_read,
    m2sdr_ad9361_spi_write.
  split.
  - simpl. change (Z.lor _ b) with (Z.lor (Z.shiftl a 8) b).
    rewrite (lor_shiftl_byte a b Hb).
    eapply runs_bind; [apply runs_call_in_eq|]. intros ? ? w1 Hw1 [-> ->]. fold fd.
    destruct (Z.ltb_spec fd 0) as [|_]; [lia|].
    apply runs_ret_bind, runs_bind_assoc.
    eapply runs_bind; [apply runs_call_in_eq|]. intros v ? w2 _ [-> ->].
    apply runs_ret_bind.
    eapply runs_bind; [apply runs_call_eq|]. intros ? ? w3 _ ->.
    apply runs_ret. cbn [fst snd]. split_and!.
    + reflexivity.
    + reflexivity.
    + apply length_insert.
    + intros i Hi. apply list_lookup_insert_ne. lia.
    + intros v Hv. apply list_lookup_insert_Some in Hv.
      destruct Hv as [(_ & <- & _)|[? _]]; [|done].
      unfold uchar_wrap. apply Z.mod_pos_bound. lia.
  - simpl. change (Z.lor _ b) with (Z.lor (Z.shiftl a 8) b).
    rewrite (lor_shiftl_byte a b Hb).
    eapply runs_bind; [apply runs_call_in_eq|]. intros ? ? w1 Hw1 [-> ->]. fold fd.
    destruct (Z.ltb_spec fd 0) as [|_]; [lia|].
    apply runs_ret_bind, runs_bind_assoc.
    eapply runs_bind; [apply runs_call_eq|]. intros ? ? w2 _ ->.
    apply runs_ret_bind.
    eapply runs_bind; [apply runs_call_eq|]. intros ? ? w3 _ ->.
    by apply runs_ret.
Qed.

(** X16: when the device cannot be opened, [spi_write_then_read] ends
    the process with status 1 after the message on the standard error,
    whatever the buffers and the counts, and makes no transfer. *)
Theorem spi_open_failure (txbuf : list Z) (n_tx : Z) (rxbuf : list Z) (n_rx : Z)
    (w : World) :
  input (events w ++ [Open]) < 0 →
  exits (spi_write_then_read txbuf n_tx rxbuf n_rx) w 1
    [Open; Stderr "Could not init driver" []].
Proof.
  intros Hfd. unfold spi_write_then_read, fprintf_stderr.
  eapply exits_bind_runs; [apply runs_call_in_eq|]. intros ? ? w1 Hw1 [-> ->].
  destruct (Z.ltb_spec (input (events w ++ [Open])) 0) as [_|?]; [|lia].
  eexists. split; [|reflexivity]. apply exits_bind_l. apply exits_call_exit.
Qed.

End SpiBytes.

Lemma spi_transfer_address_witness :
  runs (spi_write_then_read (env := sample_board) [0x80; 0x37] 2 [0xff; 0xee] 1)
    (world_init no_sigint)
    (λ r evs,
       evs = [Open; SpiRead 3 (256 * 0x80 + 0x37); Close 3] ∧
       r.1 = 0 ∧
       length r.2 = length [0xff; 0xee] ∧
       (∀ i, (0 < i)%nat → r.2 !! i = [0xff; 0xee] !! i) ∧
       (∀ v, r.2 !! 0%nat = Some v → 0 ≤ v < 256)).
Proof.
  apply (proj1 (spi_transfer_address (env := sample_board) 0x80 0x37 0 [] [0xff; 0xee]
                  (world_init no_sigint) ltac:(lia) ltac:(lia)
                  ltac:(vm_compute; discriminate))).
Defined.

Lemma spi_open_failure_witness :
  exits (spi_write_then_read (env := absent_board) [0x80; 0x37] 2 [0] 1)
    (world_init no_sigint) 1 [Open; Stderr "Could not init driver" []].
Proof.
  apply (spi_open_failure (env := absent_board) [0x80; 0x37] 2 [0] 1
           (world_init no_sigint)).
  vm_compute. reflexivity.
Defined.

(** X17: [msleep_interruptible] always returns 0 after one sleep.  The
    sleep is the requested time, in microseconds, up to 4294967 ms;
    beyond, the product wraps on 32 bits and the sleep is shorter than
    requested. *)
Theorem msleep_interruptible_wraps (msecs : Z) (w : World) :
  0 ≤ msecs < 2 ^ 32 →
  runs (msleep_interruptible msecs) w
    (λ r evs,
       r = 0 ∧
       ∃ usecs, evs = [Usleep usecs] ∧
                (msecs ≤ 4294967 → usecs = msecs * 1000) ∧
                (4294967 < msecs → usecs < msecs * 1000 - 4294967295)).
Proof.
  intros Hm. unfold msleep_interruptible.
  eapply runs_bind; [apply runs_call_eq|]. intros ? ? w1 _ ->.
  apply runs_ret. split; [reflexivity|].
  exists (uint_wrap (msecs * 1000)). split; [reflexivity|]. unfold uint_wrap. split.
  - intros Hle. apply Z.mod_small. lia.
  - intros Hgt. pose proof (Z.mod_pos_bound (msecs * 1000) (2 ^ 32) ltac:(lia)) as Hb.
    pose proof (Z.div_mod (msecs * 1000) (2 ^ 32) ltac:(lia)) as Hdm.
    assert (1 ≤ (msecs * 1000) `div` 2 ^ 32) by (apply Z.div_le_lower_bound; lia).
    lia.
Qed.

Lemma msleep_interruptible_wraps_witness :
  runs (msleep_interruptible 4294968) (world_init no_sigint)
    (λ r evs,
       r = 0 ∧
       ∃ usecs, evs = [Usleep usecs] ∧
                (4294968 ≤ 4294967 → usecs = 4294968 * 1000) ∧
                (4294967 < 4294968 → usecs < 4294968 * 1000 - 4294967295)).
Proof.
  apply (msleep_interruptible_wraps 4294968 (world_init no_sigint)). lia.
Defined.

(** ** The help *)

(** X18: [help] prints its text once and ends the process with status
    1.  Each line of the text with a conversion has one, so the lines and
    the arguments pair up in order; the line of [-loopback] is printed
    with the default of the tone frequency, and the line of
    [-bist_tone_freq] with the default of the loopback. *)
Theorem help_swaps_two_defaults {dft : Main.Defaults} (w : World) :
  exits Main.help w 1 [Printf Main.help_format Main.help_args] ∧
  Forall (λ lv, Main.conversions lv.1 = 1%nat) Main.help_shows ∧
  length Main.help_shows = length Main.help_args ∧
  ∀ line v, (line, v) ∈ Main.help_shows →
    (String.prefix "-loopback" line = true → v = Main.DEFAULT_BIST_TONE_FREQ) ∧
    (String.prefix "-bist_tone_freq" line = true → v = Main.DEFAULT_LOOPBACK).
Proof.
  unfold Main.help_shows.
  set (ls := List.filter _ Main.help_lines). vm_compute in ls. subst ls.
  unfold Main.help_args at 2 3 4. cbn [zip zip_with].
  split_and!.
  - unfold Main.help, printf. apply exits_call_exit.
  - repeat (apply Forall_cons_2; [vm_compute; reflexivity|]). apply Forall_nil_2.
  - reflexivity.
  - intros line v Hin.
    repeat (apply elem_of_cons in Hin as [Heq|Hin];
            [injection Heq as -> ->; split; intros Hp; vm_compute in Hp;
             first [discriminate | reflexivity]|]).
    by apply elem_of_nil in Hin.
Qed.

(** ** The interrupt signal and the stop flag *)






(** ** The order of the PRBS test *)

Section Measured.
Context {hdr : Headers} {env : Env}.






End Measured.

